(** * Employee-management backend (main.py): a shallow embedding

    The service keeps four collections (districts, departments, employees,
    attendance) as JSON array files and serves CRUD endpoints over them.
    This development embeds the storage helpers, the endpoint handlers,
    the work-hours calculator and the statistics aggregator of [main.py]
    and proves properties of them.

    Conventions of the embedding.
    - A Python [str] is a Rocq [string]; every literal of the source is
      ASCII.  In the 8-bit range the only characters matched by the regex
      class [\d] are ['0'..'9'].
    - A decoded JSON value is a [json]; a stored record (a Python [dict]
      with string keys) is a [gmap string json].  Key order inside one
      record is not observable by any handler and is not modelled.
    - A JSON number with a fraction is carried as an exact rational.
    - Python exceptions are values of [exn]; a computation that may raise
      returns a [result]; a handler is a function from the store to a
      result and the store it leaves behind, so that writes made before a
      [raise] stay visible.
    - [uuid.uuid4()] and [datetime.now()] are inputs of the handlers. *)

From Stdlib Require Import ZArith QArith Qround Lia Lqa Ascii String DecimalString.
From stdpp Require Import base option list gmap strings fin_maps.

Local Open Scope string_scope.
Local Open Scope list_scope.
Local Open Scope Z_scope.

(** ** JSON values and records *)

#[warnings="-register-all"]
Inductive json : Type :=
  | JNull
  | JBool (b : bool)
  | JInt (n : Z)
  | JFloat (q : Q)
  | JStr (s : string)
  | JArr (items : list json)
  | JObj (fields : list (string * json)).

#[global] Instance Q_eq_dec : EqDecision Q.
Proof. solve_decision. Defined.

(** Syntactic equality of JSON values is decidable. *)
Lemma json_eq_dec : forall a b : json, {a = b} + {a <> b}.
Proof.
  fix IH 1. intros a b.
  decide equality.
  - apply bool_dec.
  - apply Z.eq_dec.
  - apply Q_eq_dec.
  - apply string_dec.
  - apply (List.list_eq_dec IH).
  - apply List.list_eq_dec. intros [k v] [k' v'].
    destruct (string_dec k k') as [->|]; [|right; congruence].
    destruct (IH v v') as [->|]; [left; reflexivity | right; congruence].
Defined.

#[global] Instance json_eq_decision : EqDecision json := json_eq_dec.

Abbreviation record := (gmap string json).

Definition opt_str (o : option string) : json :=
  match o with Some s => JStr s | None => JNull end.

Definition opt_int (o : option Z) : json :=
  match o with Some n => JInt n | None => JNull end.

Definition opt_dict (o : option (list (string * json))) : json :=
  match o with Some d => JObj d | None => JNull end.

(** Python's [==] on decoded JSON values: numbers compare by value across
    [bool], [int] and [float]; strings, lists and dicts structurally. *)
Fixpoint py_eq (a b : json) {struct a} : bool :=
  match a, b with
  | JNull, JNull => true
  | JBool x, JBool y => Bool.eqb x y
  | JBool x, JInt y => Z.b2z x =? y
  | JInt x, JBool y => x =? Z.b2z y
  | JInt x, JInt y => x =? y
  | JBool x, JFloat y => Qeq_bool (inject_Z (Z.b2z x)) y
  | JFloat x, JBool y => Qeq_bool x (inject_Z (Z.b2z y))
  | JInt x, JFloat y => Qeq_bool (inject_Z x) y
  | JFloat x, JInt y => Qeq_bool x (inject_Z y)
  | JFloat x, JFloat y => Qeq_bool x y
  | JStr x, JStr y => String.eqb x y
  | JArr xs, JArr ys =>
      (fix go (xs ys : list json) {struct xs} : bool :=
         match xs, ys with
         | [], [] => true
         | x :: xs', y :: ys' => py_eq x y && go xs' ys'
         | _, _ => false
         end) xs ys
  | JObj xs, JObj ys =>
      (length xs =? length ys)%nat &&
      (fix go (xs : list (string * json)) {struct xs} : bool :=
         match xs with
         | [] => true
         | (k, v) :: xs' =>
             (fix look (ys : list (string * json)) : bool :=
                match ys with
                | [] => false
                | (k', w) :: ys' => if String.eqb k k' then py_eq v w else look ys'
                end) ys && go xs'
         end) xs
  | _, _ => false
  end.

(** [value == s] for a Python [str] [s]. *)
Definition py_eq_str (v : json) (s : string) : bool := py_eq v (JStr s).

(** ** Exceptions and results *)

Inductive exn : Type :=
  | HTTPException (status_code : Z) (detail : string)
  | KeyError (key : string)
  | IndexError
  | TypeError
  | ValueError
  | OSError.

#[global] Instance exn_eq_dec : EqDecision exn.
Proof. solve_decision. Defined.

Inductive result (A : Type) : Type :=
  | Ret (a : A)
  | Raise (e : exn).
Arguments Ret {A} a.
Arguments Raise {A} e.

#[global] Instance result_eq_dec {A} `{EqDecision A} : EqDecision (result A).
Proof. solve_decision. Defined.

Definition rbind {A B} (r : result A) (k : A -> result B) : result B :=
  match r with
  | Ret a => k a
  | Raise e => Raise e
  end.

(** [try: body except Exception: handler] *)
Definition try_except {A} (body : result A) (handler : exn -> result A) : result A :=
  match body with
  | Ret a => Ret a
  | Raise e => handler e
  end.

Declare Scope py_scope.
Delimit Scope py_scope with py.
Notation "'let!' x ':=' e 'in' k" := (rbind e (fun x => k))
  (at level 10, x name, e at level 100, k at level 200) : py_scope.

(** [d[key]] *)
Definition getitem (d : record) (key : string) : result json :=
  match d !! key with
  | Some v => Ret v
  | None => Raise (KeyError key)
  end.

(** [d.get(key, default)] *)
Definition dict_get (d : record) (key : string) (default : json) : json :=
  match d !! key with
  | Some v => v
  | None => default
  end.

(** [d.update(patch)]: every key of [patch] is written, the others stay. *)
Definition dict_update (d patch : record) : record := patch ∪ d.

Local Open Scope py_scope.

(** [any(p(x) for x in xs)] *)
Fixpoint py_any {A} (p : A -> result bool) (xs : list A) : result bool :=
  match xs with
  | [] => Ret false
  | x :: xs' => let! b := p x in if b then Ret true else py_any p xs'
  end.

(** [next((x for x in xs if p(x)), None)] *)
Fixpoint py_next {A} (p : A -> result bool) (xs : list A) : result (option A) :=
  match xs with
  | [] => Ret None
  | x :: xs' => let! b := p x in if b then Ret (Some x) else py_next p xs'
  end.

(** [[x for x in xs if p(x)]] *)
Fixpoint py_filter {A} (p : A -> result bool) (xs : list A) : result (list A) :=
  match xs with
  | [] => Ret []
  | x :: xs' =>
      let! b := p x in
      let! rest := py_filter p xs' in
      Ret (if b then x :: rest else rest)
  end.

(** The index at which [for i, x in enumerate(xs): if p(x): ...] enters
    its body for the first time, counted from [i]. *)
Fixpoint py_index_from {A} (i : nat) (p : A -> result bool) (xs : list A) : result (option nat) :=
  match xs with
  | [] => Ret None
  | x :: xs' => let! b := p x in if b then Ret (Some i) else py_index_from (S i) p xs'
  end.

Definition py_index {A} := @py_index_from A 0%nat.

(** [d[key] == s] *)
Definition field_is (key s : string) (d : record) : result bool :=
  let! v := getitem d key in Ret (py_eq_str v s).

(** [d[key] != s] *)
Definition field_is_not (key s : string) (d : record) : result bool :=
  let! v := getitem d key in Ret (negb (py_eq_str v s)).

(** ** Storage *)

Inductive file : Type :=
  | DISTRICTS_FILE
  | DEPARTMENTS_FILE
  | EMPLOYEES_FILE
  | ATTENDANCE_FILE.

#[global] Instance file_eq_dec : EqDecision file.
Proof. solve_decision. Defined.

(** What a path of the data directory holds: nothing, something that
    [open] or [json.load] rejects with the given exception (no permission,
    bad encoding, malformed JSON), or the JSON text of an array of objects. *)
Inductive file_state : Type :=
  | Absent
  | Unreadable (e : exn)
  | Holds (records : list record).

#[global] Instance file_state_eq_dec : EqDecision file_state.
Proof. solve_decision. Defined.

(** The data directory, and the files written so far (latest first).  The
    directory is taken to be writable: [open(path, 'w')] and [json.dump]
    succeed, so the [except] branch of [save_json_data], which only
    prints, is never entered; [json.dump] followed by [json.load] gives
    the same records back. *)
Record store : Type := mkStore {
  disk : file -> file_state;
  saved : list file
}.

Definition M (A : Type) : Type := store -> result A * store.

Definition pure {A} (a : A) : M A := fun st => (Ret a, st).

Definition bind {A B} (m : M A) (k : A -> M B) : M B :=
  fun st =>
    match m st with
    | (Ret a, st') => k a st'
    | (Raise e, st') => (Raise e, st')
    end.

Definition raise {A} (e : exn) : M A := fun st => (Raise e, st).

(** A computation that does not touch the store. *)
Definition lift {A} (r : result A) : M A := fun st => (r, st).

Notation "'do' x '<-' e ';' k" := (bind e (fun x => k))
  (at level 10, x name, e at level 100, k at level 200) : py_scope.
Notation "'run' e ';' k" := (bind e (fun _ => k))
  (at level 10, e at level 100, k at level 200) : py_scope.

(** [os.path.exists(path)] *)
Definition os_path_exists (st : store) (f : file) : bool :=
  match disk st f with
  | Absent => false
  | _ => true
  end.

(** [with open(path, 'r', encoding='utf-8') as f: return json.load(f)] *)
Definition open_and_json_load (st : store) (f : file) : result (list record) :=
  match disk st f with
  | Absent => Raise OSError
  | Unreadable e => Raise e
  | Holds rs => Ret rs
  end.

Definition load_json_data (f : file) : M (list record) :=
  fun st =>
    if negb (os_path_exists st f) then (Ret [], st)
    else (try_except (open_and_json_load st f) (fun _ => Ret []), st).

Definition save_json_data (f : file) (data : list record) : M unit :=
  fun st =>
    (Ret tt,
     {| disk := fun g => if decide (g = f) then Holds data else disk st g;
        saved := f :: saved st |}).

(** The records a later [load_json_data] of [f] sees. *)
Definition contents (st : store) (f : file) : list record :=
  match disk st f with
  | Holds rs => rs
  | _ => []
  end.

(** ** Attendance calculator *)

(** What [datetime.strptime(s, "%H:%M")] keeps: the date is always
    1900-01-01 and the seconds are 0. *)
Record datetime : Type := mkDatetime { hour : Z; minute : Z }.

(** [timedelta], normalised as Python does: [0 <= seconds < 86400]. *)
Record timedelta : Type := mkTimedelta { days : Z; seconds : Z }.

Definition timedelta_of_seconds (total : Z) : timedelta :=
  {| days := total / 86400; seconds := total mod 86400 |}.

Definition total_seconds (d : timedelta) : Z := days d * 86400 + seconds d.

(** Seconds since 1900-01-01T00:00:00. *)
Definition datetime_seconds (t : datetime) : Z := hour t * 3600 + minute t * 60.

Definition datetime_gt (a b : datetime) : bool := datetime_seconds b <? datetime_seconds a.

Definition datetime_sub (a b : datetime) : timedelta :=
  timedelta_of_seconds (datetime_seconds a - datetime_seconds b).

Definition timedelta_sub (a b : timedelta) : timedelta :=
  timedelta_of_seconds (total_seconds a - total_seconds b).

Definition char_between (lo hi c : ascii) : bool :=
  (nat_of_ascii lo <=? nat_of_ascii c)%nat && (nat_of_ascii c <=? nat_of_ascii hi)%nat.

Definition is_digit : ascii -> bool := char_between "0" "9".

Definition digit_value (c : ascii) : Z := Z.of_nat (nat_of_ascii c) - 48.

(** The regex that [_strptime] compiles for ["%H:%M"] is
    [(?P<H>2[0-3]|[0-1]\d|\d):(?P<M>[0-5]\d|\d)].  Each piece lists its
    ways to match a prefix, with the value read and the rest of the input,
    in the order in which the backtracking matcher tries them. *)
Definition re_H (s : string) : list (Z * string) :=
  match s with
  | String a (String b r) =>
      (if Ascii.eqb a "2" && char_between "0" "3" b
       then [(10 * digit_value a + digit_value b, r)] else []) ++
      (if char_between "0" "1" a && is_digit b
       then [(10 * digit_value a + digit_value b, r)] else []) ++
      (if is_digit a then [(digit_value a, String b r)] else [])
  | String a r => if is_digit a then [(digit_value a, r)] else []
  | EmptyString => []
  end.

Definition re_colon (s : string) : list string :=
  match s with
  | String c r => if Ascii.eqb c ":" then [r] else []
  | EmptyString => []
  end.

Definition re_M (s : string) : list (Z * string) :=
  match s with
  | String a (String b r) =>
      (if char_between "0" "5" a && is_digit b
       then [(10 * digit_value a + digit_value b, r)] else []) ++
      (if is_digit a then [(digit_value a, String b r)] else [])
  | String a r => if is_digit a then [(digit_value a, r)] else []
  | EmptyString => []
  end.

(** [format_regex.match(data_string)]: the first way to match a prefix. *)
Definition format_regex_match (s : string) : option (Z * Z * string) :=
  head (hr ← re_H s; r ← re_colon hr.2; mr ← re_M r; [(hr.1, mr.1, mr.2)]).

(** [datetime.strptime(s, "%H:%M")]: no match, or unconverted data after
    the match, is a [ValueError]. *)
Definition strptime_HM (s : string) : result datetime :=
  match format_regex_match s with
  | None => Raise ValueError
  | Some (h, m, rest) =>
      if String.eqb rest "" then Ret {| hour := h; minute := m |} else Raise ValueError
  end.

(** [str(n)] for an [int]. *)
Definition str_of_int (n : Z) : string := NilZero.string_of_int (Z.to_int n).

(** [f"{n:02d}"] *)
Definition format_02d (n : Z) : string :=
  let s := str_of_int n in
  if (String.length s <? 2)%nat then "0" +:+ s else s.

(** Truthiness of an [Optional[str]]: [None] and [""] are false. *)
Definition truthy_str (o : option string) : bool :=
  match o with
  | Some s => negb (String.eqb s "")
  | None => false
  end.

Definition calculate_work_hours (check_in check_out : option string) : result string :=
  if negb (truthy_str check_in) || negb (truthy_str check_out) then Ret "0:00"
  else
    let! done :=
      try_except
        (let! check_in_time := strptime_HM (default "" check_in) in
         let! check_out_time := strptime_HM (default "" check_out) in
         if datetime_gt check_out_time check_in_time then
           let diff := datetime_sub check_out_time check_in_time in
           let diff := if 6 * 3600 <? seconds diff
                       then timedelta_sub diff (timedelta_of_seconds 3600)
                       else diff in
           let hours := seconds diff / 3600 in
           let minutes := (seconds diff mod 3600) / 60 in
           Ret (Some (str_of_int hours +:+ ":" +:+ format_02d minutes))
         else Ret None)
        (fun e => match e with
                  | ValueError => Ret (Some "0:00")
                  | _ => Raise e
                  end) in
    match done with
    | Some s => Ret s
    | None => Ret "0:00"
    end.

Example calculate_work_hours_examples :
  calculate_work_hours (Some "09:00") (Some "18:00") = Ret "8:00" /\
  calculate_work_hours (Some "09:00") (Some "11:00") = Ret "2:00" /\
  calculate_work_hours (Some "09:15") (Some "18:00") = Ret "7:45" /\
  calculate_work_hours (Some "9:5") (Some "15:05") = Ret "6:00" /\
  calculate_work_hours (Some "09:00") (Some "15:01") = Ret "5:01" /\
  calculate_work_hours (Some "09:60") (Some "18:00") = Ret "0:00" /\
  calculate_work_hours (Some "24:00") (Some "18:00") = Ret "0:00" /\
  calculate_work_hours None (Some "18:00") = Ret "0:00" /\
  calculate_work_hours (Some "18:00") (Some "09:00") = Ret "0:00".
Proof. repeat split; vm_compute; reflexivity. Qed.

(** The work-hours rule as the specification words it: the duration in
    minutes, one hour less when it exceeds six hours, shown as "H:MM". *)
Definition minutes_of_day (t : datetime) : Z := hour t * 60 + minute t.

Definition lunch_deduction (worked : Z) : Z :=
  if 360 <? worked then worked - 60 else worked.

Definition render_H_MM (worked : Z) : string :=
  str_of_int (worked / 60) +:+ ":" +:+ format_02d (worked mod 60).

(** ** Request models (pydantic) *)

Module District.
Record t : Type := mk {
  id : option string;
  name : string;
  code : string;
  description : option string;
  createdAt : option string
}.

Definition model_dump (d : t) : record :=
  list_to_map
    [("id", opt_str (id d)); ("name", JStr (name d)); ("code", JStr (code d));
     ("description", opt_str (description d)); ("createdAt", opt_str (createdAt d))].
End District.

Module Department.
Record t : Type := mk {
  id : option string;
  name : string;
  departmentNumber : string;
  districtId : string;
  districtName : option string;
  manager : string;
  employeeCount : option Z;
  description : option string;
  createdAt : option string
}.

Definition model_dump (d : t) : record :=
  list_to_map
    [("id", opt_str (id d)); ("name", JStr (name d));
     ("departmentNumber", JStr (departmentNumber d));
     ("districtId", JStr (districtId d));
     ("districtName", opt_str (districtName d));
     ("manager", JStr (manager d));
     ("employeeCount", opt_int (employeeCount d));
     ("description", opt_str (description d));
     ("createdAt", opt_str (createdAt d))].
End Department.

Module Employee.
Record t : Type := mk {
  id : option string;
  name : string;
  phone : string;
  photo : option string;
  position : string;
  departmentId : string;
  departmentName : option string;
  departmentNumber : option string;
  districtName : option string;
  email : option string;
  status : string;
  createdAt : option string
}.

Definition model_dump (e : t) : record :=
  list_to_map
    [("id", opt_str (id e)); ("name", JStr (name e)); ("phone", JStr (phone e));
     ("photo", opt_str (photo e)); ("position", JStr (position e));
     ("departmentId", JStr (departmentId e));
     ("departmentName", opt_str (departmentName e));
     ("departmentNumber", opt_str (departmentNumber e));
     ("districtName", opt_str (districtName e));
     ("email", opt_str (email e)); ("status", JStr (status e));
     ("createdAt", opt_str (createdAt e))].
End Employee.

Module AttendanceCreate.
Record t : Type := mk {
  employeeId : string;
  date : string;
  checkIn : option string;
  checkOut : option string;
  status : string;
  location : option (list (string * json))
}.
End AttendanceCreate.

(** ** Responses *)

Record overview_stats : Type := mkOverview {
  totalEmployees : Z;
  activeEmployees : Z;
  totalDepartments : Z;
  totalDistricts : Z
}.

Record attendance_stats : Type := mkAttendanceStats {
  total : Z;
  present : Z;
  absent : Z;
  late : Z;
  percentage : Q
}.

Record department_slice : Type := mkSlice {
  slice_name : json;
  slice_value : json;
  slice_color : string;
  slice_districtId : json
}.

Record statistics : Type := mkStatistics {
  overview : overview_stats;
  attendance : attendance_stats;
  trend_attendance : Q;
  trend_late : Q;
  attendanceData : list (string * Z * Z * Z);
  departmentData : list department_slice;
  performanceData : list (string * Z * Z)
}.

Inductive payload : Type :=
  | DNone
  | DRecord (r : record)
  | DRecords (rs : list record)
  | DStatistics (s : statistics).

Record APIResponse : Type := mkResponse {
  success : bool;
  data : payload;
  message : option string
}.

#[global] Instance overview_stats_eq_dec : EqDecision overview_stats.
Proof. solve_decision. Defined.

#[global] Instance attendance_stats_eq_dec : EqDecision attendance_stats.
Proof. solve_decision. Defined.

#[global] Instance department_slice_eq_dec : EqDecision department_slice.
Proof. solve_decision. Defined.

#[global] Instance statistics_eq_dec : EqDecision statistics.
Proof. solve_decision. Defined.

#[global] Instance payload_eq_dec : EqDecision payload.
Proof. solve_decision. Defined.

#[global] Instance APIResponse_eq_dec : EqDecision APIResponse.
Proof. solve_decision. Defined.

(** ** Small pieces of Python used by the handlers *)

(** [xs[i]] *)
Definition list_getitem {A} (xs : list A) (i : nat) : result A :=
  match xs !! i with
  | Some x => Ret x
  | None => Raise IndexError
  end.

(** [xs[i].update(patch)] *)
Definition update_at (i : nat) (patch : record) (xs : list record) : list record :=
  alter (fun d => dict_update d patch) i xs.

(** [xs[i][key] = v] *)
Definition setitem_at (i : nat) (key : string) (v : json) (xs : list record) : list record :=
  alter (fun d => <[key := v]> d) i xs.

(** [not d] for the result of [next(..., None)]: [None] and the empty
    dict are false. *)
Definition py_not (o : option record) : bool :=
  match o with
  | None => true
  | Some d => bool_decide (d = ∅)
  end.

(** [v + 1] and [v - 1]: defined on numbers, a [TypeError] elsewhere. *)
Definition py_add_int (v : json) (k : Z) : result json :=
  match v with
  | JInt n => Ret (JInt (n + k))
  | JBool b => Ret (JInt (Z.b2z b + k))
  | JFloat q => Ret (JFloat (q + inject_Z k))
  | _ => Raise TypeError
  end.

(** [max(0, v)] for a number [v]: the first argument unless [v > 0]. *)
Definition py_max0 (v : json) : result json :=
  match v with
  | JInt n => Ret (if 0 <? n then JInt n else JInt 0)
  | JBool b => Ret (if b then JBool true else JInt 0)
  | JFloat q => Ret (if Qlt_le_dec 0 q then JFloat q else JInt 0)
  | _ => Raise TypeError
  end.

(** [round(x)] to the nearest integer, ties to the even one. *)
Definition round_half_even (q : Q) : Z :=
  let f := Qfloor q in
  match Qcompare (q - inject_Z f) (1 # 2) with
  | Lt => f
  | Gt => f + 1
  | Eq => if Z.even f then f else f + 1
  end.

(** [round(x, 1)], on the exact value of [x]. *)
Definition py_round1 (q : Q) : Q :=
  (inject_Z (round_half_even (q * 10)) / 10)%Q.

(** ** District endpoints *)

Definition get_districts : M APIResponse :=
  do districts <- load_json_data DISTRICTS_FILE;
  pure (mkResponse true (DRecords districts) None).

Definition create_district (district : District.t) (uuid now : string) : M APIResponse :=
  do districts <- load_json_data DISTRICTS_FILE;
  do taken <- lift (py_any (field_is "code" (District.code district)) districts);
  if taken : bool then raise (HTTPException 400 "Bu kod allaqachon mavjud")
  else
    let new_district := District.model_dump district in
    let new_district := <["id" := JStr uuid]> new_district in
    let new_district := <["createdAt" := JStr now]> new_district in
    let districts := districts ++ [new_district] in
    run save_json_data DISTRICTS_FILE districts;
    pure (mkResponse true (DRecord new_district) (Some "Tuman muvaffaqiyatli qo'shildi")).

Definition update_district (district_id : string) (district_data : record) : M APIResponse :=
  do districts <- load_json_data DISTRICTS_FILE;
  do found <- lift (py_index (field_is "id" district_id) districts);
  match found with
  | Some i =>
      let districts := update_at i district_data districts in
      run save_json_data DISTRICTS_FILE districts;
      do d <- lift (list_getitem districts i);
      pure (mkResponse true (DRecord d) (Some "Tuman yangilandi"))
  | None => raise (HTTPException 404 "Tuman topilmadi")
  end.

Definition delete_district (district_id : string) : M APIResponse :=
  do districts <- load_json_data DISTRICTS_FILE;
  do departments <- load_json_data DEPARTMENTS_FILE;
  do used <- lift (py_any (field_is "districtId" district_id) departments);
  if used : bool then raise (HTTPException 400 "Bu tumanda bo'limlar mavjud")
  else
    do districts <- lift (py_filter (field_is_not "id" district_id) districts);
    run save_json_data DISTRICTS_FILE districts;
    pure (mkResponse true DNone (Some "Tuman o'chirildi")).

(** ** Department endpoints *)

Definition get_departments : M APIResponse :=
  do departments <- load_json_data DEPARTMENTS_FILE;
  pure (mkResponse true (DRecords departments) None).

(** [d['departmentNumber'] == number and d['districtId'] == district] *)
Definition same_number_and_district (number district : string) (d : record) : result bool :=
  let! a := field_is "departmentNumber" number d in
  if a then field_is "districtId" district d else Ret false.

Definition create_department (department : Department.t) (uuid now : string) : M APIResponse :=
  do departments <- load_json_data DEPARTMENTS_FILE;
  do districts <- load_json_data DISTRICTS_FILE;
  do taken <- lift (py_any (same_number_and_district
                              (Department.departmentNumber department)
                              (Department.districtId department)) departments);
  if taken : bool then raise (HTTPException 400 "Bu bo'lim raqami allaqachon mavjud")
  else
    do district <- lift (py_next (field_is "id" (Department.districtId department)) districts);
    if py_not district then raise (HTTPException 404 "Tuman topilmadi")
    else
      let district := default ∅ district in
      let new_department := Department.model_dump department in
      let new_department := <["id" := JStr uuid]> new_department in
      do district_name <- lift (getitem district "name");
      let new_department := <["districtName" := district_name]> new_department in
      let new_department := <["createdAt" := JStr now]> new_department in
      let departments := departments ++ [new_department] in
      run save_json_data DEPARTMENTS_FILE departments;
      pure (mkResponse true (DRecord new_department) (Some "Bo'lim muvaffaqiyatli qo'shildi")).

Definition update_department (department_id : string) (department_data : record) : M APIResponse :=
  do departments <- load_json_data DEPARTMENTS_FILE;
  do found <- lift (py_index (field_is "id" department_id) departments);
  match found with
  | Some i =>
      let departments := update_at i department_data departments in
      run save_json_data DEPARTMENTS_FILE departments;
      do d <- lift (list_getitem departments i);
      pure (mkResponse true (DRecord d) (Some "Bo'lim yangilandi"))
  | None => raise (HTTPException 404 "Bo'lim topilmadi")
  end.

Definition delete_department (department_id : string) : M APIResponse :=
  do departments <- load_json_data DEPARTMENTS_FILE;
  do employees <- load_json_data EMPLOYEES_FILE;
  do used <- lift (py_any (field_is "departmentId" department_id) employees);
  if used : bool then raise (HTTPException 400 "Bu bo'limda ishchilar mavjud")
  else
    do departments <- lift (py_filter (field_is_not "id" department_id) departments);
    run save_json_data DEPARTMENTS_FILE departments;
    pure (mkResponse true DNone (Some "Bo'lim o'chirildi")).

(** ** Employee endpoints *)

Definition get_employees : M APIResponse :=
  do employees <- load_json_data EMPLOYEES_FILE;
  pure (mkResponse true (DRecords employees) None).

(** The loop of [create_employee] over the departments:
    [departments[i]['employeeCount'] = departments[i].get('employeeCount', 0) + 1]
    at the first [i] whose id matches, then [break]. *)
Definition increment_employee_count (department_id : string) (departments : list record)
  : result (list record) :=
  let! found := py_index (field_is "id" department_id) departments in
  match found with
  | Some i =>
      let! d := list_getitem departments i in
      let! n := py_add_int (dict_get d "employeeCount" (JInt 0)) 1 in
      Ret (setitem_at i "employeeCount" n departments)
  | None => Ret departments
  end.

Definition create_employee (employee : Employee.t) (uuid now : string) : M APIResponse :=
  do employees <- load_json_data EMPLOYEES_FILE;
  do departments <- load_json_data DEPARTMENTS_FILE;
  do taken <- lift (py_any (field_is "phone" (Employee.phone employee)) employees);
  if taken : bool then raise (HTTPException 400 "Bu telefon raqami allaqachon mavjud")
  else
    do department <- lift (py_next (field_is "id" (Employee.departmentId employee)) departments);
    if py_not department then raise (HTTPException 404 "Bo'lim topilmadi")
    else
      let department := default ∅ department in
      let new_employee := Employee.model_dump employee in
      let new_employee := <["id" := JStr uuid]> new_employee in
      do department_name <- lift (getitem department "name");
      let new_employee := <["departmentName" := department_name]> new_employee in
      do department_number <- lift (getitem department "departmentNumber");
      let new_employee := <["departmentNumber" := department_number]> new_employee in
      do district_name <- lift (getitem department "districtName");
      let new_employee := <["districtName" := district_name]> new_employee in
      let new_employee := <["createdAt" := JStr now]> new_employee in
      let employees := employees ++ [new_employee] in
      run save_json_data EMPLOYEES_FILE employees;
      do departments <- load_json_data DEPARTMENTS_FILE;
      do departments <- lift (increment_employee_count (Employee.departmentId employee) departments);
      run save_json_data DEPARTMENTS_FILE departments;
      pure (mkResponse true (DRecord new_employee) (Some "Ishchi muvaffaqiyatli qo'shildi")).

Definition update_employee (employee_id : string) (employee_data : record) : M APIResponse :=
  do employees <- load_json_data EMPLOYEES_FILE;
  do found <- lift (py_index (field_is "id" employee_id) employees);
  match found with
  | Some i =>
      let employees := update_at i employee_data employees in
      run save_json_data EMPLOYEES_FILE employees;
      do e <- lift (list_getitem employees i);
      pure (mkResponse true (DRecord e) (Some "Ishchi ma'lumotlari yangilandi"))
  | None => raise (HTTPException 404 "Ishchi topilmadi")
  end.

(** [d['id'] == employee['departmentId']] *)
Definition is_department_of (employee d : record) : result bool :=
  let! a := getitem d "id" in
  let! b := getitem employee "departmentId" in
  Ret (py_eq a b).

(** The loop of [delete_employee] over the departments:
    [departments[i]['employeeCount'] = max(0, departments[i].get('employeeCount', 1) - 1)]
    at the first [i] whose id matches, then [break]. *)
Definition decrement_employee_count (employee : record) (departments : list record)
  : result (list record) :=
  let! found := py_index (is_department_of employee) departments in
  match found with
  | Some i =>
      let! d := list_getitem departments i in
      let! n := py_add_int (dict_get d "employeeCount" (JInt 1)) (-1) in
      let! n := py_max0 n in
      Ret (setitem_at i "employeeCount" n departments)
  | None => Ret departments
  end.

Definition delete_employee (employee_id : string) : M APIResponse :=
  do employees <- load_json_data EMPLOYEES_FILE;
  do departments <- load_json_data DEPARTMENTS_FILE;
  do employee <- lift (py_next (field_is "id" employee_id) employees);
  if py_not employee then raise (HTTPException 404 "Ishchi topilmadi")
  else
    let employee := default ∅ employee in
    do employees <- lift (py_filter (field_is_not "id" employee_id) employees);
    run save_json_data EMPLOYEES_FILE employees;
    do departments <- lift (decrement_employee_count employee departments);
    run save_json_data DEPARTMENTS_FILE departments;
    pure (mkResponse true DNone (Some "Ishchi o'chirildi")).

(** ** Attendance endpoints *)

Definition get_attendance (date : string) : M APIResponse :=
  do attendance_records <- load_json_data ATTENDANCE_FILE;
  do filtered_records <- lift (py_filter (field_is "date" date) attendance_records);
  pure (mkResponse true (DRecords filtered_records) None).

(** [record['employeeId'] == employee_id and record['date'] == date] *)
Definition same_employee_and_date (employee_id date : string) (r : record) : result bool :=
  let! a := field_is "employeeId" employee_id r in
  if a then field_is "date" date r else Ret false.

(** [record['id'] == existing_record['id']] *)
Definition same_id_as (existing_record r : record) : result bool :=
  let! a := getitem r "id" in
  let! b := getitem existing_record "id" in
  Ret (py_eq a b).

(** The dict passed to [update] when a record of the day exists. *)
Definition attendance_patch (a : AttendanceCreate.t) (work_hours : string) : record :=
  list_to_map
    [("checkIn", opt_str (AttendanceCreate.checkIn a));
     ("checkOut", opt_str (AttendanceCreate.checkOut a));
     ("status", JStr (AttendanceCreate.status a));
     ("location", opt_dict (AttendanceCreate.location a));
     ("workHours", JStr work_hours)].

Definition mark_attendance (a : AttendanceCreate.t) (uuid : string) : M APIResponse :=
  do attendance_records <- load_json_data ATTENDANCE_FILE;
  do employees <- load_json_data EMPLOYEES_FILE;
  do employee <- lift (py_next (field_is "id" (AttendanceCreate.employeeId a)) employees);
  if py_not employee then raise (HTTPException 404 "Ishchi topilmadi")
  else
    let employee := default ∅ employee in
    do existing_record <-
      lift (py_next (same_employee_and_date (AttendanceCreate.employeeId a)
                                            (AttendanceCreate.date a)) attendance_records);
    do attendance_records <-
      lift (if negb (py_not existing_record) then
              let existing_record := default ∅ existing_record in
              let! found := py_index (same_id_as existing_record) attendance_records in
              match found with
              | Some i =>
                  let! work_hours := calculate_work_hours (AttendanceCreate.checkIn a)
                                                          (AttendanceCreate.checkOut a) in
                  Ret (update_at i (attendance_patch a work_hours) attendance_records)
              | None => Ret attendance_records
              end
            else
              let! employee_name := getitem employee "name" in
              let! department := getitem employee "departmentName" in
              let! work_hours := calculate_work_hours (AttendanceCreate.checkIn a)
                                                      (AttendanceCreate.checkOut a) in
              let new_record : record :=
                list_to_map
                  [("id", JStr uuid);
                   ("employeeName", employee_name);
                   ("employeeId", JStr (AttendanceCreate.employeeId a));
                   ("department", department);
                   ("date", JStr (AttendanceCreate.date a));
                   ("checkIn", opt_str (AttendanceCreate.checkIn a));
                   ("checkOut", opt_str (AttendanceCreate.checkOut a));
                   ("status", JStr (AttendanceCreate.status a));
                   ("workHours", JStr work_hours);
                   ("location", opt_dict (AttendanceCreate.location a))] in
              Ret (attendance_records ++ [new_record]));
    run save_json_data ATTENDANCE_FILE attendance_records;
    pure (mkResponse true DNone (Some "Davomat belgilandi")).

(** ** Statistics *)

(** [len([r for r in rs if r[key] == s])] *)
Definition count_where (key s : string) (rs : list record) : result Z :=
  let! matching := py_filter (field_is key s) rs in
  Ret (Z.of_nat (length matching)).

(** [n / max(total, 1) * 100 if total > 0 else 0] *)
Definition percent_of (n total_employees : Z) : Q :=
  if 0 <? total_employees
  then (inject_Z n / inject_Z (Z.max total_employees 1) * 100)%Q
  else 0%Q.

Definition colors : list string :=
  ["#8b5cf6"; "#06b6d4"; "#10b981"; "#f59e0b"; "#ef4444"; "#8b5a2b"].

Fixpoint department_chart_from (i : nat) (departments : list record)
  : result (list department_slice) :=
  match departments with
  | [] => Ret []
  | dept :: rest =>
      let! name := getitem dept "name" in
      let value := dict_get dept "employeeCount" (JInt 0) in
      let color := default "" (colors !! (i mod length colors)%nat) in
      let! district := getitem dept "districtId" in
      let! more := department_chart_from (S i) rest in
      Ret ({| slice_name := name; slice_value := value;
              slice_color := color; slice_districtId := district |} :: more)
  end.

Definition attendance_chart_data : list (string * Z * Z * Z) :=
  [("Dushanba", 45, 5, 3); ("Seshanba", 47, 3, 2); ("Chorshanba", 48, 2, 2);
   ("Payshanba", 46, 4, 3); ("Juma", 44, 6, 3)].

Definition performance_chart_data : list (string * Z * Z) :=
  [("Yanvar", 88, 92); ("Fevral", 90, 89); ("Mart", 94, 95);
   ("Aprel", 91, 93); ("May", 96, 97); ("Iyun", 93, 94)].

(** [today] is [datetime.now().strftime('%Y-%m-%d')]; the [period] query
    parameter is not read. *)
Definition get_statistics (today : string) : M APIResponse :=
  do employees <- load_json_data EMPLOYEES_FILE;
  do departments <- load_json_data DEPARTMENTS_FILE;
  do districts <- load_json_data DISTRICTS_FILE;
  do attendance_records <- load_json_data ATTENDANCE_FILE;
  let total_employees := Z.of_nat (length employees) in
  do active_employees <- lift (count_where "status" "active" employees);
  let total_departments := Z.of_nat (length departments) in
  let total_districts := Z.of_nat (length districts) in
  do today_attendance <- lift (py_filter (field_is "date" today) attendance_records);
  do present_today <- lift (count_where "status" "present" today_attendance);
  do late_today <- lift (count_where "status" "late" today_attendance);
  do absent_today <- lift (count_where "status" "absent" today_attendance);
  let attendance_percentage := percent_of (present_today + late_today) total_employees in
  let late_percentage := percent_of late_today total_employees in
  do department_chart_data <- lift (department_chart_from 0 departments);
  pure (mkResponse true
          (DStatistics
             {| overview := {| totalEmployees := total_employees;
                               activeEmployees := active_employees;
                               totalDepartments := total_departments;
                               totalDistricts := total_districts |};
                attendance := {| total := total_employees;
                                 present := present_today;
                                 absent := absent_today;
                                 late := late_today;
                                 percentage := py_round1 attendance_percentage |};
                trend_attendance := py_round1 attendance_percentage;
                trend_late := py_round1 late_percentage;
                attendanceData := attendance_chart_data;
                departmentData := department_chart_data;
                performanceData := performance_chart_data |})
          None).

(** ** Seed data *)

Definition sample_districts : list record :=
  [ list_to_map
      [("id", JStr "1"); ("name", JStr "Toshkent tumani"); ("code", JStr "TSH001");
       ("description", JStr "Markaziy ofis joylashgan tuman");
       ("createdAt", JStr "2024-01-15T10:00:00")];
    list_to_map
      [("id", JStr "2"); ("name", JStr "Samarqand tumani"); ("code", JStr "SMQ001");
       ("description", JStr "Ikkinchi filial joylashgan tuman");
       ("createdAt", JStr "2024-01-20T10:00:00")] ].

Definition sample_department (id name number district district_name manager : string)
    (employee_count : Z) (description created : string) : record :=
  list_to_map
    [("id", JStr id); ("name", JStr name); ("departmentNumber", JStr number);
     ("districtId", JStr district); ("districtName", JStr district_name);
     ("manager", JStr manager); ("employeeCount", JInt employee_count);
     ("description", JStr description); ("createdAt", JStr created)].

Definition sample_departments : list record :=
  [ sample_department "1" "IT bo'limi" "IT-001" "1" "Toshkent tumani" "Karimov Sardor" 3
      "Dasturlash va texnik yordam" "2024-02-01T10:00:00";
    sample_department "2" "Moliya bo'limi" "FIN-001" "1" "Toshkent tumani"
      "Abdullayeva Nilufar" 2 "Moliyaviy operatsiyalar" "2024-02-05T10:00:00";
    sample_department "3" "Marketing bo'limi" "MKT-001" "2" "Samarqand tumani"
      "Nazarova Dilshoda" 2 "Reklama va savdo" "2024-02-10T10:00:00" ].

Definition sample_employee (id name phone position department department_name number
    district_name email created : string) : record :=
  list_to_map
    [("id", JStr id); ("name", JStr name); ("phone", JStr phone); ("photo", JStr "");
     ("position", JStr position); ("departmentId", JStr department);
     ("departmentName", JStr department_name); ("departmentNumber", JStr number);
     ("districtName", JStr district_name); ("email", JStr email);
     ("status", JStr "active"); ("createdAt", JStr created)].

Definition sample_employees : list record :=
  [ sample_employee "1" "Karimov Sardor" "+998901234567" "IT menejer" "1" "IT bo'limi"
      "IT-001" "Toshkent tumani" "sardor@company.uz" "2024-02-15T10:00:00";
    sample_employee "2" "Abdullayeva Nilufar" "+998901234568" "Moliya menejer" "2"
      "Moliya bo'limi" "FIN-001" "Toshkent tumani" "nilufar@company.uz" "2024-02-16T10:00:00";
    sample_employee "3" "Nazarova Dilshoda" "+998901234570" "Marketing mutaxassis" "3"
      "Marketing bo'limi" "MKT-001" "Samarqand tumani" "dilshoda@company.uz"
      "2024-02-17T10:00:00";
    sample_employee "4" "Toshmatov Oybek" "+998901234569" "IT dasturchi" "1" "IT bo'limi"
      "IT-001" "Toshkent tumani" "oybek@company.uz" "2024-02-18T10:00:00";
    sample_employee "5" "Aliyev Vali" "+998901234571" "Moliya hisobchisi" "2"
      "Moliya bo'limi" "FIN-001" "Toshkent tumani" "vali@company.uz" "2024-02-19T10:00:00";
    sample_employee "6" "Rahimova Madina" "+998901234572" "Marketing dizayner" "3"
      "Marketing bo'limi" "MKT-001" "Samarqand tumani" "madina@company.uz"
      "2024-02-20T10:00:00";
    sample_employee "7" "Ergashev Jasur" "+998901234573" "IT tizim administratori" "1"
      "IT bo'limi" "IT-001" "Toshkent tumani" "jasur@company.uz" "2024-02-21T10:00:00" ].

Definition toshkent : json :=
  JObj [("latitude", JFloat (412995 # 10000)); ("longitude", JFloat (692401 # 10000));
        ("address", JStr "Toshkent")].

Definition samarqand : json :=
  JObj [("latitude", JFloat (396270 # 10000)); ("longitude", JFloat (669750 # 10000));
        ("address", JStr "Samarqand")].

Definition sample_record (id employee_name employee_id department date : string)
    (check_in check_out : json) (status work_hours : string) (location : json) : record :=
  list_to_map
    [("id", JStr id); ("employeeName", JStr employee_name); ("employeeId", JStr employee_id);
     ("department", JStr department); ("date", JStr date); ("checkIn", check_in);
     ("checkOut", check_out); ("status", JStr status); ("workHours", JStr work_hours);
     ("location", location)].

Definition sample_attendance (today yesterday : string) : list record :=
  [ sample_record "1" "Karimov Sardor" "1" "IT bo'limi" today
      (JStr "09:00") (JStr "18:00") "present" "8:00" toshkent;
    sample_record "2" "Abdullayeva Nilufar" "2" "Moliya bo'limi" today
      (JStr "09:15") (JStr "18:00") "late" "7:45" toshkent;
    sample_record "3" "Nazarova Dilshoda" "3" "Marketing bo'limi" today
      (JStr "08:55") (JStr "17:30") "early-leave" "7:35" samarqand;
    sample_record "4" "Toshmatov Oybek" "4" "IT bo'limi" today
      JNull JNull "absent" "0:00" JNull;
    sample_record "5" "Aliyev Vali" "5" "Moliya bo'limi" today
      (JStr "09:00") (JStr "18:00") "present" "8:00" toshkent;
    sample_record "6" "Karimov Sardor" "1" "IT bo'limi" yesterday
      (JStr "08:55") (JStr "18:10") "present" "8:15" toshkent;
    sample_record "7" "Abdullayeva Nilufar" "2" "Moliya bo'limi" yesterday
      (JStr "09:00") (JStr "18:00") "present" "8:00" toshkent ].

(** [if not os.path.exists(f): save_json_data(f, sample)] *)
Definition seed_if_absent (f : file) (sample : list record) : M unit :=
  fun st => if negb (os_path_exists st f) then save_json_data f sample st else (Ret tt, st).

(** [today] and [yesterday] are the two dates formatted at startup. *)
Definition initialize_sample_data (today yesterday : string) : M unit :=
  run seed_if_absent DISTRICTS_FILE sample_districts;
  run seed_if_absent DEPARTMENTS_FILE sample_departments;
  run seed_if_absent EMPLOYEES_FILE sample_employees;
  seed_if_absent ATTENDANCE_FILE (sample_attendance today yesterday).

(** ** The service as a transition system *)

Inductive request : Type :=
  | GET_districts
  | POST_districts (body : District.t) (uuid now : string)
  | PUT_districts (district_id : string) (body : record)
  | DELETE_districts (district_id : string)
  | GET_departments
  | POST_departments (body : Department.t) (uuid now : string)
  | PUT_departments (department_id : string) (body : record)
  | DELETE_departments (department_id : string)
  | GET_employees
  | POST_employees (body : Employee.t) (uuid now : string)
  | PUT_employees (employee_id : string) (body : record)
  | DELETE_employees (employee_id : string)
  | GET_attendance (date : string)
  | POST_attendance (body : AttendanceCreate.t) (uuid : string)
  | GET_statistics (today : string).

Definition handle (r : request) : M APIResponse :=
  match r with
  | GET_districts => get_districts
  | POST_districts body uuid now => create_district body uuid now
  | PUT_districts district_id body => update_district district_id body
  | DELETE_districts district_id => delete_district district_id
  | GET_departments => get_departments
  | POST_departments body uuid now => create_department body uuid now
  | PUT_departments department_id body => update_department department_id body
  | DELETE_departments department_id => delete_department department_id
  | GET_employees => get_employees
  | POST_employees body uuid now => create_employee body uuid now
  | PUT_employees employee_id body => update_employee employee_id body
  | DELETE_employees employee_id => delete_employee employee_id
  | GET_attendance date => get_attendance date
  | POST_attendance body uuid => mark_attendance body uuid
  | GET_statistics today => get_statistics today
  end.

(** The store after serving the requests [rs] in order. *)
Definition serve (rs : list request) (st : store) : store :=
  foldl (fun st r => (handle r st).2) st rs.

Definition empty_disk : store := {| disk := fun _ => Absent; saved := [] |}.

(** The store right after a first start in an empty data directory. *)
Definition first_start (today yesterday : string) : store :=
  (initialize_sample_data today yesterday empty_disk).2.

(** A state of the four collections is reachable when some sequence of
    requests leads to it from a first start. *)
Definition reachable (today yesterday : string) (st : store) : Prop :=
  exists rs, st = serve rs (first_start today yesterday).

(** ** Sample stores and requests used by the examples *)

Definition corrupt_disk : store :=
  {| disk := fun f => match f with
                      | DISTRICTS_FILE => Holds sample_districts
                      | DEPARTMENTS_FILE => Unreadable ValueError
                      | EMPLOYEES_FILE => Unreadable OSError
                      | ATTENDANCE_FILE => Absent
                      end;
     saved := [] |}.

(** ** Vocabulary of the statements *)

(** [r[key]] exists and equals the string [s]. *)
Definition field_eqb (key s : string) (r : record) : bool :=
  match r !! key with
  | Some v => py_eq_str v s
  | None => false
  end.

Definition has_key (key : string) (r : record) : Prop := is_Some (r !! key).

(** Every record of the list has every one of the keys. *)
Definition all_have (keys : list string) (rs : list record) : Prop :=
  Forall (fun r => Forall (fun k => has_key k r) keys) rs.

(** The first position at which [q] holds, counted from [i]. *)
Fixpoint index_from {A} (i : nat) (q : A -> bool) (xs : list A) : option nat :=
  match xs with
  | [] => None
  | x :: xs' => if q x then Some i else index_from (S i) q xs'
  end.

(** [p] raises nothing on the elements of [xs] and computes [q] there. *)
Definition decides {A} (p : A -> result bool) (q : A -> bool) (xs : list A) : Prop :=
  Forall (fun x => p x = Ret (q x)) xs.

(** A result that is not an [HTTPException]. *)
Definition quiet {A} (r : result A) : Prop :=
  forall code detail, r <> Raise (HTTPException code detail).

(** A computation that never raises an [HTTPException]. *)
Definition silent {A} (m : M A) : Prop := forall st, quiet (m st).1.

(** A computation that leaves the store, and the log of saves, as they were. *)
Definition readonly {A} (m : M A) : Prop := forall st, (m st).2 = st.

(** A computation whose only [HTTPException]s are 400 and 404, raised
    before anything is saved. *)
Definition atomic {A} (m : M A) : Prop :=
  forall st code detail,
    (m st).1 = Raise (HTTPException code detail) ->
    (code = 400 \/ code = 404) /\ (m st).2 = st.

(** A first start on 15 January 2025. *)
Definition started : store := first_start "2025-01-15" "2025-01-14".

Definition duplicate_code_district : District.t :=
  District.mk None "Yangi tuman" "TSH001" (Some "") None.

(** The three collections that have a [PUT] endpoint. *)
Inductive collection : Type := Districts | Departments | Employees.


Definition update_of (c : collection) : string -> record -> M APIResponse :=
  match c with
  | Districts => update_district
  | Departments => update_department
  | Employees => update_employee
  end.






(** Both fields exist and equal the given strings. *)
Definition both_eqb (key1 s1 key2 s2 : string) (r : record) : bool :=
  field_eqb key1 s1 r && field_eqb key2 s2 r.

(** A department with the fields a client may leave out at their
    defaults, [employeeCount] apart. *)
Definition department_body (name number district manager : string) (count : option Z)
  : Department.t :=
  Department.mk None name number district (Some "") manager count (Some "") None.

(** After [PUT /districts/2] with body [{"id": "9"}] no district has the
    id "2", which the Marketing department still carries. *)
Definition district_2_renumbered : store :=
  serve [PUT_districts "2" {["id" := JStr "9"]}] started.

(** After [POST /departments] with [employeeCount: null], which
    [Optional[int]] accepts: the department "d9" is stored with a null
    count. *)
Definition department_without_count : store :=
  serve [POST_departments (department_body "Savdo" "SL-001" "2" "Rahbar" None)
           "d9" "2025-01-15T09:00:00"] started.

Definition employee_body (name phone position department : string) : Employee.t :=
  Employee.mk None name phone (Some "") position department
    (Some "") (Some "") (Some "") (Some "") "active" None.




(** No two records share an id. *)
Definition distinct_ids (rs : list record) : Prop :=
  forall i j ri rj s,
    rs !! i = Some ri -> rs !! j = Some rj ->
    ri !! "id" = Some (JStr s) -> rj !! "id" = Some (JStr s) -> i = j.

(** The records of one employee on one date. *)
Definition records_of (employee_id date : string) (rs : list record) : list record :=
  List.filter (both_eqb "employeeId" employee_id "date" date) rs.

(** At most one attendance record per (employeeId, date) pair. *)
Definition one_per_day (rs : list record) : Prop :=
  forall employee_id date, (length (records_of employee_id date rs) <= 1)%nat.



(** The record that [mark_attendance] appends when the day has none. *)
Definition new_attendance_record (a : AttendanceCreate.t) (uuid : string)
    (employee_name department : json) (work_hours : string) : record :=
  list_to_map
    [("id", JStr uuid);
     ("employeeName", employee_name);
     ("employeeId", JStr (AttendanceCreate.employeeId a));
     ("department", department);
     ("date", JStr (AttendanceCreate.date a));
     ("checkIn", opt_str (AttendanceCreate.checkIn a));
     ("checkOut", opt_str (AttendanceCreate.checkOut a));
     ("status", JStr (AttendanceCreate.status a));
     ("workHours", JStr work_hours);
     ("location", opt_dict (AttendanceCreate.location a))].

(** The (employeeId, date) pair of a record, when both are strings. *)
Definition day_key (r : record) : option (string * string) :=
  match r !! "employeeId", r !! "date" with
  | Some (JStr e), Some (JStr d) => Some (e, d)
  | _, _ => None
  end.

(** The id of a record, when it is a string. *)
Definition id_key (r : record) : option string :=
  match r !! "id" with
  | Some (JStr s) => Some s
  | _ => None
  end.


Definition morning (employee date : string) : AttendanceCreate.t :=
  AttendanceCreate.mk employee date (Some "09:00") None "present" None.

Definition evening (employee date : string) : AttendanceCreate.t :=
  AttendanceCreate.mk employee date (Some "09:00") (Some "18:00") "present" None.

(** The keys the handlers read in the records of each file. *)
Definition keys_of (f : file) : list string :=
  match f with
  | DISTRICTS_FILE => ["id"; "name"; "code"]
  | DEPARTMENTS_FILE => ["id"; "name"; "departmentNumber"; "districtId"; "districtName"]
  | EMPLOYEES_FILE => ["id"; "name"; "phone"; "departmentId"; "departmentName"; "status"]
  | ATTENDANCE_FILE => ["id"; "employeeId"; "date"; "status"]
  end.

(** Every stored record has the keys that the handlers read. *)
Definition well_formed (st : store) : Prop :=
  forall f, all_have (keys_of f) (contents st f).

(** A computation that keeps the store well formed, also when it raises. *)
Definition keeps {A} (m : M A) : Prop :=
  forall st, well_formed st -> well_formed (m st).2.

(** ** Vocabulary of the further properties *)

(** The requests that only read. *)
Definition is_read (r : request) : bool :=
  match r with
  | GET_districts | GET_departments | GET_employees
  | GET_attendance _ | GET_statistics _ => true
  | _ => false
  end.

(** The files each request may write. *)
Definition writes_of (r : request) : list file :=
  match r with
  | POST_districts _ _ _ | PUT_districts _ _ | DELETE_districts _ => [DISTRICTS_FILE]
  | POST_departments _ _ _ | PUT_departments _ _ | DELETE_departments _ => [DEPARTMENTS_FILE]
  | POST_employees _ _ _ | DELETE_employees _ => [EMPLOYEES_FILE; DEPARTMENTS_FILE]
  | PUT_employees _ _ => [EMPLOYEES_FILE]
  | POST_attendance _ _ => [ATTENDANCE_FILE]
  | _ => []
  end.

(** A computation that writes no file outside [fs], also when it raises. *)
Definition touches_only {A} (fs : list file) (m : M A) : Prop :=
  forall st,
    (forall f, f ∉ fs -> disk (m st).2 f = disk st f) /\
    (forall f, f ∈ saved (m st).2 -> f ∈ fs \/ f ∈ saved st).

(** The requests that do arithmetic on a stored [employeeCount]. *)
Definition counts (r : request) : bool :=
  match r with
  | POST_employees _ _ _ | DELETE_employees _ => true
  | _ => false
  end.

(** An outcome that is an answer, a 400 or a 404, or, where arithmetic on
    a count is allowed, a [TypeError]; never a [KeyError], an
    [IndexError], a [ValueError] or an [OSError]. *)
Definition no_crash {A} (arithmetic : bool) (r : result A) : Prop :=
  match r with
  | Ret _ => True
  | Raise (HTTPException code _) => code = 400 \/ code = 404
  | Raise TypeError => arithmetic = true
  | Raise _ => False
  end.

(** A computation that, from a well-formed store, ends in such an outcome
    and in a well-formed store. *)
Definition steady {A} (arithmetic : bool) (m : M A) : Prop :=
  forall st, well_formed st -> well_formed (m st).2 /\ no_crash arithmetic (m st).1.

Definition district_body (name code : string) : District.t :=
  District.mk (Some "chosen-by-client") name code (Some "") (Some "1999-01-01T00:00:00").

(** After [PUT /departments/1] with body [{"employeeCount": 0}]. *)
Definition emptied_count : store :=
  serve [PUT_departments "1" {["employeeCount" := JInt 0]}] started.

(** The sample written for each file at a first start. *)
Definition sample_of (today yesterday : string) (f : file) : list record :=
  match f with
  | DISTRICTS_FILE => sample_districts
  | DEPARTMENTS_FILE => sample_departments
  | EMPLOYEES_FILE => sample_employees
  | ATTENDANCE_FILE => sample_attendance today yesterday
  end.

(** ** The request filter *)

(** [c.lower()] for a character below 256: the ASCII capitals and the
    Latin-1 capitals (all of 192..222 but the multiplication sign 215)
    move up by 32. *)
Definition lower_char (c : ascii) : ascii :=
  let n := nat_of_ascii c in
  if ((65 <=? n) && (n <=? 90) || (192 <=? n) && (n <=? 222) && negb (n =? 215))%nat
  then ascii_of_nat (n + 32)
  else c.

(** [s.lower()] *)
Fixpoint str_lower (s : string) : string :=
  match s with
  | EmptyString => EmptyString
  | String c rest => String (lower_char c) (str_lower rest)
  end.

(** [needle in hay] for strings. *)
Fixpoint py_in (needle hay : string) : bool :=
  String.prefix needle hay ||
  match hay with
  | EmptyString => false
  | String _ rest => py_in needle rest
  end.

(** What the middleware returns: its own JSON answer, or the answer of
    the endpoint. *)
Inductive http_response : Type :=
  | JSONResponse (status_code : Z) (message : string)
  | Passed (response : APIResponse).

(** [LoggingMiddleware.dispatch], for a connection that has a client
    address; [user_agent] is [request.headers.get("user-agent")] and
    [call_next] the endpoint.  [reraise] is the [try] whose handler prints
    the exception and raises it again. *)
Definition reraise {A} (m : M A) : M A :=
  fun st =>
    match m st with
    | (Ret a, st') => (Ret a, st')
    | (Raise e, st') => (Raise e, st')
    end.

Definition dispatch (user_agent : option string) (call_next : M APIResponse)
  : M http_response :=
  if negb (truthy_str user_agent) || py_in "bot" (str_lower (default "" user_agent))
  then pure (JSONResponse 400 "Invalid or suspicious request detected")
  else
    do response <- reraise call_next;
    pure (Passed response).

(** The user agent spells "bot" somewhere, in any mix of cases. *)
Definition spells_bot (s : string) : Prop :=
  exists pre b o t post,
    s = pre +:+ String b (String o (String t post)) /\
    (b = "b" \/ b = "B")%char /\ (o = "o" \/ o = "O")%char /\ (t = "t" \/ t = "T")%char.

(** ** Times as clients write them *)

#[global] Instance datetime_eq_dec : EqDecision datetime.
Proof. solve_decision. Defined.

(** ["HH:MM"], each part with or without its leading zero. *)
Definition written (pad_hour pad_minute : bool) (h m : Z) : string :=
  (if pad_hour then format_02d h else str_of_int h) +:+ ":" +:+
  (if pad_minute then format_02d m else str_of_int m).

(** Every such writing of the time [h]:[m] is parsed back to it. *)
Definition parsed_back (h m : Z) : bool :=
  forallb (fun ph => forallb (fun pm =>
     bool_decide (strptime_HM (written ph pm h m) = Ret (mkDatetime h m)))
     [true; false]) [true; false].

(** ** Head counts *)

(** The number of stored employees whose [departmentId] is [dep]. *)
Definition employees_of (dep : string) (employees : list record) : Z :=
  Z.of_nat (length (List.filter (field_eqb "departmentId" dep) employees)).

(** Every department's [employeeCount] is the number of its employees. *)
Definition counts_agree (st : store) : Prop :=
  forall d dep,
    d ∈ contents st DEPARTMENTS_FILE -> d !! "id" = Some (JStr dep) ->
    d !! "employeeCount"
      = Some (JInt (employees_of dep (contents st EMPLOYEES_FILE))).

(** What the two employee handlers that count rely on: records with
    their keys, employees and departments each with pairwise distinct
    ids, and every employee with a string for [departmentId]. *)
Definition staff_ok (st : store) : Prop :=
  all_have ["id"; "phone"] (contents st EMPLOYEES_FILE) /\
  distinct_ids (contents st EMPLOYEES_FILE) /\
  Forall (fun e => exists dep, e !! "departmentId" = Some (JStr dep))
         (contents st EMPLOYEES_FILE) /\
  all_have ["id"; "name"; "departmentNumber"; "districtName"]
           (contents st DEPARTMENTS_FILE) /\
  distinct_ids (contents st DEPARTMENTS_FILE).

(** * Properties *)

(** A closed decidable statement is settled by evaluating its decision. *)
Ltac by_compute :=
  match goal with
  | |- ?P => apply (@bool_decide_unpack P _); vm_compute; exact I
  end.

(** ** Storage *)

Lemma load_json_data_contents (f : file) (st : store) :
  load_json_data f st = (Ret (contents st f), st).
Proof.
  unfold load_json_data, os_path_exists, open_and_json_load, contents.
  destruct (disk st f); reflexivity.
Qed.

Lemma save_json_data_contents (f g : file) (data : list record) (st : store) :
  contents (save_json_data f data st).2 g = if decide (g = f) then data else contents st g.
Proof.
  unfold contents, save_json_data; simpl.
  destruct (decide (g = f)); reflexivity.
Qed.

(** C8: [load_json_data] always returns, and never raises: the empty list
    when the file is absent or when opening or decoding it raises, the
    stored records, in their order, otherwise.  It leaves the store as it
    was. *)
Theorem load_json_data_never_raises (f : file) (st : store) :
  exists rs : list record,
    load_json_data f st = (Ret rs, st) /\
    (os_path_exists st f = false -> rs = []) /\
    (forall e, open_and_json_load st f = Raise e -> rs = []) /\
    (forall records, open_and_json_load st f = Ret records -> rs = records).
Proof.
  exists (contents st f). split; [apply load_json_data_contents|].
  unfold os_path_exists, open_and_json_load, contents.
  destruct (disk st f); repeat split; intros; congruence.
Qed.

Lemma load_json_data_never_raises_witness :
  load_json_data DISTRICTS_FILE corrupt_disk = (Ret sample_districts, corrupt_disk) /\
  load_json_data DEPARTMENTS_FILE corrupt_disk = (Ret [], corrupt_disk) /\
  load_json_data ATTENDANCE_FILE corrupt_disk = (Ret [], corrupt_disk).
Proof.
  destruct (load_json_data_never_raises DISTRICTS_FILE corrupt_disk) as (r1 & E1 & _ & _ & H1).
  destruct (load_json_data_never_raises DEPARTMENTS_FILE corrupt_disk) as (r2 & E2 & _ & H2 & _).
  destruct (load_json_data_never_raises ATTENDANCE_FILE corrupt_disk) as (r3 & E3 & H3 & _ & _).
  rewrite E1, E2, E3.
  rewrite (H1 sample_districts eq_refl), (H2 ValueError eq_refl), (H3 eq_refl).
  repeat split.
Defined.

(** ** Work hours *)

Lemma char_between_spec (lo hi c : ascii) :
  char_between lo hi c = true ->
  (nat_of_ascii lo <= nat_of_ascii c <= nat_of_ascii hi)%nat.
Proof.
  unfold char_between. intros H. apply andb_prop in H as [H1 H2].
  apply Nat.leb_le in H1. apply Nat.leb_le in H2. lia.
Qed.

Lemma digit_value_upto (hi c : ascii) (n : Z) :
  char_between "0" hi c = true ->
  Z.of_nat (nat_of_ascii hi) - 48 = n ->
  0 <= digit_value c <= n.
Proof.
  intros H <-. apply char_between_spec in H. unfold digit_value.
  change (nat_of_ascii "0") with 48%nat in H. lia.
Qed.

Ltac digit_range H n := apply (digit_value_upto _ _ n) in H; [|reflexivity].

Lemma re_H_range (s r : string) (h : Z) : (h, r) ∈ re_H s -> 0 <= h <= 23.
Proof.
  unfold re_H. destruct s as [|a [|b s]].
  - intros H. inversion H.
  - destruct (is_digit a) eqn:Da; intros H.
    + apply list_elem_of_singleton in H. injection H as -> _.
      digit_range Da 9. lia.
    + inversion H.
  - intros H. rewrite !elem_of_app in H. destruct H as [H | [H | H]].
    + destruct (Ascii.eqb a "2" && char_between "0" "3" b) eqn:E; [|inversion H].
      apply andb_prop in E as [Ea Eb]. apply Ascii.eqb_eq in Ea. subst a.
      apply list_elem_of_singleton in H. injection H as -> _.
      digit_range Eb 3. change (digit_value "2") with 2. lia.
    + destruct (char_between "0" "1" a && is_digit b) eqn:E; [|inversion H].
      apply andb_prop in E as [Ea Eb].
      apply list_elem_of_singleton in H. injection H as -> _.
      digit_range Ea 1. digit_range Eb 9. lia.
    + destruct (is_digit a) eqn:Da; [|inversion H].
      apply list_elem_of_singleton in H. injection H as -> _.
      digit_range Da 9. lia.
Qed.

Lemma re_M_range (s r : string) (m : Z) : (m, r) ∈ re_M s -> 0 <= m <= 59.
Proof.
  unfold re_M. destruct s as [|a [|b s]].
  - intros H. inversion H.
  - destruct (is_digit a) eqn:Da; intros H.
    + apply list_elem_of_singleton in H. injection H as -> _.
      digit_range Da 9. lia.
    + inversion H.
  - intros H. rewrite elem_of_app in H. destruct H as [H | H].
    + destruct (char_between "0" "5" a && is_digit b) eqn:E; [|inversion H].
      apply andb_prop in E as [Ea Eb].
      apply list_elem_of_singleton in H. injection H as -> _.
      digit_range Ea 5. digit_range Eb 9. lia.
    + destruct (is_digit a) eqn:Da; [|inversion H].
      apply list_elem_of_singleton in H. injection H as -> _.
      digit_range Da 9. lia.
Qed.

(** A parsed time is a time of day. *)
Lemma strptime_HM_range (s : string) (t : datetime) :
  strptime_HM s = Ret t -> 0 <= hour t <= 23 /\ 0 <= minute t <= 59.
Proof.
  unfold strptime_HM, format_regex_match.
  destruct (head _) as [[[h m] rest]|] eqn:E; [|discriminate].
  destruct (String.eqb rest ""); [|discriminate].
  intros [= <-]. simpl.
  apply head_Some_elem_of in E.
  apply list_elem_of_bind in E as ([h' r1] & E & Hh).
  apply list_elem_of_bind in E as (r2 & E & _).
  apply list_elem_of_bind in E as ([m' r3] & E & Hm).
  apply list_elem_of_singleton in E. simpl in E. injection E as -> -> _.
  apply re_H_range in Hh. apply re_M_range in Hm. lia.
Qed.

(** The only exception of [strptime] is the one the handler catches. *)
Lemma strptime_HM_raises (s : string) (e : exn) :
  strptime_HM s = Raise e -> e = ValueError.
Proof.
  unfold strptime_HM.
  destruct (format_regex_match s) as [[[h m] rest]|]; [|congruence].
  destruct (String.eqb rest ""); congruence.
Qed.

Lemma seconds_of_minutes (w : Z) :
  0 <= w < 1440 ->
  seconds (timedelta_of_seconds (60 * w)) = 60 * w /\
  total_seconds (timedelta_of_seconds (60 * w)) = 60 * w.
Proof.
  intros Hw. unfold total_seconds, timedelta_of_seconds. simpl.
  rewrite Z.mod_small, Z.div_small by lia. lia.
Qed.

Lemma hours_and_minutes (w : Z) :
  (60 * w) / 3600 = w / 60 /\ ((60 * w) mod 3600) / 60 = w mod 60.
Proof.
  change 3600 with (60 * 60). split.
  - apply Z.div_mul_cancel_l; lia.
  - rewrite Z.mul_mod_distr_l by lia.
    rewrite Z.mul_comm. apply Z.div_mul. lia.
Qed.


Lemma truthy_parsed (s : string) (t : datetime) :
  strptime_HM s = Ret t -> truthy_str (Some s) = true.
Proof. destruct s; [discriminate | reflexivity]. Qed.

(** The body of [calculate_work_hours] once both times are parsed. *)
Lemma calculate_work_hours_parsed (a b : string) (t1 t2 : datetime) :
  strptime_HM a = Ret t1 -> strptime_HM b = Ret t2 ->
  calculate_work_hours (Some a) (Some b) =
    Ret (if 0 <? minutes_of_day t2 - minutes_of_day t1
         then render_H_MM (lunch_deduction (minutes_of_day t2 - minutes_of_day t1))
         else "0:00").
Proof.
  intros Ha Hb. unfold calculate_work_hours.
  rewrite (truthy_parsed _ _ Ha), (truthy_parsed _ _ Hb).
  cbn [negb orb default from_option id]. rewrite Ha, Hb. cbn [rbind].
  apply strptime_HM_range in Ha, Hb.
  set (w := minutes_of_day t2 - minutes_of_day t1).
  assert (Hsec : datetime_seconds t2 - datetime_seconds t1 = 60 * w)
    by (unfold w, minutes_of_day, datetime_seconds; lia).
  assert (Hw : w < 1440) by (unfold w, minutes_of_day; lia).
  unfold datetime_gt, datetime_sub. rewrite Hsec.
  destruct (0 <? w) eqn:Hpos.
  - apply Z.ltb_lt in Hpos.
    replace (datetime_seconds t1 <? datetime_seconds t2) with true
      by (symmetry; apply Z.ltb_lt; lia).
    destruct (seconds_of_minutes w ltac:(lia)) as [Hs Ht].
    rewrite Hs. unfold lunch_deduction, render_H_MM.
    destruct (360 <? w) eqn:Hlong.
    + apply Z.ltb_lt in Hlong.
      replace (6 * 3600 <? 60 * w) with true by (symmetry; apply Z.ltb_lt; lia).
      unfold timedelta_sub. rewrite Ht.
      replace (total_seconds (timedelta_of_seconds 3600)) with 3600 by reflexivity.
      replace (60 * w - 3600) with (60 * (w - 60)) by lia.
      destruct (seconds_of_minutes (w - 60) ltac:(lia)) as [Hs' _]. rewrite Hs'.
      destruct (hours_and_minutes (w - 60)) as [-> ->]. reflexivity.
    + apply Z.ltb_ge in Hlong.
      replace (6 * 3600 <? 60 * w) with false by (symmetry; apply Z.ltb_ge; lia).
      rewrite Hs. destruct (hours_and_minutes w) as [-> ->]. reflexivity.
  - apply Z.ltb_ge in Hpos.
    replace (datetime_seconds t1 <? datetime_seconds t2) with false
      by (symmetry; apply Z.ltb_ge; lia).
    reflexivity.
Qed.



(** ** Loops over well-formed collections *)

Section pure_loops.
Context {A : Type} (p : A -> result bool) (q : A -> bool).

Lemma py_any_decides (xs : list A) :
  decides p q xs -> py_any p xs = Ret (existsb q xs).
Proof.
  induction 1 as [|x xs Hx _ IH]; simpl; [reflexivity|].
  rewrite Hx. simpl. destruct (q x); [reflexivity | exact IH].
Qed.

Lemma py_next_decides (xs : list A) :
  decides p q xs -> py_next p xs = Ret (List.find q xs).
Proof.
  induction 1 as [|x xs Hx _ IH]; simpl; [reflexivity|].
  rewrite Hx. simpl. destruct (q x); [reflexivity | exact IH].
Qed.

Lemma py_filter_decides (xs : list A) :
  decides p q xs -> py_filter p xs = Ret (List.filter q xs).
Proof.
  induction 1 as [|x xs Hx _ IH]; simpl; [reflexivity|].
  rewrite Hx, IH. simpl. destruct (q x); reflexivity.
Qed.

Lemma py_index_from_decides (i : nat) (xs : list A) :
  decides p q xs -> py_index_from i p xs = Ret (index_from i q xs).
Proof.
  intros H. revert i. induction H as [|x xs Hx _ IH]; intros i; simpl; [reflexivity|].
  rewrite Hx. simpl. destruct (q x); [reflexivity | apply IH].
Qed.
End pure_loops.

Lemma py_eq_str_true (v : json) (s : string) : py_eq_str v s = true <-> v = JStr s.
Proof.
  unfold py_eq_str. split.
  - destruct v; simpl; try discriminate. intros H. apply String.eqb_eq in H. congruence.
  - intros ->. simpl. apply String.eqb_refl.
Qed.

Lemma field_eqb_true (key s : string) (r : record) :
  field_eqb key s r = true <-> r !! key = Some (JStr s).
Proof.
  unfold field_eqb. destruct (r !! key) as [v|].
  - rewrite py_eq_str_true. split; congruence.
  - split; discriminate.
Qed.

Lemma field_is_decides (key s : string) (rs : list record) :
  Forall (has_key key) rs -> decides (field_is key s) (field_eqb key s) rs.
Proof.
  intros H. eapply Forall_impl; [exact H|]. intros r [v Hv].
  unfold field_is, getitem, field_eqb. rewrite Hv. reflexivity.
Qed.

Lemma field_is_not_decides (key s : string) (rs : list record) :
  Forall (has_key key) rs ->
  decides (field_is_not key s) (fun r => negb (field_eqb key s r)) rs.
Proof.
  intros H. eapply Forall_impl; [exact H|]. intros r [v Hv].
  unfold field_is_not, getitem, field_eqb. rewrite Hv. reflexivity.
Qed.

Lemma all_have_key (key : string) (keys : list string) (rs : list record) :
  key ∈ keys -> all_have keys rs -> Forall (has_key key) rs.
Proof.
  intros Hk H. eapply Forall_impl; [exact H|]. intros r Hr.
  rewrite Forall_forall in Hr. apply Hr, Hk.
Qed.

(** ** Exceptions of the pure pieces *)

Lemma quiet_Ret {A} (a : A) : quiet (Ret a).
Proof. intros c d. discriminate. Qed.

Lemma quiet_rbind {A B} (r : result A) (k : A -> result B) :
  quiet r -> (forall a, quiet (k a)) -> quiet (rbind r k).
Proof.
  intros Hr Hk. destruct r as [a|e]; simpl; [apply Hk|].
  intros c d [= ->]. exact (Hr c d eq_refl).
Qed.

Lemma quiet_getitem (d : record) (key : string) : quiet (getitem d key).
Proof. unfold getitem. destruct (d !! key); intros c s; discriminate. Qed.

Lemma quiet_list_getitem {A} (xs : list A) (i : nat) : quiet (list_getitem xs i).
Proof. unfold list_getitem. destruct (xs !! i); intros c s; discriminate. Qed.

Lemma quiet_field_is (key s : string) (d : record) : quiet (field_is key s d).
Proof. apply quiet_rbind; [apply quiet_getitem | intros; apply quiet_Ret]. Qed.

Lemma quiet_field_is_not (key s : string) (d : record) : quiet (field_is_not key s d).
Proof. apply quiet_rbind; [apply quiet_getitem | intros; apply quiet_Ret]. Qed.

Lemma quiet_if {A} (b : bool) (x y : result A) : quiet x -> quiet y -> quiet (if b then x else y).
Proof. destruct b; auto. Qed.

Section quiet_loops.
Context {A : Type} (p : A -> result bool) (Hp : forall x, quiet (p x)).

Lemma quiet_py_any (xs : list A) : quiet (py_any p xs).
Proof.
  induction xs as [|x xs IH]; simpl; [apply quiet_Ret|].
  apply quiet_rbind; [apply Hp|]. intros b. apply quiet_if; [apply quiet_Ret | exact IH].
Qed.

Lemma quiet_py_next (xs : list A) : quiet (py_next p xs).
Proof.
  induction xs as [|x xs IH]; simpl; [apply quiet_Ret|].
  apply quiet_rbind; [apply Hp|]. intros b. apply quiet_if; [apply quiet_Ret | exact IH].
Qed.

Lemma quiet_py_filter (xs : list A) : quiet (py_filter p xs).
Proof.
  induction xs as [|x xs IH]; simpl; [apply quiet_Ret|].
  apply quiet_rbind; [apply Hp|]. intros b.
  apply quiet_rbind; [exact IH|]. intros; apply quiet_Ret.
Qed.

Lemma quiet_py_index_from (i : nat) (xs : list A) : quiet (py_index_from i p xs).
Proof.
  revert i. induction xs as [|x xs IH]; intros i; simpl; [apply quiet_Ret|].
  apply quiet_rbind; [apply Hp|]. intros b. apply quiet_if; [apply quiet_Ret | apply IH].
Qed.
End quiet_loops.

Lemma quiet_py_add_int (v : json) (k : Z) : quiet (py_add_int v k).
Proof. destruct v; intros c d; discriminate. Qed.

Lemma quiet_py_max0 (v : json) : quiet (py_max0 v).
Proof. destruct v; intros c d; discriminate. Qed.

Lemma calculate_work_hours_returns (check_in check_out : option string) :
  exists s, calculate_work_hours check_in check_out = Ret s.
Proof.
  unfold calculate_work_hours.
  destruct (negb (truthy_str check_in) || negb (truthy_str check_out)); [eauto|].
  destruct (strptime_HM (default "" check_in)) as [t1|e1] eqn:E1; simpl.
  - destruct (strptime_HM (default "" check_out)) as [t2|e2] eqn:E2; simpl.
    + destruct (datetime_gt t2 t1); simpl; eauto.
    + apply strptime_HM_raises in E2. subst e2. simpl. eauto.
  - apply strptime_HM_raises in E1. subst e1. simpl. eauto.
Qed.

Lemma quiet_calculate_work_hours (check_in check_out : option string) :
  quiet (calculate_work_hours check_in check_out).
Proof.
  destruct (calculate_work_hours_returns check_in check_out) as [s ->]. apply quiet_Ret.
Qed.

Ltac quiet_tac :=
  repeat match goal with
    | |- quiet (Ret _) => apply quiet_Ret
    | |- quiet (rbind _ _) => apply quiet_rbind; [|intros]
    | |- quiet (getitem _ _) => apply quiet_getitem
    | |- quiet (list_getitem _ _) => apply quiet_list_getitem
    | |- quiet (field_is _ _ _) => apply quiet_field_is
    | |- quiet (field_is_not _ _ _) => apply quiet_field_is_not
    | |- quiet (py_add_int _ _) => apply quiet_py_add_int
    | |- quiet (py_max0 _) => apply quiet_py_max0
    | |- quiet (calculate_work_hours _ _) => apply quiet_calculate_work_hours
    | |- quiet (py_any _ _) => apply quiet_py_any; intros
    | |- quiet (py_next _ _) => apply quiet_py_next; intros
    | |- quiet (py_filter _ _) => apply quiet_py_filter; intros
    | |- quiet (py_index _ _) => apply quiet_py_index_from; intros
    | |- quiet (py_index_from _ _ _) => apply quiet_py_index_from; intros
    | |- quiet (if ?b then _ else _) => destruct b
    | |- quiet (match ?x with _ => _ end) => destruct x
    end.

Lemma quiet_same_number_and_district (n d : string) (r : record) :
  quiet (same_number_and_district n d r).
Proof. unfold same_number_and_district. quiet_tac. Qed.

Lemma quiet_same_employee_and_date (e d : string) (r : record) :
  quiet (same_employee_and_date e d r).
Proof. unfold same_employee_and_date. quiet_tac. Qed.

Lemma quiet_same_id_as (x r : record) : quiet (same_id_as x r).
Proof. unfold same_id_as. quiet_tac. Qed.

Lemma quiet_is_department_of (e d : record) : quiet (is_department_of e d).
Proof. unfold is_department_of. quiet_tac. Qed.

Lemma quiet_increment_employee_count (id : string) (ds : list record) :
  quiet (increment_employee_count id ds).
Proof. unfold increment_employee_count. quiet_tac. Qed.

Lemma quiet_decrement_employee_count (e : record) (ds : list record) :
  quiet (decrement_employee_count e ds).
Proof.
  unfold decrement_employee_count.
  apply quiet_rbind; [apply quiet_py_index_from, quiet_is_department_of|].
  intros [i|]; quiet_tac.
Qed.

Lemma quiet_count_where (key s : string) (rs : list record) : quiet (count_where key s rs).
Proof. unfold count_where. quiet_tac. Qed.

Lemma quiet_department_chart_from (i : nat) (ds : list record) :
  quiet (department_chart_from i ds).
Proof. revert i. induction ds as [|d ds IH]; intros i; simpl; quiet_tac. apply IH. Qed.

(** ** Effects of the handlers *)

Lemma silent_pure {A} (a : A) : silent (pure a).
Proof. intros st. apply quiet_Ret. Qed.

Lemma silent_lift {A} (r : result A) : quiet r -> silent (lift r).
Proof. intros H st. exact H. Qed.

Lemma silent_load (f : file) : silent (load_json_data f).
Proof. intros st. rewrite load_json_data_contents. apply quiet_Ret. Qed.

Lemma silent_save (f : file) (data : list record) : silent (save_json_data f data).
Proof. intros st. apply quiet_Ret. Qed.

Lemma silent_bind {A B} (m : M A) (k : A -> M B) :
  silent m -> (forall a, silent (k a)) -> silent (bind m k).
Proof.
  intros Hm Hk st. unfold bind. specialize (Hm st).
  destruct (m st) as [[a|e] st']; simpl in *; [apply Hk|].
  intros c d [= ->]. exact (Hm c d eq_refl).
Qed.

Lemma readonly_lift {A} (r : result A) : readonly (lift r).
Proof. intros st. reflexivity. Qed.

Lemma readonly_load (f : file) : readonly (load_json_data f).
Proof. intros st. rewrite load_json_data_contents. reflexivity. Qed.

Lemma atomic_silent {A} (m : M A) : silent m -> atomic m.
Proof. intros H st c d E. destruct (H st c d E). Qed.

Lemma atomic_raise {A} (code : Z) (detail : string) :
  code = 400 \/ code = 404 -> atomic (raise (A:=A) (HTTPException code detail)).
Proof. intros Hc st c d [= <- <-]. split; [exact Hc | reflexivity]. Qed.

Lemma atomic_bind {A B} (m : M A) (k : A -> M B) :
  readonly m -> silent m -> (forall a, atomic (k a)) -> atomic (bind m k).
Proof.
  intros Hr Hs Hk st c d. unfold bind.
  specialize (Hr st). specialize (Hs st).
  destruct (m st) as [[a|e] st']; simpl in *; subst st'.
  - apply Hk.
  - intros [= ->]. destruct (Hs c d eq_refl).
Qed.

Ltac silent_tac :=
  repeat match goal with
    | |- silent (pure _) => apply silent_pure
    | |- silent (bind _ _) => apply silent_bind; [|intros]
    | |- silent (load_json_data _) => apply silent_load
    | |- silent (save_json_data _ _) => apply silent_save
    | |- silent (lift _) => apply silent_lift
    end.

Ltac atomic_tac :=
  repeat match goal with
    | |- atomic (bind (load_json_data _) _) =>
        apply atomic_bind; [apply readonly_load | apply silent_load | intros]
    | |- atomic (bind (lift _) _) =>
        apply atomic_bind; [apply readonly_lift | apply silent_lift | intros]
    | |- atomic (raise _) => apply atomic_raise; lia
    | |- atomic (if ?b then _ else _) => destruct b
    | |- atomic (match ?x with _ => _ end) => destruct x
    | |- atomic _ => apply atomic_silent; silent_tac
    end.

Ltac quiet_all :=
  quiet_tac;
  try apply quiet_same_number_and_district;
  try apply quiet_same_employee_and_date;
  try apply quiet_same_id_as;
  try apply quiet_is_department_of;
  try apply quiet_increment_employee_count;
  try apply quiet_decrement_employee_count;
  try apply quiet_count_where;
  try apply quiet_department_chart_from.

Lemma atomic_create_district body uuid now : atomic (create_district body uuid now).
Proof. unfold create_district. atomic_tac; quiet_all. Qed.

Lemma atomic_update_district id body : atomic (update_district id body).
Proof. unfold update_district. atomic_tac; quiet_all. Qed.

Lemma atomic_delete_district id : atomic (delete_district id).
Proof. unfold delete_district. atomic_tac; quiet_all. Qed.

Lemma atomic_create_department body uuid now : atomic (create_department body uuid now).
Proof. unfold create_department. atomic_tac; quiet_all. Qed.

Lemma atomic_update_department id body : atomic (update_department id body).
Proof. unfold update_department. atomic_tac; quiet_all. Qed.

Lemma atomic_delete_department id : atomic (delete_department id).
Proof. unfold delete_department. atomic_tac; quiet_all. Qed.

Lemma atomic_create_employee body uuid now : atomic (create_employee body uuid now).
Proof. unfold create_employee. atomic_tac; quiet_all. Qed.

Lemma atomic_update_employee id body : atomic (update_employee id body).
Proof. unfold update_employee. atomic_tac; quiet_all. Qed.

Lemma atomic_delete_employee id : atomic (delete_employee id).
Proof. unfold delete_employee. atomic_tac; quiet_all. Qed.

Lemma atomic_mark_attendance body uuid : atomic (mark_attendance body uuid).
Proof. unfold mark_attendance. atomic_tac; quiet_all. Qed.

Lemma silent_get_statistics today : silent (get_statistics today).
Proof. unfold get_statistics. silent_tac; quiet_all. Qed.

(** C9: when a request ends in an [HTTPException], its status is 400 or
    404 and nothing has been saved: the data directory and the log of
    saves are those of before the call. *)
Theorem failed_request_saves_nothing (r : request) (st : store) (code : Z) (detail : string) :
  (handle r st).1 = Raise (HTTPException code detail) ->
  (code = 400 \/ code = 404) /\ (handle r st).2 = st.
Proof.
  revert st code detail. change (atomic (handle r)).
  destruct r; simpl.
  - unfold get_districts. atomic_tac.
  - apply atomic_create_district.
  - apply atomic_update_district.
  - apply atomic_delete_district.
  - unfold get_departments. atomic_tac.
  - apply atomic_create_department.
  - apply atomic_update_department.
  - apply atomic_delete_department.
  - unfold get_employees. atomic_tac.
  - apply atomic_create_employee.
  - apply atomic_update_employee.
  - apply atomic_delete_employee.
  - unfold get_attendance. atomic_tac; quiet_all.
  - apply atomic_mark_attendance.
  - apply atomic_silent, silent_get_statistics.
Qed.

Lemma failed_request_saves_nothing_witness :
  (handle (POST_districts duplicate_code_district "u1" "2025-01-15T09:00:00") started).2 = started /\
  (handle (DELETE_employees "99") started).2 = started /\
  (handle (DELETE_districts "1") started).2 = started.
Proof.
  split; [|split].
  - apply (failed_request_saves_nothing _ started 400 "Bu kod allaqachon mavjud").
    vm_compute. reflexivity.
  - apply (failed_request_saves_nothing _ started 404 "Ishchi topilmadi").
    vm_compute. reflexivity.
  - apply (failed_request_saves_nothing _ started 400 "Bu tumanda bo'limlar mavjud").
    vm_compute. reflexivity.
Defined.

(** ** Reading attendance *)

Lemma filter_sublist {A} (q : A -> bool) (xs : list A) : sublist (List.filter q xs) xs.
Proof.
  induction xs as [|x xs IH]; simpl; [constructor|].
  destruct (q x); [apply sublist_skip | apply sublist_cons]; exact IH.
Qed.

Lemma get_attendance_run (date : string) (st : store) :
  Forall (has_key "date") (contents st ATTENDANCE_FILE) ->
  get_attendance date st =
    (Ret (mkResponse true
            (DRecords (List.filter (field_eqb "date" date) (contents st ATTENDANCE_FILE)))
            None), st).
Proof.
  intros Hwf. unfold get_attendance, bind.
  rewrite load_json_data_contents. unfold lift.
  rewrite (py_filter_decides _ _ _ (field_is_decides "date" date _ Hwf)).
  reflexivity.
Qed.

(** C7: [GET /attendance?date=D] answers with the stored records whose
    [date] is the string [D] itself, all of them and only them, in the
    order of the file; a record whose date merely resembles [D] is not
    returned.  The store is left as it was. *)
Theorem get_attendance_exact (D : string) (st : store) :
  Forall (has_key "date") (contents st ATTENDANCE_FILE) ->
  exists rs,
    get_attendance D st = (Ret (mkResponse true (DRecords rs) None), st) /\
    rs = List.filter (field_eqb "date" D) (contents st ATTENDANCE_FILE) /\
    sublist rs (contents st ATTENDANCE_FILE) /\
    (forall r, r ∈ rs <-> r ∈ contents st ATTENDANCE_FILE /\ r !! "date" = Some (JStr D)).
Proof.
  intros Hwf. eexists. split; [apply get_attendance_run, Hwf|].
  split; [reflexivity|]. split; [apply filter_sublist|].
  intros r. rewrite !list_elem_of_In, filter_In, field_eqb_true. reflexivity.
Qed.

Lemma has_key_check (key : string) (rs : list record) :
  forallb (fun r => match r !! key with Some _ => true | None => false end) rs = true ->
  Forall (has_key key) rs.
Proof.
  rewrite forallb_forall, Forall_forall. intros H r Hr.
  apply list_elem_of_In, H in Hr. unfold has_key.
  destruct (r !! key); [eauto | discriminate].
Qed.

Lemma all_have_check (keys : list string) (rs : list record) :
  forallb (fun r => forallb (fun k => match r !! k with Some _ => true | None => false end) keys) rs
    = true ->
  all_have keys rs.
Proof.
  unfold all_have. rewrite forallb_forall, Forall_forall. intros H r Hr.
  apply list_elem_of_In, H in Hr. rewrite forallb_forall in Hr.
  rewrite Forall_forall. intros k Hk. apply list_elem_of_In, Hr in Hk.
  unfold has_key. destruct (r !! k); [eauto | discriminate].
Qed.

Lemma get_attendance_exact_witness :
  (get_attendance "2025-01-14" started).1 =
    Ret (mkResponse true
           (DRecords
              [ sample_record "6" "Karimov Sardor" "1" "IT bo'limi" "2025-01-14"
                  (JStr "08:55") (JStr "18:10") "present" "8:15" toshkent;
                sample_record "7" "Abdullayeva Nilufar" "2" "Moliya bo'limi" "2025-01-14"
                  (JStr "09:00") (JStr "18:00") "present" "8:00" toshkent ])
           None) /\
  (get_attendance "2025-01-1" started).1 = Ret (mkResponse true (DRecords []) None).
Proof.
  assert (Hwf : Forall (has_key "date") (contents started ATTENDANCE_FILE))
    by (apply has_key_check; vm_compute; reflexivity).
  destruct (get_attendance_exact "2025-01-14" started Hwf) as (rs1 & E1 & -> & _).
  destruct (get_attendance_exact "2025-01-1" started Hwf) as (rs2 & E2 & -> & _).
  rewrite E1, E2. split; by_compute.
Defined.

(** ** Deleting a district *)

Lemma existsb_field_eqb (key s : string) (rs : list record) :
  existsb (field_eqb key s) rs = true <-> exists r, r ∈ rs /\ r !! key = Some (JStr s).
Proof.
  rewrite existsb_exists. split; intros (r & Hr & H); exists r.
  - apply list_elem_of_In in Hr. apply field_eqb_true in H. auto.
  - apply list_elem_of_In in Hr. apply field_eqb_true in H. auto.
Qed.

Lemma no_field_check (key s : string) (rs : list record) :
  existsb (field_eqb key s) rs = false ->
  ~ (exists r, r ∈ rs /\ r !! key = Some (JStr s)).
Proof. intros H. rewrite <- existsb_field_eqb, H. discriminate. Qed.

Lemma filter_none {A} (q : A -> bool) (xs : list A) :
  existsb q xs = false -> List.filter (fun x => negb (q x)) xs = xs.
Proof.
  induction xs as [|x xs IH]; simpl; [reflexivity|].
  destruct (q x); simpl; [discriminate|]. intros H. f_equal. apply IH, H.
Qed.

Lemma filter_removes {A} (q : A -> bool) (xs : list A) :
  existsb q (List.filter (fun x => negb (q x)) xs) = false.
Proof.
  induction xs as [|x xs IH]; simpl; [reflexivity|].
  destruct (q x) eqn:E; simpl; [exact IH|]. rewrite E. exact IH.
Qed.

Lemma delete_district_run (district_id : string) (st : store) :
  Forall (has_key "districtId") (contents st DEPARTMENTS_FILE) ->
  Forall (has_key "id") (contents st DISTRICTS_FILE) ->
  delete_district district_id st =
    if existsb (field_eqb "districtId" district_id) (contents st DEPARTMENTS_FILE)
    then (Raise (HTTPException 400 "Bu tumanda bo'limlar mavjud"), st)
    else (Ret (mkResponse true DNone (Some "Tuman o'chirildi")),
          (save_json_data DISTRICTS_FILE
             (List.filter (fun d => negb (field_eqb "id" district_id d))
                (contents st DISTRICTS_FILE)) st).2).
Proof.
  intros Hdep Hdis. unfold delete_district, bind.
  rewrite !load_json_data_contents. unfold lift.
  rewrite (py_any_decides _ _ _ (field_is_decides "districtId" district_id _ Hdep)).
  destruct (existsb _ _); [reflexivity|].
  rewrite (py_filter_decides _ _ _ (field_is_not_decides "id" district_id _ Hdis)).
  reflexivity.
Qed.

(** C6: deleting a district that some department references fails with
    status 400 and changes nothing.  When no department references it the
    delete succeeds, whether or not a district has that id: the districts
    left are the stored ones whose id differs, the other files are
    untouched, and when no district had the id the collection is what it
    was.  Deleting again succeeds again and leaves the same collection. *)
Theorem delete_district_spec (district_id : string) (st : store) :
  Forall (has_key "districtId") (contents st DEPARTMENTS_FILE) ->
  Forall (has_key "id") (contents st DISTRICTS_FILE) ->
  ((exists d, d ∈ contents st DEPARTMENTS_FILE /\ d !! "districtId" = Some (JStr district_id)) ->
   delete_district district_id st
     = (Raise (HTTPException 400 "Bu tumanda bo'limlar mavjud"), st)) /\
  (~ (exists d, d ∈ contents st DEPARTMENTS_FILE /\ d !! "districtId" = Some (JStr district_id)) ->
   let st' := (delete_district district_id st).2 in
   (delete_district district_id st).1
     = Ret (mkResponse true DNone (Some "Tuman o'chirildi")) /\
   contents st' DISTRICTS_FILE
     = List.filter (fun d => negb (field_eqb "id" district_id d)) (contents st DISTRICTS_FILE) /\
   (forall f, f <> DISTRICTS_FILE -> disk st' f = disk st f) /\
   (~ (exists d, d ∈ contents st DISTRICTS_FILE /\ d !! "id" = Some (JStr district_id)) ->
    contents st' DISTRICTS_FILE = contents st DISTRICTS_FILE) /\
   (delete_district district_id st').1
     = Ret (mkResponse true DNone (Some "Tuman o'chirildi")) /\
   contents (delete_district district_id st').2 DISTRICTS_FILE = contents st' DISTRICTS_FILE).
Proof.
  intros Hdep Hdis. pose proof (delete_district_run district_id st Hdep Hdis) as Hrun.
  split.
  - intros Href. apply existsb_field_eqb in Href. rewrite Href in Hrun. exact Hrun.
  - intros Hfree. rewrite <- existsb_field_eqb in Hfree.
    apply not_true_is_false in Hfree. rewrite Hfree in Hrun.
    intros st'. subst st'. rewrite Hrun. simpl.
    set (kept := List.filter _ _).
    set (st' := {| disk := _; saved := _ |}).
    assert (Hc : contents st' DISTRICTS_FILE = kept) by reflexivity.
    assert (Hother : forall f, f <> DISTRICTS_FILE -> disk st' f = disk st f).
    { intros f Hf. simpl. destruct (decide (f = DISTRICTS_FILE)); [contradiction | reflexivity]. }
    split; [reflexivity|]. split; [exact Hc|]. split; [exact Hother|].
    split.
    { intros Hnone. rewrite <- existsb_field_eqb in Hnone.
      apply not_true_is_false in Hnone. rewrite Hc. apply filter_none, Hnone. }
    assert (Hdep' : Forall (has_key "districtId") (contents st' DEPARTMENTS_FILE)).
    { unfold contents. rewrite Hother by discriminate. exact Hdep. }
    assert (Hdis' : Forall (has_key "id") (contents st' DISTRICTS_FILE)).
    { rewrite Hc. unfold kept. rewrite Forall_forall in Hdis |- *.
      intros r Hr. apply Hdis. apply list_elem_of_In in Hr. apply filter_In in Hr.
      apply list_elem_of_In, Hr. }
    rewrite (delete_district_run district_id st' Hdep' Hdis').
    replace (contents st' DEPARTMENTS_FILE) with (contents st DEPARTMENTS_FILE)
      by (unfold contents; rewrite Hother by discriminate; reflexivity).
    rewrite Hfree. simpl. split; [reflexivity|].
    rewrite Hc. unfold contents. simpl.
    unfold kept. apply filter_none, filter_removes.
Qed.

Lemma delete_district_spec_witness :
  delete_district "1" started
    = (Raise (HTTPException 400 "Bu tumanda bo'limlar mavjud"), started) /\
  (delete_district "9" started).1 = Ret (mkResponse true DNone (Some "Tuman o'chirildi")) /\
  contents (delete_district "9" started).2 DISTRICTS_FILE = sample_districts.
Proof.
  assert (H1 : Forall (has_key "districtId") (contents started DEPARTMENTS_FILE))
    by (apply has_key_check; vm_compute; reflexivity).
  assert (H2 : Forall (has_key "id") (contents started DISTRICTS_FILE))
    by (apply has_key_check; vm_compute; reflexivity).
  destruct (delete_district_spec "1" started H1 H2) as [A _].
  destruct (delete_district_spec "9" started H1 H2) as [_ B].
  split.
  - apply A. apply existsb_field_eqb. vm_compute. reflexivity.
  - assert (Hfree : ~ (exists d, d ∈ contents started DEPARTMENTS_FILE /\
                                 d !! "districtId" = Some (JStr "9"))).
    { apply no_field_check. vm_compute. reflexivity. }
    destruct (B Hfree) as (E & _ & _ & Hsame & _).
    split; [exact E|]. rewrite Hsame; [reflexivity|].
    apply no_field_check. vm_compute. reflexivity.
Defined.

(** ** The first match of a loop *)

Lemma index_from_first {A} (q : A -> bool) (xs : list A) (k i : nat) (x : A) :
  xs !! i = Some x -> q x = true ->
  (forall j y, (j < i)%nat -> xs !! j = Some y -> q y = false) ->
  index_from k q xs = Some (k + i)%nat.
Proof.
  revert k i. induction xs as [|y ys IH]; intros k i Hx Hq Hbefore; [discriminate|].
  destruct i as [|i]; simpl in *.
  - injection Hx as ->. rewrite Hq. f_equal. lia.
  - rewrite (Hbefore 0%nat y) by (reflexivity || lia).
    rewrite (IH (S k) i Hx Hq).
    + f_equal. lia.
    + intros j z Hj Hz. apply (Hbefore (S j) z); [lia | exact Hz].
Qed.

Lemma index_from_None {A} (q : A -> bool) (xs : list A) (k : nat) :
  existsb q xs = false -> index_from k q xs = None.
Proof.
  revert k. induction xs as [|y ys IH]; intros k; simpl; [reflexivity|].
  destruct (q y); simpl; [discriminate | apply IH].
Qed.

Lemma index_from_Some {A} (q : A -> bool) (xs : list A) (k i : nat) :
  index_from k q xs = Some i ->
  exists x, (k <= i)%nat /\ xs !! (i - k)%nat = Some x /\ q x = true /\
            (forall j y, (j < i - k)%nat -> xs !! j = Some y -> q y = false).
Proof.
  revert k. induction xs as [|y ys IH]; intros k; simpl; [discriminate|].
  destruct (q y) eqn:E.
  - intros [= <-]. exists y. rewrite Nat.sub_diag. repeat split; [lia | exact E | lia].
  - intros H. destruct (IH _ H) as (x & Hk & Hx & Hq & Hbefore).
    exists x. replace (i - k)%nat with (S (i - S k)) by lia.
    repeat split; [lia | exact Hx | exact Hq |].
    intros [|j] z Hj Hz; simpl in Hz.
    + congruence.
    + apply (Hbefore j z); [lia | exact Hz].
Qed.

Lemma existsb_false_lookup {A} (q : A -> bool) (xs : list A) :
  (forall j y, xs !! j = Some y -> q y = false) -> existsb q xs = false.
Proof.
  induction xs as [|y ys IH]; intros H; simpl; [reflexivity|].
  rewrite (H 0%nat y eq_refl). simpl. apply IH.
  intros j z Hz. exact (H (S j) z Hz).
Qed.

Lemma find_None_existsb {A} (q : A -> bool) (xs : list A) :
  existsb q xs = false -> List.find q xs = None.
Proof.
  induction xs as [|y ys IH]; simpl; [reflexivity|].
  destruct (q y); simpl; [discriminate | exact IH].
Qed.

(** ** Updating a record *)


Lemma dict_update_patch (d patch : record) (k : string) (w : json) :
  patch !! k = Some w -> dict_update d patch !! k = Some w.
Proof. intros H. unfold dict_update. apply lookup_union_Some_l, H. Qed.

Lemma dict_update_other (d patch : record) (k : string) :
  patch !! k = None -> dict_update d patch !! k = d !! k.
Proof. intros H. unfold dict_update. apply lookup_union_r, H. Qed.

Lemma dict_update_has_key (d patch : record) (k : string) :
  has_key k d -> has_key k (dict_update d patch).
Proof.
  intros [v Hv]. unfold has_key. destruct (patch !! k) as [w|] eqn:E.
  - rewrite (dict_update_patch _ _ _ _ E). eauto.
  - rewrite (dict_update_other _ _ _ E), Hv. eauto.
Qed.

Lemma alter_as_insert {A} (f : A -> A) (i : nat) (xs : list A) (x : A) :
  xs !! i = Some x -> alter f i xs = <[i := f x]> xs.
Proof.
  intros Hx. apply list_eq. intros j.
  destruct (decide (i = j)) as [<-|Hne].
  - rewrite list_lookup_alter_eq, Hx.
    rewrite list_lookup_insert_eq by (eapply lookup_lt_Some; eauto). reflexivity.
  - rewrite list_lookup_alter_ne, list_lookup_insert_ne by assumption. reflexivity.
Qed.

Lemma field_eqb_false (key s : string) (r : record) :
  r !! key <> Some (JStr s) -> field_eqb key s r = false.
Proof. intros H. apply not_true_is_false. rewrite field_eqb_true. exact H. Qed.




(** ** Creating a department *)

Lemma same_number_and_district_decides (number district : string) (rs : list record) :
  all_have ["departmentNumber"; "districtId"] rs ->
  decides (same_number_and_district number district)
          (both_eqb "departmentNumber" number "districtId" district) rs.
Proof.
  intros H. eapply Forall_impl; [exact H|]. intros r Hr.
  rewrite Forall_forall in Hr.
  destruct (Hr "departmentNumber") as [a Ha]; [set_solver|].
  destruct (Hr "districtId") as [b Hb]; [set_solver|].
  unfold same_number_and_district, field_is, getitem, both_eqb, field_eqb.
  rewrite Ha, Hb. simpl. destruct (py_eq_str a number); reflexivity.
Qed.

Lemma existsb_both_eqb (k1 s1 k2 s2 : string) (rs : list record) :
  existsb (both_eqb k1 s1 k2 s2) rs = true <->
  exists r, r ∈ rs /\ r !! k1 = Some (JStr s1) /\ r !! k2 = Some (JStr s2).
Proof.
  rewrite existsb_exists. unfold both_eqb.
  split; intros (r & Hr & H); exists r.
  - apply list_elem_of_In in Hr. apply andb_prop in H as [H1 H2].
    apply field_eqb_true in H1, H2. auto.
  - destruct H as [H1 H2]. apply field_eqb_true in H1, H2.
    apply list_elem_of_In in Hr. rewrite H1, H2. auto.
Qed.

Lemma no_both_check (k1 s1 k2 s2 : string) (rs : list record) :
  existsb (both_eqb k1 s1 k2 s2) rs = false ->
  ~ (exists r, r ∈ rs /\ r !! k1 = Some (JStr s1) /\ r !! k2 = Some (JStr s2)).
Proof. intros H. rewrite <- existsb_both_eqb, H. discriminate. Qed.

Lemma py_not_found (key s : string) (rs : list record) (r : record) :
  List.find (field_eqb key s) rs = Some r -> py_not (Some r) = false.
Proof.
  intros H. apply find_some in H as [_ H]. apply field_eqb_true in H.
  unfold py_not. apply bool_decide_eq_false. intros ->.
  rewrite lookup_empty in H. discriminate.
Qed.

Lemma find_existsb_false {A} (q : A -> bool) (xs : list A) :
  List.find q xs = None -> existsb q xs = false.
Proof.
  induction xs as [|y ys IH]; simpl; [reflexivity|].
  destruct (q y); simpl; [discriminate | exact IH].
Qed.

Lemma create_department_run (body : Department.t) (uuid now : string) (st : store) :
  all_have ["departmentNumber"; "districtId"] (contents st DEPARTMENTS_FILE) ->
  all_have ["id"; "name"] (contents st DISTRICTS_FILE) ->
  create_department body uuid now st =
    if existsb (both_eqb "departmentNumber" (Department.departmentNumber body)
                         "districtId" (Department.districtId body))
               (contents st DEPARTMENTS_FILE)
    then (Raise (HTTPException 400 "Bu bo'lim raqami allaqachon mavjud"), st)
    else
      match List.find (field_eqb "id" (Department.districtId body))
                      (contents st DISTRICTS_FILE) with
      | None => (Raise (HTTPException 404 "Tuman topilmadi"), st)
      | Some district =>
          let new_department :=
            <["createdAt" := JStr now]>
              (<["districtName" := default JNull (district !! "name")]>
                 (<["id" := JStr uuid]> (Department.model_dump body))) in
          (Ret (mkResponse true (DRecord new_department)
                  (Some "Bo'lim muvaffaqiyatli qo'shildi")),
           (save_json_data DEPARTMENTS_FILE
              (contents st DEPARTMENTS_FILE ++ [new_department]) st).2)
      end.
Proof.
  intros Hdep Hdis. unfold create_department, bind.
  rewrite !load_json_data_contents. unfold lift.
  rewrite (py_any_decides _ _ _ (same_number_and_district_decides _ _ _ Hdep)).
  destruct (existsb _ _); [reflexivity|].
  rewrite (py_next_decides _ _ _
             (field_is_decides "id" _ _ (all_have_key "id" ["id"; "name"] _ ltac:(set_solver) Hdis))).
  destruct (List.find _ _) as [district|] eqn:Hfind; [|reflexivity].
  rewrite (py_not_found _ _ _ _ Hfind).
  apply find_some in Hfind as [Hin _].
  apply list_elem_of_In in Hin.
  pose proof (all_have_key "name" ["id"; "name"] _ ltac:(set_solver) Hdis) as Hname.
  rewrite Forall_forall in Hname. destruct (Hname _ Hin) as [name Hn].
  simpl. unfold getitem. rewrite Hn. reflexivity.
Qed.

(** C3, as the code has it: the duplicate check comes first, so a
    department whose (departmentNumber, districtId) pair is taken is
    refused with 400 whether or not the district exists; otherwise an
    unknown districtId is refused with 404; otherwise the record is
    appended with a fresh id and timestamp, [districtName] copied from the
    first district with that id, and [employeeCount] as the request gave
    it (0 only when the request left it at its default). *)
Theorem create_department_spec (body : Department.t) (uuid now : string) (st : store) :
  all_have ["departmentNumber"; "districtId"] (contents st DEPARTMENTS_FILE) ->
  all_have ["id"; "name"] (contents st DISTRICTS_FILE) ->
  let number := Department.departmentNumber body in
  let district_id := Department.districtId body in
  let taken := exists d, d ∈ contents st DEPARTMENTS_FILE /\
                         d !! "departmentNumber" = Some (JStr number) /\
                         d !! "districtId" = Some (JStr district_id) in
  (taken ->
   create_department body uuid now st
     = (Raise (HTTPException 400 "Bu bo'lim raqami allaqachon mavjud"), st)) /\
  (~ taken ->
   ~ (exists d, d ∈ contents st DISTRICTS_FILE /\ d !! "id" = Some (JStr district_id)) ->
   create_department body uuid now st = (Raise (HTTPException 404 "Tuman topilmadi"), st)) /\
  (~ taken ->
   forall district name,
     List.find (field_eqb "id" district_id) (contents st DISTRICTS_FILE) = Some district ->
     district !! "name" = Some name ->
     exists stored,
       (create_department body uuid now st).1
         = Ret (mkResponse true (DRecord stored) (Some "Bo'lim muvaffaqiyatli qo'shildi")) /\
       contents (create_department body uuid now st).2 DEPARTMENTS_FILE
         = contents st DEPARTMENTS_FILE ++ [stored] /\
       stored !! "districtName" = Some name /\
       stored !! "employeeCount" = Some (opt_int (Department.employeeCount body)) /\
       stored !! "id" = Some (JStr uuid) /\
       stored !! "createdAt" = Some (JStr now) /\
       stored !! "departmentNumber" = Some (JStr number) /\
       stored !! "districtId" = Some (JStr district_id)).
Proof.
  intros Hdep Hdis number district_id taken.
  pose proof (create_department_run body uuid now st Hdep Hdis) as Hrun.
  fold number district_id in Hrun.
  assert (Htaken : existsb (both_eqb "departmentNumber" number "districtId" district_id)
                           (contents st DEPARTMENTS_FILE) = true <-> taken)
    by apply existsb_both_eqb.
  split; [|split].
  - intros H. apply Htaken in H. rewrite H in Hrun. exact Hrun.
  - intros Hfree Hnone. rewrite <- Htaken in Hfree. apply not_true_is_false in Hfree.
    rewrite Hfree in Hrun. rewrite <- existsb_field_eqb in Hnone.
    apply not_true_is_false in Hnone.
    rewrite (find_None_existsb _ _ Hnone) in Hrun. exact Hrun.
  - intros Hfree district name Hfind Hname.
    rewrite <- Htaken in Hfree. apply not_true_is_false in Hfree.
    rewrite Hfree, Hfind, Hname in Hrun. cbv zeta in Hrun. simpl default in Hrun.
    rewrite Hrun. eexists. split; [reflexivity|].
    split; [reflexivity|].
    repeat split; vm_compute; reflexivity.
Qed.

Lemma create_department_spec_witness :
  create_department (department_body "IT" "IT-001" "1" "Rahbar" (Some 0)) "u1" "t1" started
    = (Raise (HTTPException 400 "Bu bo'lim raqami allaqachon mavjud"), started) /\
  create_department (department_body "IT" "IT-001" "77" "Rahbar" (Some 0)) "u1" "t1" started
    = (Raise (HTTPException 404 "Tuman topilmadi"), started) /\
  (exists stored,
     contents (create_department (department_body "Savdo" "SL-001" "2" "Rahbar" (Some 0))
                 "u1" "t1" started).2 DEPARTMENTS_FILE
       = sample_departments ++ [stored] /\
     stored !! "districtName" = Some (JStr "Samarqand tumani") /\
     stored !! "employeeCount" = Some (JInt 0)).
Proof.
  assert (Hdep : all_have ["departmentNumber"; "districtId"] (contents started DEPARTMENTS_FILE))
    by (apply all_have_check; vm_compute; reflexivity).
  assert (Hdis : all_have ["id"; "name"] (contents started DISTRICTS_FILE))
    by (apply all_have_check; vm_compute; reflexivity).
  split; [|split].
  - apply (create_department_spec _ "u1" "t1" started Hdep Hdis).
    apply existsb_both_eqb. vm_compute. reflexivity.
  - apply (create_department_spec _ "u1" "t1" started Hdep Hdis).
    + apply no_both_check. vm_compute. reflexivity.
    + apply no_field_check. vm_compute. reflexivity.
  - destruct (create_department_spec
                (department_body "Savdo" "SL-001" "2" "Rahbar" (Some 0)) "u1" "t1"
                started Hdep Hdis) as (_ & _ & Hok).
    assert (Hfree : ~ (exists d, d ∈ contents started DEPARTMENTS_FILE /\
                                 d !! "departmentNumber" = Some (JStr "SL-001") /\
                                 d !! "districtId" = Some (JStr "2")))
      by (apply no_both_check; vm_compute; reflexivity).
    assert (Hfind : List.find (field_eqb "id" "2") (contents started DISTRICTS_FILE)
                    = Some (default ∅ (sample_districts !! 1%nat)))
      by by_compute.
    assert (Hn : default ∅ (sample_districts !! 1%nat) !! "name"
                 = Some (JStr "Samarqand tumani"))
      by by_compute.
    destruct (Hok Hfree _ _ Hfind Hn) as (stored & _ & Hc & Hname & Hcount & _).
    exists stored. split; [exact Hc|]. split; [exact Hname | exact Hcount].
Defined.

(** C3, as stated, fails twice.  A request that carries
    [employeeCount = 5] is stored with 5, not with 0.  And once district
    "2" has been renumbered by a [PUT], a request for the pair
    (MKT-001, "2"), whose district does not exist, is answered with 400,
    not with 404. *)
Lemma create_department_count_and_order :
  (exists stored,
     (create_department (department_body "Savdo" "SL-001" "2" "Rahbar" (Some 5))
        "u1" "t1" started).1
       = Ret (mkResponse true (DRecord stored) (Some "Bo'lim muvaffaqiyatli qo'shildi")) /\
     last (contents (create_department (department_body "Savdo" "SL-001" "2" "Rahbar" (Some 5))
                       "u1" "t1" started).2 DEPARTMENTS_FILE) = Some stored /\
     stored !! "employeeCount" = Some (JInt 5)) /\
  (~ (exists d, d ∈ contents district_2_renumbered DISTRICTS_FILE /\
                d !! "id" = Some (JStr "2")) /\
   (create_department (department_body "Marketing" "MKT-001" "2" "Rahbar" (Some 0))
      "u1" "t1" district_2_renumbered).1
     = Raise (HTTPException 400 "Bu bo'lim raqami allaqachon mavjud")).
Proof.
  split.
  - exists (default ∅ (last (contents
              (create_department (department_body "Savdo" "SL-001" "2" "Rahbar" (Some 5))
                 "u1" "t1" started).2 DEPARTMENTS_FILE))).
    by_compute.
  - split.
    + apply no_field_check. vm_compute. reflexivity.
    + vm_compute. reflexivity.
Qed.

(** ** Creating an employee *)

(** C4 at a failing input: the department "d9" was created with
    [employeeCount: null].  Creating an employee in it, with a phone that
    is not in use, saves the employee and then dies with a [TypeError] on
    [None + 1]: the department's count is not incremented and the
    departments file is not written. *)
Theorem create_employee_null_count :
  let st := department_without_count in
  let body := employee_body "Yangi Ishchi" "+998900000000" "Sotuvchi" "d9" in
  let out := create_employee body "e9" "2025-01-15T10:00:00" st in
  existsb (field_eqb "phone" "+998900000000") (contents st EMPLOYEES_FILE) = false /\
  (exists d, List.find (field_eqb "id" "d9") (contents st DEPARTMENTS_FILE) = Some d /\
             d !! "employeeCount" = Some JNull) /\
  out.1 = Raise TypeError /\
  length (contents out.2 EMPLOYEES_FILE) = S (length (contents st EMPLOYEES_FILE)) /\
  (exists e, last (contents out.2 EMPLOYEES_FILE) = Some e /\ e !! "id" = Some (JStr "e9") /\
             e !! "departmentId" = Some (JStr "d9")) /\
  contents out.2 DEPARTMENTS_FILE = contents st DEPARTMENTS_FILE /\
  saved out.2 = EMPLOYEES_FILE :: saved st.
Proof.
  cbv zeta. split; [vm_compute; reflexivity|].
  split.
  { exists (default ∅ (last (contents department_without_count DEPARTMENTS_FILE))).
    by_compute. }
  split; [vm_compute; reflexivity|].
  split; [by_compute|].
  split.
  { exists (default ∅ (last (contents
              (create_employee (employee_body "Yangi Ishchi" "+998900000000" "Sotuvchi" "d9")
                 "e9" "2025-01-15T10:00:00" department_without_count).2 EMPLOYEES_FILE))).
    by_compute. }
  split; by_compute.
Qed.

(** ** Statistics *)






Lemma Forall_List_filter {A} (P : A -> Prop) (q : A -> bool) (xs : list A) :
  Forall P xs -> Forall P (List.filter q xs).
Proof.
  rewrite !Forall_forall. intros H x Hx. apply H.
  apply list_elem_of_In in Hx. apply filter_In in Hx. apply list_elem_of_In, Hx.
Qed.

Lemma count_where_run (key s : string) (rs : list record) :
  Forall (has_key key) rs ->
  count_where key s rs = Ret (Z.of_nat (length (List.filter (field_eqb key s) rs))).
Proof.
  intros H. unfold count_where.
  rewrite (py_filter_decides _ _ _ (field_is_decides key s _ H)). reflexivity.
Qed.

Lemma department_chart_from_returns (i : nat) (ds : list record) :
  all_have ["name"; "districtId"] ds ->
  exists slices, department_chart_from i ds = Ret slices /\ length slices = length ds.
Proof.
  intros H. revert i. induction H as [|d ds Hd _ IH]; intros i; simpl; [eauto|].
  rewrite Forall_forall in Hd.
  destruct (Hd "name") as [a Ha]; [set_solver|].
  destruct (Hd "districtId") as [b Hb]; [set_solver|].
  unfold getitem. rewrite Ha, Hb. simpl.
  destruct (IH (S i)) as (more & -> & Hlen). simpl. eexists. split; [reflexivity|].
  simpl. rewrite Hlen. reflexivity.
Qed.




(** ** Marking attendance *)

Lemma find_Some_first {A} (q : A -> bool) (xs : list A) (x : A) :
  List.find q xs = Some x ->
  exists j, xs !! j = Some x /\ q x = true /\
            (forall i y, (i < j)%nat -> xs !! i = Some y -> q y = false).
Proof.
  induction xs as [|y ys IH]; simpl; [discriminate|].
  destruct (q y) eqn:E.
  - intros [= ->]. exists 0%nat. repeat split; [exact E | lia].
  - intros H. destruct (IH H) as (j & Hj & Hq & Hbefore).
    exists (S j). repeat split; [exact Hj | exact Hq |].
    intros [|i] z Hi Hz; simpl in Hz; [congruence|].
    apply (Hbefore i z); [lia | exact Hz].
Qed.

Lemma find_None_filter {A} (q : A -> bool) (xs : list A) :
  List.find q xs = None -> List.filter q xs = [].
Proof.
  induction xs as [|y ys IH]; simpl; [reflexivity|].
  destruct (q y); [discriminate | exact IH].
Qed.



Lemma field_eqb_same (key s : string) (r r' : record) :
  r' !! key = r !! key -> field_eqb key s r' = field_eqb key s r.
Proof. unfold field_eqb. intros ->. reflexivity. Qed.

Lemma patched_keeps (a : AttendanceCreate.t) (hours : string) (r : record) (k : string) :
  k ∈ ["id"; "employeeId"; "date"] ->
  dict_update r (attendance_patch a hours) !! k = r !! k.
Proof.
  intros Hk. apply dict_update_other.
  repeat (apply elem_of_cons in Hk as [-> | Hk]; [reflexivity|]).
  inversion Hk.
Qed.




Lemma new_record_matches (a : AttendanceCreate.t) (uuid hours e d : string) (n dep : json) :
  both_eqb "employeeId" e "date" d (new_attendance_record a uuid n dep hours) = true <->
  e = AttendanceCreate.employeeId a /\ d = AttendanceCreate.date a.
Proof.
  unfold both_eqb. rewrite andb_true_iff, !field_eqb_true.
  change (new_attendance_record a uuid n dep hours !! "employeeId")
    with (Some (JStr (AttendanceCreate.employeeId a))).
  change (new_attendance_record a uuid n dep hours !! "date")
    with (Some (JStr (AttendanceCreate.date a))).
  split; intros [H1 H2]; split; congruence.
Qed.


Lemma same_employee_and_date_decides (employee_id date : string) (rs : list record) :
  all_have ["employeeId"; "date"] rs ->
  decides (same_employee_and_date employee_id date)
          (both_eqb "employeeId" employee_id "date" date) rs.
Proof.
  intros H. eapply Forall_impl; [exact H|]. intros r Hr.
  rewrite Forall_forall in Hr.
  destruct (Hr "employeeId") as [x Hx]; [set_solver|].
  destruct (Hr "date") as [y Hy]; [set_solver|].
  unfold same_employee_and_date, field_is, getitem, both_eqb, field_eqb.
  rewrite Hx, Hy. simpl. destruct (py_eq_str x employee_id); reflexivity.
Qed.


Lemma py_not_nonempty (r : record) (k : string) (v : json) :
  r !! k = Some v -> py_not (Some r) = false.
Proof.
  intros H. unfold py_not. apply bool_decide_eq_false. intros ->.
  rewrite lookup_empty in H. discriminate.
Qed.


(** *** Checking a concrete attendance file *)

Lemma both_eqb_day_key (e d : string) (r : record) :
  both_eqb "employeeId" e "date" d r = true <-> day_key r = Some (e, d).
Proof.
  unfold both_eqb, day_key. rewrite andb_true_iff, !field_eqb_true.
  destruct (r !! "employeeId") as [[]|], (r !! "date") as [[]|];
    split; try (intros [? ?]; congruence); try discriminate;
    intros [= -> ->]; auto.
Qed.

Lemma one_per_day_check (rs : list record) : NoDup (omap day_key rs) -> one_per_day rs.
Proof.
  induction rs as [|r rs IH]; intros Hnd e d; unfold records_of; simpl; [lia|].
  simpl in Hnd.
  destruct (both_eqb "employeeId" e "date" d r) eqn:E.
  - apply both_eqb_day_key in E. rewrite E in Hnd. apply NoDup_cons in Hnd as [Hnot _].
    replace (List.filter _ rs) with (@nil record); [simpl; lia|].
    symmetry. destruct (List.filter _ rs) as [|x xs] eqn:F; [reflexivity|].
    exfalso. apply Hnot.
    assert (Hx : In x (List.filter (both_eqb "employeeId" e "date" d) rs))
      by (rewrite F; left; reflexivity).
    apply filter_In in Hx as [Hx Hq]. apply both_eqb_day_key in Hq.
    apply list_elem_of_omap. exists x. split; [apply list_elem_of_In, Hx | exact Hq].
  - apply IH. destruct (day_key r); [apply NoDup_cons in Hnd as [_ Hnd]|]; exact Hnd.
Qed.

Lemma distinct_ids_check (rs : list record) : NoDup (omap id_key rs) -> distinct_ids rs.
Proof.
  induction rs as [|r rs IH]; intros Hnd i j ri rj s Hi Hj Hsi Hsj; [discriminate|].
  assert (Hin : forall k x, rs !! k = Some x -> x !! "id" = Some (JStr s) ->
                            s ∈ omap id_key rs).
  { intros k x Hx Hs. apply list_elem_of_omap. exists x.
    split; [eapply list_elem_of_lookup_2; eauto|]. unfold id_key. rewrite Hs. reflexivity. }
  simpl in Hnd. destruct i as [|i], j as [|j]; simpl in Hi, Hj.
  - reflexivity.
  - injection Hi as <-. unfold id_key in Hnd at 1. rewrite Hsi in Hnd.
    apply NoDup_cons in Hnd as [Hnot _]. exfalso. apply Hnot. eapply Hin; eauto.
  - injection Hj as <-. unfold id_key in Hnd at 1. rewrite Hsj in Hnd.
    apply NoDup_cons in Hnd as [Hnot _]. exfalso. apply Hnot. eapply Hin; eauto.
  - f_equal. apply (IH ltac:(destruct (id_key r);
                               [apply NoDup_cons in Hnd as [_ Hnd]|]; exact Hnd)
                      i j ri rj s Hi Hj Hsi Hsj).
Qed.






(** ** Well-formed stores *)

Lemma keeps_pure {A} (a : A) : keeps (pure a).
Proof. intros st H. exact H. Qed.

Lemma keeps_raise {A} (e : exn) : keeps (raise (A:=A) e).
Proof. intros st H. exact H. Qed.

Lemma keeps_bind_load {B} (f : file) (k : list record -> M B) :
  (forall rs, all_have (keys_of f) rs -> keeps (k rs)) ->
  keeps (bind (load_json_data f) k).
Proof.
  intros Hk st Hst. unfold bind. rewrite load_json_data_contents.
  apply Hk; [apply Hst | exact Hst].
Qed.

Lemma keeps_bind_lift {A B} (r : result A) (k : A -> M B) :
  (forall a, r = Ret a -> keeps (k a)) -> keeps (bind (lift r) k).
Proof.
  intros Hk st Hst. unfold bind, lift. destruct r as [a|e]; [|exact Hst].
  apply (Hk a eq_refl), Hst.
Qed.

Lemma keeps_bind_save {B} (f : file) (rs : list record) (k : unit -> M B) :
  all_have (keys_of f) rs -> (forall u, keeps (k u)) ->
  keeps (bind (save_json_data f rs) k).
Proof.
  intros Hrs Hk st Hst. unfold bind. simpl. apply Hk.
  intros g. unfold contents. simpl.
  destruct (decide (g = f)) as [->|]; [exact Hrs | apply Hst].
Qed.

Lemma py_filter_elem {A} (p : A -> result bool) (xs ys : list A) :
  py_filter p xs = Ret ys -> forall y, y ∈ ys -> y ∈ xs.
Proof.
  revert ys. induction xs as [|x xs IH]; simpl; intros ys H y Hy.
  - injection H as <-. exact Hy.
  - destruct (p x) as [b|]; [|discriminate]. simpl in H.
    destruct (py_filter p xs) as [rest|]; [|discriminate]. simpl in H.
    injection H as <-. destruct b.
    + apply elem_of_cons in Hy as [-> | Hy]; [left | right; eapply IH; eauto].
    + right. eapply IH; eauto.
Qed.

Lemma py_next_elem {A} (p : A -> result bool) (xs : list A) (x : A) :
  py_next p xs = Ret (Some x) -> x ∈ xs.
Proof.
  induction xs as [|y ys IH]; simpl; [discriminate|].
  destruct (p y) as [[]|]; simpl; [| |discriminate].
  - intros [= ->]. left.
  - intros H. right. apply IH, H.
Qed.

Lemma all_have_filtered (keys : list string) (p : record -> result bool)
    (xs ys : list record) :
  all_have keys xs -> py_filter p xs = Ret ys -> all_have keys ys.
Proof.
  unfold all_have. rewrite !Forall_forall. intros H Hf y Hy.
  apply H. eapply py_filter_elem; eauto.
Qed.

Lemma has_key_insert (k k' : string) (v : json) (r : record) :
  has_key k r -> has_key k (<[k' := v]> r).
Proof.
  intros [w Hw]. unfold has_key. destruct (decide (k' = k)) as [->|Hne].
  - rewrite lookup_insert_eq. eauto.
  - rewrite lookup_insert_ne by assumption. eauto.
Qed.

Lemma all_have_update_at (keys : list string) (i : nat) (patch : record) (xs : list record) :
  all_have keys xs -> all_have keys (update_at i patch xs).
Proof.
  unfold all_have, update_at. intros H. apply Forall_alter; [exact H|].
  intros r _ Hr. eapply Forall_impl; [exact Hr|].
  intros k. apply dict_update_has_key.
Qed.

Lemma all_have_setitem_at (keys : list string) (i : nat) (key : string) (v : json)
    (xs : list record) :
  all_have keys xs -> all_have keys (setitem_at i key v xs).
Proof.
  unfold all_have, setitem_at. intros H. apply Forall_alter; [exact H|].
  intros r _ Hr. eapply Forall_impl; [exact Hr|].
  intros k. apply has_key_insert.
Qed.

Lemma all_have_snoc (keys : list string) (xs : list record) (x : record) :
  all_have keys xs -> Forall (fun k => has_key k x) keys -> all_have keys (xs ++ [x]).
Proof.
  unfold all_have. intros H Hx. apply Forall_app. split; [exact H|].
  apply Forall_singleton, Hx.
Qed.

Lemma all_have_incremented (keys : list string) (id : string) (xs ys : list record) :
  all_have keys xs -> increment_employee_count id xs = Ret ys -> all_have keys ys.
Proof.
  intros H. unfold increment_employee_count.
  destruct (py_index _ _) as [[i|]|]; simpl; [| |discriminate].
  - destruct (list_getitem xs i) as [d|]; simpl; [|discriminate].
    destruct (py_add_int _ _) as [n|]; simpl; [|discriminate].
    intros [= <-]. apply all_have_setitem_at, H.
  - intros [= <-]. exact H.
Qed.

Lemma all_have_decremented (keys : list string) (e : record) (xs ys : list record) :
  all_have keys xs -> decrement_employee_count e xs = Ret ys -> all_have keys ys.
Proof.
  intros H. unfold decrement_employee_count.
  destruct (py_index _ _) as [[i|]|]; simpl; [| |discriminate].
  - destruct (list_getitem xs i) as [d|]; simpl; [|discriminate].
    destruct (py_add_int _ _) as [n|]; simpl; [|discriminate].
    destruct (py_max0 n) as [m|]; simpl; [|discriminate].
    intros [= <-]. apply all_have_setitem_at, H.
  - intros [= <-]. exact H.
Qed.

Lemma has_keys_check (keys : list string) (r : record) :
  forallb (fun k => match r !! k with Some _ => true | None => false end) keys = true ->
  Forall (fun k => has_key k r) keys.
Proof.
  rewrite forallb_forall, Forall_forall. intros H k Hk.
  apply list_elem_of_In, H in Hk. unfold has_key.
  destruct (r !! k); [eauto | discriminate].
Qed.

Ltac keeps_tac :=
  repeat match goal with
    | |- keeps (bind (load_json_data _) _) => apply keeps_bind_load; intros ? ?
    | |- keeps (bind (lift _) _) => apply keeps_bind_lift; intros ? ?
    | |- keeps (bind (save_json_data _ _) _) => apply keeps_bind_save; [|intros ?]
    | |- keeps (raise _) => apply keeps_raise
    | |- keeps (pure _) => apply keeps_pure
    | |- keeps (if ?b then _ else _) => destruct b eqn:?
    | |- keeps (match ?x with _ => _ end) => destruct x eqn:?
    end.

Ltac new_record_tac :=
  apply all_have_snoc; [assumption | apply has_keys_check; vm_compute; reflexivity].

Lemma keeps_create_district body uuid now : keeps (create_district body uuid now).
Proof. unfold create_district. keeps_tac. new_record_tac. Qed.

Lemma keeps_update_district id body : keeps (update_district id body).
Proof. unfold update_district. keeps_tac; apply all_have_update_at; assumption. Qed.

Lemma keeps_delete_district id : keeps (delete_district id).
Proof. unfold delete_district. keeps_tac. eapply all_have_filtered; eauto. Qed.

Lemma keeps_create_department body uuid now : keeps (create_department body uuid now).
Proof. unfold create_department. keeps_tac. new_record_tac. Qed.

Lemma keeps_update_department id body : keeps (update_department id body).
Proof. unfold update_department. keeps_tac; apply all_have_update_at; assumption. Qed.

Lemma keeps_delete_department id : keeps (delete_department id).
Proof. unfold delete_department. keeps_tac. eapply all_have_filtered; eauto. Qed.

Lemma keeps_create_employee body uuid now : keeps (create_employee body uuid now).
Proof.
  unfold create_employee. keeps_tac.
  - new_record_tac.
  - eapply all_have_incremented; eauto.
Qed.

Lemma keeps_update_employee id body : keeps (update_employee id body).
Proof. unfold update_employee. keeps_tac; apply all_have_update_at; assumption. Qed.

Lemma keeps_delete_employee id : keeps (delete_employee id).
Proof.
  unfold delete_employee. keeps_tac.
  - eapply all_have_filtered; eauto.
  - eapply all_have_decremented; eauto.
Qed.

Lemma keeps_mark_attendance body uuid : keeps (mark_attendance body uuid).
Proof.
  unfold mark_attendance. keeps_tac.
  match goal with H : _ = Ret ?a |- all_have _ ?a => rename H into Hblock end.
  destruct (calculate_work_hours_returns (AttendanceCreate.checkIn body)
              (AttendanceCreate.checkOut body)) as [hours Hh].
  rewrite Hh in Hblock.
  destruct (negb _); simpl in Hblock.
  - destruct (py_index _ _) as [[i|]|]; simpl in Hblock; [| |discriminate].
    + injection Hblock as <-. apply all_have_update_at. assumption.
    + injection Hblock as <-. assumption.
  - destruct (getitem _ "name") as [n|]; simpl in Hblock; [|discriminate].
    destruct (getitem _ "departmentName") as [dep|]; simpl in Hblock; [|discriminate].
    injection Hblock as <-. new_record_tac.
Qed.

Lemma keeps_handle (r : request) : keeps (handle r).
Proof.
  destruct r; simpl.
  - unfold get_districts. keeps_tac.
  - apply keeps_create_district.
  - apply keeps_update_district.
  - apply keeps_delete_district.
  - unfold get_departments. keeps_tac.
  - apply keeps_create_department.
  - apply keeps_update_department.
  - apply keeps_delete_department.
  - unfold get_employees. keeps_tac.
  - apply keeps_create_employee.
  - apply keeps_update_employee.
  - apply keeps_delete_employee.
  - unfold get_attendance. keeps_tac.
  - apply keeps_mark_attendance.
  - unfold get_statistics. keeps_tac.
Qed.

Lemma first_start_well_formed (today yesterday : string) :
  well_formed (first_start today yesterday).
Proof. intros f. destruct f; apply all_have_check; vm_compute; reflexivity. Qed.

(** Every state reached from a first start has, in every stored record,
    the keys that the handlers read: no handler removes a key. *)
Lemma reachable_well_formed (today yesterday : string) (st : store) :
  reachable today yesterday st -> well_formed st.
Proof.
  intros [rs ->]. unfold serve.
  generalize (first_start_well_formed today yesterday).
  generalize (first_start today yesterday). 
  induction rs as [|r rs IH]; intros st Hst; simpl; [exact Hst|].
  apply IH, keeps_handle, Hst.
Qed.

(** * Further properties of the handlers *)

(** ** Which files a request writes *)

Lemma readonly_pure {A} (a : A) : readonly (pure a).
Proof. intros st. reflexivity. Qed.

Lemma readonly_bind {A B} (m : M A) (k : A -> M B) :
  readonly m -> (forall a, readonly (k a)) -> readonly (bind m k).
Proof.
  intros Hm Hk st. unfold bind. specialize (Hm st).
  destruct (m st) as [[a|e] st']; simpl in *; subst st'; [apply Hk | reflexivity].
Qed.

Ltac readonly_tac :=
  repeat match goal with
    | |- readonly (bind _ _) => apply readonly_bind; [|intros ?]
    | |- readonly (load_json_data _) => apply readonly_load
    | |- readonly (lift _) => apply readonly_lift
    | |- readonly (pure _) => apply readonly_pure
    end.

(** X1: the five [GET] endpoints never write: whatever the data directory
    holds, and whether they answer or raise, the files and the log of
    saves are afterwards what they were. *)
Theorem read_requests_write_nothing (r : request) (st : store) :
  is_read r = true -> (handle r st).2 = st.
Proof.
  intros Hr. revert st. change (readonly (handle r)).
  destruct r; try discriminate; simpl;
    unfold get_districts, get_departments, get_employees, get_attendance, get_statistics;
    readonly_tac.
Qed.

Lemma read_requests_write_nothing_witness :
  (handle (GET_statistics "2025-01-15") corrupt_disk).2 = corrupt_disk /\
  (handle (GET_attendance "2025-01-15") started).2 = started.
Proof.
  split.
  - apply (read_requests_write_nothing (GET_statistics "2025-01-15") corrupt_disk).
    reflexivity.
  - apply (read_requests_write_nothing (GET_attendance "2025-01-15") started).
    reflexivity.
Defined.

Lemma touches_pure {A} (fs : list file) (a : A) : touches_only fs (pure a).
Proof. intros st. split; intros f Hf; [reflexivity | right; exact Hf]. Qed.

Lemma touches_raise {A} (fs : list file) (e : exn) : touches_only fs (raise (A:=A) e).
Proof. intros st. split; intros f Hf; [reflexivity | right; exact Hf]. Qed.

Lemma touches_lift {A} (fs : list file) (r : result A) : touches_only fs (lift r).
Proof. intros st. split; intros f Hf; [reflexivity | right; exact Hf]. Qed.

Lemma touches_load (fs : list file) (f : file) : touches_only fs (load_json_data f).
Proof.
  intros st. rewrite load_json_data_contents.
  split; intros g Hg; [reflexivity | right; exact Hg].
Qed.

Lemma touches_save (fs : list file) (f : file) (data : list record) :
  f ∈ fs -> touches_only fs (save_json_data f data).
Proof.
  intros Hf st. split; intros g Hg; simpl in *.
  - destruct (decide (g = f)) as [->|]; [contradiction | reflexivity].
  - apply elem_of_cons in Hg as [-> | Hg]; [left; exact Hf | right; exact Hg].
Qed.

Lemma touches_bind {A B} (fs : list file) (m : M A) (k : A -> M B) :
  touches_only fs m -> (forall a, touches_only fs (k a)) -> touches_only fs (bind m k).
Proof.
  intros Hm Hk st. unfold bind. destruct (Hm st) as [Hd Hs].
  destruct (m st) as [[a|e] st']; simpl in *; [|split; assumption].
  destruct (Hk a st') as [Hd' Hs']. split.
  - intros f Hf. rewrite Hd' by assumption. apply Hd, Hf.
  - intros f Hf. destruct (Hs' f Hf) as [H | H]; [left; exact H | apply Hs, H].
Qed.

Ltac touches_tac :=
  repeat match goal with
    | |- touches_only _ (bind _ _) => apply touches_bind; [|intros ?]
    | |- touches_only _ (load_json_data _) => apply touches_load
    | |- touches_only _ (save_json_data _ _) => apply touches_save; set_solver
    | |- touches_only _ (lift _) => apply touches_lift
    | |- touches_only _ (pure _) => apply touches_pure
    | |- touches_only _ (raise _) => apply touches_raise
    | |- touches_only _ (if ?b then _ else _) => destruct b
    | |- touches_only _ (match ?x with _ => _ end) => destruct x
    end.

Lemma touches_handle (r : request) : touches_only (writes_of r) (handle r).
Proof.
  destruct r; simpl;
    unfold get_districts, create_district, update_district, delete_district,
           get_departments, create_department, update_department, delete_department,
           get_employees, create_employee, update_employee, delete_employee,
           get_attendance, mark_attendance, get_statistics;
    touches_tac.
Qed.

(** X2: a request writes only the files of its own collection: district
    requests the districts file, department requests the departments
    file, [POST] and [DELETE /employees] the employees and departments
    files, [PUT /employees] the employees file, [POST /attendance] the
    attendance file.  Every other file is afterwards what it was, so that
    deleting an employee keeps the attendance records and renaming a
    department leaves the employees' copies of its name as they were. *)
Theorem request_writes_its_own_files (r : request) (st : store) (f : file) :
  f ∉ writes_of r ->
  disk (handle r st).2 f = disk st f /\
  contents (handle r st).2 f = contents st f /\
  (f ∈ saved (handle r st).2 -> f ∈ saved st).
Proof.
  intros Hf. destruct (touches_handle r st) as [Hd Hs].
  split; [apply Hd, Hf|]. split.
  - unfold contents. rewrite Hd by exact Hf. reflexivity.
  - intros H. destruct (Hs f H) as [H' | H']; [contradiction | exact H'].
Qed.

Lemma request_writes_its_own_files_witness :
  contents (handle (DELETE_employees "1") started).2 ATTENDANCE_FILE
    = contents started ATTENDANCE_FILE /\
  contents (handle (PUT_departments "1" {["name" := JStr "Axborot"]}) started).2 EMPLOYEES_FILE
    = contents started EMPLOYEES_FILE.
Proof.
  split.
  - apply (request_writes_its_own_files (DELETE_employees "1") started ATTENDANCE_FILE).
    by_compute.
  - apply (request_writes_its_own_files
             (PUT_departments "1" {["name" := JStr "Axborot"]}) started EMPLOYEES_FILE).
    by_compute.
Defined.

(** ** No request crashes on a well-formed store *)

Lemma steady_pure {A} (b : bool) (a : A) : steady b (pure a).
Proof. intros st H. split; [exact H | exact I]. Qed.

Lemma steady_raise {A} (b : bool) (code : Z) (detail : string) :
  code = 400 \/ code = 404 -> steady b (raise (A:=A) (HTTPException code detail)).
Proof. intros Hc st H. split; [exact H | exact Hc]. Qed.

Lemma steady_bind_load {B} (b : bool) (f : file) (k : list record -> M B) :
  (forall rs, all_have (keys_of f) rs -> steady b (k rs)) ->
  steady b (bind (load_json_data f) k).
Proof.
  intros Hk st Hst. unfold bind. rewrite load_json_data_contents.
  apply Hk; [apply Hst | exact Hst].
Qed.

Lemma steady_bind_ret {A B} (b : bool) (a : A) (k : A -> M B) :
  steady b (k a) -> steady b (bind (lift (Ret a)) k).
Proof. intros Hk st Hst. apply Hk, Hst. Qed.

Lemma steady_bind_lift {A B} (b : bool) (r : result A) (k : A -> M B) :
  no_crash b r -> (forall a, r = Ret a -> steady b (k a)) -> steady b (bind (lift r) k).
Proof.
  intros Hr Hk st Hst. unfold bind, lift. destruct r as [a|e].
  - apply (Hk a eq_refl), Hst.
  - split; [exact Hst | exact Hr].
Qed.

Lemma steady_bind_save {B} (b : bool) (f : file) (rs : list record) (k : unit -> M B) :
  all_have (keys_of f) rs -> (forall u, steady b (k u)) ->
  steady b (bind (save_json_data f rs) k).
Proof.
  intros Hrs Hk st Hst. unfold bind. simpl. apply Hk.
  intros g. unfold contents. simpl.
  destruct (decide (g = f)) as [->|]; [exact Hrs | apply Hst].
Qed.

Lemma all_have_subset (keys keys' : list string) (rs : list record) :
  all_have keys rs -> keys' ⊆ keys -> all_have keys' rs.
Proof.
  unfold all_have. intros H Hsub. eapply Forall_impl; [exact H|].
  intros r Hr. rewrite Forall_forall in Hr |- *. intros k Hk. apply Hr, Hsub, Hk.
Qed.

Section field_loops.
Context (keys : list string) (rs : list record) (Hrs : all_have keys rs).
Context (k s : string) (Hk : k ∈ keys).

Lemma py_any_field : py_any (field_is k s) rs = Ret (existsb (field_eqb k s) rs).
Proof. apply py_any_decides, field_is_decides, (all_have_key k keys rs Hk Hrs). Qed.

Lemma py_next_field : py_next (field_is k s) rs = Ret (List.find (field_eqb k s) rs).
Proof. apply py_next_decides, field_is_decides, (all_have_key k keys rs Hk Hrs). Qed.

Lemma py_filter_field : py_filter (field_is k s) rs = Ret (List.filter (field_eqb k s) rs).
Proof. apply py_filter_decides, field_is_decides, (all_have_key k keys rs Hk Hrs). Qed.

Lemma py_filter_field_not :
  py_filter (field_is_not k s) rs = Ret (List.filter (fun r => negb (field_eqb k s r)) rs).
Proof. apply py_filter_decides, field_is_not_decides, (all_have_key k keys rs Hk Hrs). Qed.

Lemma py_index_field :
  py_index (field_is k s) rs = Ret (index_from 0 (field_eqb k s) rs).
Proof. apply py_index_from_decides, field_is_decides, (all_have_key k keys rs Hk Hrs). Qed.

Lemma count_where_field :
  count_where k s rs = Ret (Z.of_nat (length (List.filter (field_eqb k s) rs))).
Proof. apply count_where_run, (all_have_key k keys rs Hk Hrs). Qed.
End field_loops.

Lemma all_have_List_filter (keys : list string) (q : record -> bool) (rs : list record) :
  all_have keys rs -> all_have keys (List.filter q rs).
Proof. apply Forall_List_filter. Qed.

Lemma getitem_found (keys : list string) (rs : list record) (q : record -> bool)
    (r : record) (k : string) :
  all_have keys rs -> List.find q rs = Some r -> k ∈ keys ->
  exists v, getitem r k = Ret v /\ r !! k = Some v.
Proof.
  intros Hrs Hfind Hk. apply find_some in Hfind as [Hin _].
  apply list_elem_of_In in Hin. unfold all_have in Hrs.
  rewrite Forall_forall in Hrs. pose proof (Hrs r Hin) as Hr.
  rewrite Forall_forall in Hr. destruct (Hr k Hk) as [v Hv].
  exists v. unfold getitem. rewrite Hv. auto.
Qed.

Lemma index_from_lookup {A} (q : A -> bool) (xs : list A) (i : nat) :
  index_from 0 q xs = Some i -> exists x, xs !! i = Some x /\ q x = true.
Proof.
  intros H. apply index_from_Some in H as (x & _ & Hx & Hq & _).
  rewrite Nat.sub_0_r in Hx. eauto.
Qed.

Lemma list_getitem_update_at (i : nat) (patch : record) (xs : list record) (x : record) :
  xs !! i = Some x -> list_getitem (update_at i patch xs) i = Ret (dict_update x patch).
Proof.
  intros Hx. unfold list_getitem, update_at. rewrite list_lookup_alter_eq, Hx. reflexivity.
Qed.

Ltac in_keys := by_compute.

Ltac steady_step :=
  match goal with
  | |- steady _ (bind (load_json_data _) _) => apply steady_bind_load; intros ? ?
  | |- steady _ (bind (lift (Ret _)) _) => apply steady_bind_ret
  | |- steady _ (bind (save_json_data _ _) _) => apply steady_bind_save; [|intros ?]
  | |- steady _ (raise (HTTPException _ _)) => apply steady_raise; auto
  | |- steady _ (pure _) => apply steady_pure
  | H : all_have ?keys ?rs |- context [py_any (field_is ?k ?s) ?rs] =>
      rewrite (py_any_field keys rs H k s) by in_keys
  | H : all_have ?keys ?rs |- context [py_next (field_is ?k ?s) ?rs] =>
      rewrite (py_next_field keys rs H k s) by in_keys
  | H : all_have ?keys ?rs |- context [py_filter (field_is_not ?k ?s) ?rs] =>
      rewrite (py_filter_field_not keys rs H k s) by in_keys
  | H : all_have ?keys ?rs |- context [py_filter (field_is ?k ?s) ?rs] =>
      rewrite (py_filter_field keys rs H k s) by in_keys
  | H : all_have ?keys ?rs |- context [py_index (field_is ?k ?s) ?rs] =>
      rewrite (py_index_field keys rs H k s) by in_keys
  | H : all_have ?keys ?rs |- context [count_where ?k ?s ?rs] =>
      rewrite (count_where_field keys rs H k s) by in_keys
  | |- steady _ (if ?b then _ else _) => destruct b eqn:?
  | |- steady _ (match ?x with _ => _ end) => destruct x eqn:?
  end.

Ltac steady_tac := repeat steady_step.

Lemma steady_create_district body uuid now : steady false (create_district body uuid now).
Proof. unfold create_district. steady_tac. new_record_tac. Qed.

Lemma steady_update (c : collection) (id : string) (patch : record) :
  steady false (update_of c id patch).
Proof.
  destruct c; simpl; unfold update_district, update_department, update_employee;
    steady_tac;
    try (apply all_have_update_at; assumption);
    match goal with
    | H : index_from 0 _ _ = Some _ |- _ =>
        apply index_from_lookup in H as (x & Hx & _);
        rewrite (list_getitem_update_at _ _ _ _ Hx)
    end; steady_tac.
Qed.

Lemma steady_delete_district id : steady false (delete_district id).
Proof. unfold delete_district. steady_tac. apply all_have_List_filter. assumption. Qed.

Lemma steady_delete_department id : steady false (delete_department id).
Proof. unfold delete_department. steady_tac. apply all_have_List_filter. assumption. Qed.

Ltac subset_tac :=
  let k := fresh "k" in
  let Hk := fresh "Hk" in
  intros k Hk;
  repeat (apply elem_of_cons in Hk as [-> | Hk]; [by_compute|]);
  inversion Hk.

Lemma py_not_false (o : option record) :
  py_not o = false -> exists d, o = Some d.
Proof. destruct o as [d|]; [eauto | discriminate]. Qed.

(** Reads the field [k] of the record that a lookup found. *)
Ltac read_found k :=
  match goal with
  | Hall : all_have ?keys ?rs, Hfind : List.find _ ?rs = Some ?r
    |- context [getitem ?r k] =>
      let v := fresh "v" in
      let Hv := fresh "Hv" in
      destruct (getitem_found keys rs _ r k Hall Hfind ltac:(in_keys)) as (v & Hv & _);
      rewrite Hv
  end.

Ltac found_tac :=
  match goal with
  | H : py_not (List.find ?q ?rs) = false |- _ =>
      let d := fresh "d" in
      let Hd := fresh "Hfound" in
      destruct (py_not_false _ H) as [d Hd]; rewrite Hd in *; cbn [default from_option id]
  end.

Lemma steady_create_department body uuid now : steady false (create_department body uuid now).
Proof.
  unfold create_department. do 2 steady_step.
  rewrite (py_any_decides _ _ _
             (same_number_and_district_decides _ _ _
                (all_have_subset _ ["departmentNumber"; "districtId"] _ H ltac:(subset_tac)))).
  steady_tac. found_tac. read_found "name". steady_tac. new_record_tac.
Qed.

Lemma no_crash_list_getitem {A} (q : A -> bool) (xs : list A) (i : nat) :
  index_from 0 q xs = Some i -> exists x, list_getitem xs i = Ret x /\ xs !! i = Some x.
Proof.
  intros H. apply index_from_lookup in H as (x & Hx & _).
  exists x. unfold list_getitem. rewrite Hx. auto.
Qed.

Lemma no_crash_increment (keys : list string) (id : string) (ds : list record) :
  all_have keys ds -> "id" ∈ keys -> no_crash true (increment_employee_count id ds).
Proof.
  intros Hds Hid. unfold increment_employee_count.
  rewrite (py_index_field keys ds Hds "id" id Hid).
  destruct (index_from _ _ _) as [i|] eqn:E; simpl; [|exact I].
  destruct (no_crash_list_getitem _ _ _ E) as (d & -> & _). simpl.
  destruct (dict_get d "employeeCount" (JInt 0)); simpl; auto.
Qed.

Lemma is_department_of_decides (e : record) (v : json) (ds : list record) :
  Forall (has_key "id") ds -> e !! "departmentId" = Some v ->
  decides (is_department_of e) (fun d => py_eq (default JNull (d !! "id")) v) ds.
Proof.
  intros H Hv. eapply Forall_impl; [exact H|]. intros d [w Hw].
  unfold is_department_of, getitem. rewrite Hw, Hv. reflexivity.
Qed.

Lemma no_crash_decrement (keys : list string) (e : record) (ds : list record) :
  all_have keys ds -> "id" ∈ keys -> has_key "departmentId" e ->
  no_crash true (decrement_employee_count e ds).
Proof.
  intros Hds Hid [v Hv]. unfold decrement_employee_count, py_index.
  rewrite (py_index_from_decides _ _ _ _
             (is_department_of_decides e v ds (all_have_key "id" keys ds Hid Hds) Hv)).
  destruct (index_from _ _ _) as [i|] eqn:E; simpl; [|exact I].
  destruct (no_crash_list_getitem _ _ _ E) as (d & -> & _). simpl.
  destruct (dict_get d "employeeCount" (JInt 1)); simpl; auto.
Qed.

Lemma steady_create_employee body uuid now : steady true (create_employee body uuid now).
Proof.
  unfold create_employee. steady_tac. found_tac.
  read_found "name". steady_step.
  read_found "departmentNumber". steady_step.
  read_found "districtName". steady_tac.
  - new_record_tac.
  - apply steady_bind_lift.
    + eapply no_crash_increment; [eassumption | in_keys].
    + intros ds Hds. steady_tac. eapply all_have_incremented; eauto.
Qed.

Lemma steady_delete_employee id : steady true (delete_employee id).
Proof.
  unfold delete_employee. steady_tac; try found_tac.
  - apply all_have_List_filter. assumption.
  - apply steady_bind_lift.
    + eapply no_crash_decrement; [eassumption | in_keys |].
      match goal with
      | Hall : all_have ?keys ?rs, Hf : List.find _ ?rs = Some ?r |- has_key _ ?r =>
          destruct (getitem_found keys rs _ r "departmentId" Hall Hf ltac:(in_keys))
            as (v & _ & Hv)
      end.
      eexists; eassumption.
    + intros ds Hds. steady_tac. eapply all_have_decremented; eauto.
Qed.

Lemma same_id_as_decides_any (existing : record) (v : json) (rs : list record) :
  Forall (has_key "id") rs -> existing !! "id" = Some v ->
  decides (same_id_as existing) (fun r => py_eq (default JNull (r !! "id")) v) rs.
Proof.
  intros H Hv. eapply Forall_impl; [exact H|]. intros r [w Hw].
  unfold same_id_as, getitem. rewrite Hw, Hv. reflexivity.
Qed.

Lemma steady_mark_attendance body uuid : steady false (mark_attendance body uuid).
Proof.
  unfold mark_attendance. steady_tac. found_tac.
  match goal with
  | H : all_have (keys_of ATTENDANCE_FILE) ?rs |- _ =>
      rewrite (py_next_decides _ _ _
                 (same_employee_and_date_decides _ _ _
                    (all_have_subset _ ["employeeId"; "date"] _ H ltac:(subset_tac))));
      rename H into Hatt
  end.
  destruct (calculate_work_hours_returns (AttendanceCreate.checkIn body)
              (AttendanceCreate.checkOut body)) as [hours ->].
  apply steady_bind_ret.
  destruct (negb _) eqn:Hexists.
  - apply negb_true_iff, py_not_false in Hexists as [existing Hexisting].
    rewrite Hexisting. cbn [default from_option id].
    destruct (getitem_found _ _ _ existing "id" Hatt Hexisting ltac:(in_keys))
      as (v & _ & Hv).
    unfold py_index.
    rewrite (py_index_from_decides _ _ _ _
               (same_id_as_decides_any existing v _
                  (all_have_key "id" (keys_of ATTENDANCE_FILE) _ ltac:(in_keys) Hatt) Hv)).
    destruct (index_from _ _ _); cbn [rbind]; steady_tac;
      [apply all_have_update_at|]; assumption.
  - read_found "name". cbn [rbind]. read_found "departmentName". cbn [rbind].
    steady_tac. new_record_tac.
Qed.

Lemma steady_get_statistics today : steady false (get_statistics today).
Proof.
  unfold get_statistics. do 4 steady_step. steady_tac.
  match goal with
  | H : all_have (keys_of ATTENDANCE_FILE) ?rs |- _ =>
      pose proof (all_have_List_filter _ (field_eqb "date" today) _ H)
  end.
  steady_tac.
  match goal with
  | H : all_have (keys_of DEPARTMENTS_FILE) ?rs |- _ =>
      destruct (department_chart_from_returns 0 rs
                  (all_have_subset _ ["name"; "districtId"] _ H ltac:(subset_tac)))
        as (slices & -> & _)
  end.
  steady_tac.
Qed.

Lemma steady_handle (r : request) : steady (counts r) (handle r).
Proof.
  destruct r; simpl.
  - unfold get_districts. steady_tac.
  - apply steady_create_district.
  - apply (steady_update Districts).
  - apply steady_delete_district.
  - unfold get_departments. steady_tac.
  - apply steady_create_department.
  - apply (steady_update Departments).
  - apply steady_delete_department.
  - unfold get_employees. steady_tac.
  - apply steady_create_employee.
  - apply (steady_update Employees).
  - apply steady_delete_employee.
  - unfold get_attendance. steady_tac.
  - apply steady_mark_attendance.
  - apply steady_get_statistics.
Qed.

(** X3: in every state reached from a first start, every stored record
    has the keys the handlers read, and no request ends in a [KeyError],
    an [IndexError], a [ValueError] or an [OSError]: it answers, or raises
    400 or 404, or, for [POST] and [DELETE /employees], which do
    arithmetic on a stored count, a [TypeError]. *)
Theorem requests_do_not_crash (today yesterday : string) (st : store) (r : request) :
  reachable today yesterday st ->
  well_formed st /\
  well_formed (handle r st).2 /\
  no_crash (counts r) (handle r st).1.
Proof.
  intros Hst. apply reachable_well_formed in Hst.
  split; [exact Hst|]. apply (steady_handle r st Hst).
Qed.

Lemma requests_do_not_crash_witness :
  no_crash false
    (handle (GET_statistics "2025-01-15")
       (serve [DELETE_employees "3"; PUT_districts "2" {["id" := JStr "9"]}] started)).1.
Proof.
  apply (requests_do_not_crash "2025-01-15" "2025-01-14"
           (serve [DELETE_employees "3"; PUT_districts "2" {["id" := JStr "9"]}] started)
           (GET_statistics "2025-01-15")).
  eexists. reflexivity.
Defined.

(** ** Creating a district *)

Lemma create_district_run (body : District.t) (uuid now : string) (st : store) :
  Forall (has_key "code") (contents st DISTRICTS_FILE) ->
  create_district body uuid now st =
    if existsb (field_eqb "code" (District.code body)) (contents st DISTRICTS_FILE)
    then (Raise (HTTPException 400 "Bu kod allaqachon mavjud"), st)
    else
      let new_district :=
        <["createdAt" := JStr now]> (<["id" := JStr uuid]> (District.model_dump body)) in
      (Ret (mkResponse true (DRecord new_district) (Some "Tuman muvaffaqiyatli qo'shildi")),
       (save_json_data DISTRICTS_FILE (contents st DISTRICTS_FILE ++ [new_district]) st).2).
Proof.
  intros Hwf. unfold create_district, bind.
  rewrite load_json_data_contents. unfold lift.
  rewrite (py_any_decides _ _ _ (field_is_decides "code" _ _ Hwf)).
  destruct (existsb _ _); reflexivity.
Qed.

(** X4: [POST /districts] refuses, with 400 and no change, a code that a
    stored district already has, compared as a string, case included.
    Any other code is accepted: the record is appended after the stored
    ones with the generated id and the current time, whatever [id] and
    [createdAt] the client sent, and [GET /districts] then lists it
    last. *)
Theorem create_district_spec (body : District.t) (uuid now : string) (st : store) :
  Forall (has_key "code") (contents st DISTRICTS_FILE) ->
  ((exists d, d ∈ contents st DISTRICTS_FILE /\ d !! "code" = Some (JStr (District.code body))) ->
   create_district body uuid now st
     = (Raise (HTTPException 400 "Bu kod allaqachon mavjud"), st)) /\
  (~ (exists d, d ∈ contents st DISTRICTS_FILE /\
                d !! "code" = Some (JStr (District.code body))) ->
   let out := create_district body uuid now st in
   exists stored,
     out.1 = Ret (mkResponse true (DRecord stored) (Some "Tuman muvaffaqiyatli qo'shildi")) /\
     contents out.2 DISTRICTS_FILE = contents st DISTRICTS_FILE ++ [stored] /\
     stored !! "id" = Some (JStr uuid) /\
     stored !! "createdAt" = Some (JStr now) /\
     stored !! "name" = Some (JStr (District.name body)) /\
     stored !! "code" = Some (JStr (District.code body)) /\
     stored !! "description" = Some (opt_str (District.description body)) /\
     (get_districts out.2).1
       = Ret (mkResponse true (DRecords (contents st DISTRICTS_FILE ++ [stored])) None)).
Proof.
  intros Hwf. pose proof (create_district_run body uuid now st Hwf) as Hrun.
  split.
  - intros H. apply existsb_field_eqb in H. rewrite H in Hrun. exact Hrun.
  - intros H. rewrite <- existsb_field_eqb in H. apply not_true_is_false in H.
    rewrite H in Hrun. cbv zeta in *. rewrite Hrun. eexists.
    split; [reflexivity|]. split; [reflexivity|].
    repeat (split; [vm_compute; reflexivity|]).
    unfold get_districts, bind. rewrite load_json_data_contents. reflexivity.
Qed.

Lemma create_district_spec_witness :
  create_district (district_body "Yangi" "TSH001") "u1" "t1" started
    = (Raise (HTTPException 400 "Bu kod allaqachon mavjud"), started) /\
  (exists stored,
     contents (create_district (district_body "Yangi" "tsh001") "u1" "t1" started).2
              DISTRICTS_FILE = sample_districts ++ [stored] /\
     stored !! "id" = Some (JStr "u1") /\
     stored !! "createdAt" = Some (JStr "t1")).
Proof.
  assert (Hwf : Forall (has_key "code") (contents started DISTRICTS_FILE))
    by (apply has_key_check; vm_compute; reflexivity).
  split.
  - apply (create_district_spec (district_body "Yangi" "TSH001") "u1" "t1" started Hwf).
    apply existsb_field_eqb. vm_compute. reflexivity.
  - destruct (create_district_spec (district_body "Yangi" "tsh001") "u1" "t1" started Hwf)
      as [_ Hok].
    destruct (Hok ltac:(apply no_field_check; vm_compute; reflexivity))
      as (stored & _ & Hc & Hid & Hat & _).
    exists stored. split; [exact Hc|]. split; [exact Hid | exact Hat].
Defined.

(** ** Deleting a department *)

Lemma delete_department_run (department_id : string) (st : store) :
  Forall (has_key "departmentId") (contents st EMPLOYEES_FILE) ->
  Forall (has_key "id") (contents st DEPARTMENTS_FILE) ->
  delete_department department_id st =
    if existsb (field_eqb "departmentId" department_id) (contents st EMPLOYEES_FILE)
    then (Raise (HTTPException 400 "Bu bo'limda ishchilar mavjud"), st)
    else (Ret (mkResponse true DNone (Some "Bo'lim o'chirildi")),
          (save_json_data DEPARTMENTS_FILE
             (List.filter (fun d => negb (field_eqb "id" department_id d))
                (contents st DEPARTMENTS_FILE)) st).2).
Proof.
  intros Hemp Hdep. unfold delete_department, bind.
  rewrite !load_json_data_contents. unfold lift.
  rewrite (py_any_decides _ _ _ (field_is_decides "departmentId" department_id _ Hemp)).
  destruct (existsb _ _); [reflexivity|].
  rewrite (py_filter_decides _ _ _ (field_is_not_decides "id" department_id _ Hdep)).
  reflexivity.
Qed.

(** X5: [DELETE /departments/{id}] is refused with 400, and changes
    nothing, while an employee has that [departmentId]; otherwise it
    succeeds, with or without a department of that id, keeps exactly the
    departments with another id, in their order, and leaves the district
    that the department belonged to, and every other file, as they
    were. *)
Theorem delete_department_spec (department_id : string) (st : store) :
  Forall (has_key "departmentId") (contents st EMPLOYEES_FILE) ->
  Forall (has_key "id") (contents st DEPARTMENTS_FILE) ->
  ((exists e, e ∈ contents st EMPLOYEES_FILE /\
              e !! "departmentId" = Some (JStr department_id)) ->
   delete_department department_id st
     = (Raise (HTTPException 400 "Bu bo'limda ishchilar mavjud"), st)) /\
  (~ (exists e, e ∈ contents st EMPLOYEES_FILE /\
                e !! "departmentId" = Some (JStr department_id)) ->
   let out := delete_department department_id st in
   out.1 = Ret (mkResponse true DNone (Some "Bo'lim o'chirildi")) /\
   contents out.2 DEPARTMENTS_FILE
     = List.filter (fun d => negb (field_eqb "id" department_id d))
                   (contents st DEPARTMENTS_FILE) /\
   (forall d, d ∈ contents out.2 DEPARTMENTS_FILE <->
              d ∈ contents st DEPARTMENTS_FILE /\ d !! "id" <> Some (JStr department_id)) /\
   (forall f, f <> DEPARTMENTS_FILE -> disk out.2 f = disk st f)).
Proof.
  intros Hemp Hdep. pose proof (delete_department_run department_id st Hemp Hdep) as Hrun.
  split.
  - intros H. apply existsb_field_eqb in H. rewrite H in Hrun. exact Hrun.
  - intros H. rewrite <- existsb_field_eqb in H. apply not_true_is_false in H.
    rewrite H in Hrun. cbv zeta. rewrite Hrun.
    set (kept := List.filter _ (contents st DEPARTMENTS_FILE)).
    assert (Hc : contents (Ret (mkResponse true DNone (Some "Bo'lim o'chirildi")),
                           (save_json_data DEPARTMENTS_FILE kept st).2).2 DEPARTMENTS_FILE
                 = kept) by reflexivity.
    split; [reflexivity|]. split; [exact Hc|]. split.
    + intros d. rewrite Hc. unfold kept.
      rewrite !list_elem_of_In, filter_In, negb_true_iff.
      rewrite <- not_true_iff_false, field_eqb_true. reflexivity.
    + intros f Hf. simpl. destruct (decide (f = DEPARTMENTS_FILE)); [contradiction|reflexivity].
Qed.

Lemma delete_department_spec_witness :
  delete_department "1" started
    = (Raise (HTTPException 400 "Bu bo'limda ishchilar mavjud"), started) /\
  contents (delete_department "9" started).2 DEPARTMENTS_FILE = sample_departments.
Proof.
  assert (H1 : Forall (has_key "departmentId") (contents started EMPLOYEES_FILE))
    by (apply has_key_check; vm_compute; reflexivity).
  assert (H2 : Forall (has_key "id") (contents started DEPARTMENTS_FILE))
    by (apply has_key_check; vm_compute; reflexivity).
  destruct (delete_department_spec "1" started H1 H2) as [A _].
  destruct (delete_department_spec "9" started H1 H2) as [_ B].
  split.
  - apply A. apply existsb_field_eqb. vm_compute. reflexivity.
  - destruct (B ltac:(apply no_field_check; vm_compute; reflexivity)) as (_ & -> & _).
    by_compute.
Defined.

(** ** Deleting an employee *)

Lemma is_department_of_field (e : record) (dep : string) (ds : list record) :
  Forall (has_key "id") ds -> e !! "departmentId" = Some (JStr dep) ->
  decides (is_department_of e) (field_eqb "id" dep) ds.
Proof.
  intros H He. eapply Forall_impl; [exact H|]. intros d [w Hw].
  unfold is_department_of, getitem, field_eqb, py_eq_str. rewrite Hw, He. reflexivity.
Qed.

Lemma decrement_employee_count_none (e : record) (dep : string) (ds : list record) :
  Forall (has_key "id") ds -> e !! "departmentId" = Some (JStr dep) ->
  existsb (field_eqb "id" dep) ds = false ->
  decrement_employee_count e ds = Ret ds.
Proof.
  intros H He Hnone. unfold decrement_employee_count, py_index.
  rewrite (py_index_from_decides _ _ _ _ (is_department_of_field e dep ds H He)).
  rewrite (index_from_None _ _ _ Hnone). reflexivity.
Qed.

Lemma decrement_employee_count_first (e : record) (dep : string) (ds : list record)
    (i : nat) (d : record) (n : Z) :
  Forall (has_key "id") ds -> e !! "departmentId" = Some (JStr dep) ->
  ds !! i = Some d -> d !! "id" = Some (JStr dep) ->
  (forall j d', (j < i)%nat -> ds !! j = Some d' -> d' !! "id" <> Some (JStr dep)) ->
  dict_get d "employeeCount" (JInt 1) = JInt n ->
  decrement_employee_count e ds
    = Ret (<[i := <["employeeCount" := JInt (Z.max 0 (n - 1))]> d]> ds).
Proof.
  intros H He Hd Hid Hfirst Hn. unfold decrement_employee_count, py_index.
  rewrite (py_index_from_decides _ _ _ _ (is_department_of_field e dep ds H He)).
  rewrite (index_from_first _ _ 0%nat i d Hd); [|apply field_eqb_true, Hid|].
  - simpl. unfold list_getitem. rewrite Hd. simpl. rewrite Hn. simpl.
    unfold setitem_at. rewrite (alter_as_insert _ _ _ _ Hd).
    replace (n + -1) with (n - 1) by lia.
    destruct (0 <? n - 1) eqn:E.
    + apply Z.ltb_lt in E. rewrite Z.max_r by lia. reflexivity.
    + apply Z.ltb_ge in E. rewrite Z.max_l by lia. reflexivity.
  - intros j y Hj Hy. apply field_eqb_false. apply (Hfirst j y Hj Hy).
Qed.

Lemma delete_employee_run (employee_id : string) (st : store) :
  Forall (has_key "id") (contents st EMPLOYEES_FILE) ->
  delete_employee employee_id st =
    match List.find (field_eqb "id" employee_id) (contents st EMPLOYEES_FILE) with
    | None => (Raise (HTTPException 404 "Ishchi topilmadi"), st)
    | Some employee =>
        let st1 := (save_json_data EMPLOYEES_FILE
                      (List.filter (fun e => negb (field_eqb "id" employee_id e))
                         (contents st EMPLOYEES_FILE)) st).2 in
        match decrement_employee_count employee (contents st DEPARTMENTS_FILE) with
        | Ret departments =>
            (Ret (mkResponse true DNone (Some "Ishchi o'chirildi")),
             (save_json_data DEPARTMENTS_FILE departments st1).2)
        | Raise e => (Raise e, st1)
        end
    end.
Proof.
  intros Hemp. unfold delete_employee, bind.
  rewrite !load_json_data_contents. unfold lift.
  rewrite (py_next_decides _ _ _ (field_is_decides "id" employee_id _ Hemp)).
  destruct (List.find _ _) as [employee|] eqn:Hfind; [|reflexivity].
  rewrite (py_not_found _ _ _ _ Hfind).
  rewrite (py_filter_decides _ _ _ (field_is_not_decides "id" employee_id _ Hemp)).
  simpl. destruct (decrement_employee_count _ _); reflexivity.
Qed.

(** X6: [DELETE /employees/{id}] answers 404, and changes nothing, when
    no employee has the id.  Otherwise it removes every employee with
    that id and, in the first department whose id is the employee's
    [departmentId], lowers an integer [employeeCount] by one, but not
    below 0 (a missing count counts as 1); when no department has that id
    the departments are kept as they are. *)
Theorem delete_employee_spec (employee_id : string) (st : store) :
  Forall (has_key "id") (contents st EMPLOYEES_FILE) ->
  Forall (has_key "id") (contents st DEPARTMENTS_FILE) ->
  (~ (exists e, e ∈ contents st EMPLOYEES_FILE /\ e !! "id" = Some (JStr employee_id)) ->
   delete_employee employee_id st = (Raise (HTTPException 404 "Ishchi topilmadi"), st)) /\
  (forall e dep,
     List.find (field_eqb "id" employee_id) (contents st EMPLOYEES_FILE) = Some e ->
     e !! "departmentId" = Some (JStr dep) ->
     let out := delete_employee employee_id st in
     let kept := List.filter (fun e => negb (field_eqb "id" employee_id e))
                             (contents st EMPLOYEES_FILE) in
     (~ (exists d, d ∈ contents st DEPARTMENTS_FILE /\ d !! "id" = Some (JStr dep)) ->
      out.1 = Ret (mkResponse true DNone (Some "Ishchi o'chirildi")) /\
      contents out.2 EMPLOYEES_FILE = kept /\
      contents out.2 DEPARTMENTS_FILE = contents st DEPARTMENTS_FILE) /\
     (forall i d n,
        contents st DEPARTMENTS_FILE !! i = Some d ->
        d !! "id" = Some (JStr dep) ->
        (forall j d', (j < i)%nat -> contents st DEPARTMENTS_FILE !! j = Some d' ->
                      d' !! "id" <> Some (JStr dep)) ->
        dict_get d "employeeCount" (JInt 1) = JInt n ->
        out.1 = Ret (mkResponse true DNone (Some "Ishchi o'chirildi")) /\
        contents out.2 EMPLOYEES_FILE = kept /\
        contents out.2 DEPARTMENTS_FILE
          = <[i := <["employeeCount" := JInt (Z.max 0 (n - 1))]> d]>
              (contents st DEPARTMENTS_FILE))).
Proof.
  intros Hemp Hdep. pose proof (delete_employee_run employee_id st Hemp) as Hrun.
  split.
  - intros H. rewrite <- existsb_field_eqb in H. apply not_true_is_false in H.
    rewrite (find_None_existsb _ _ H) in Hrun. exact Hrun.
  - intros e dep Hfind He out kept. subst out. rewrite Hfind in Hrun. cbv zeta in Hrun.
    fold kept in Hrun. split.
    + intros Hnone. rewrite <- existsb_field_eqb in Hnone. apply not_true_is_false in Hnone.
      rewrite (decrement_employee_count_none e dep _ Hdep He Hnone) in Hrun.
      rewrite Hrun. repeat split.
    + intros i d n Hd Hid Hfirst Hn.
      rewrite (decrement_employee_count_first e dep _ i d n Hdep He Hd Hid Hfirst Hn) in Hrun.
      rewrite Hrun. repeat split.
Qed.

Lemma delete_employee_spec_witness :
  delete_employee "99" started = (Raise (HTTPException 404 "Ishchi topilmadi"), started) /\
  contents (delete_employee "1" started).2 DEPARTMENTS_FILE
    = <[0%nat := <["employeeCount" := JInt 2]> (default ∅ (sample_departments !! 0%nat))]>
        sample_departments /\
  (exists d, contents (delete_employee "1" emptied_count).2 DEPARTMENTS_FILE !! 0%nat = Some d /\
             d !! "employeeCount" = Some (JInt 0)).
Proof.
  assert (H1 : Forall (has_key "id") (contents started EMPLOYEES_FILE))
    by (apply has_key_check; vm_compute; reflexivity).
  assert (H2 : Forall (has_key "id") (contents started DEPARTMENTS_FILE))
    by (apply has_key_check; vm_compute; reflexivity).
  assert (H3 : Forall (has_key "id") (contents emptied_count EMPLOYEES_FILE))
    by (apply has_key_check; vm_compute; reflexivity).
  assert (H4 : Forall (has_key "id") (contents emptied_count DEPARTMENTS_FILE))
    by (apply has_key_check; vm_compute; reflexivity).
  split; [|split].
  - apply (delete_employee_spec "99" started H1 H2).
    apply no_field_check. vm_compute. reflexivity.
  - destruct (delete_employee_spec "1" started H1 H2) as [_ B].
    destruct (B (default ∅ (sample_employees !! 0%nat)) "1"
                ltac:(by_compute) ltac:(by_compute)) as [_ C].
    destruct (C 0%nat (default ∅ (sample_departments !! 0%nat)) 3
                ltac:(by_compute) ltac:(by_compute)
                ltac:(intros j d' Hj; lia) ltac:(by_compute)) as (_ & _ & ->).
    reflexivity.
  - destruct (delete_employee_spec "1" emptied_count H3 H4) as [_ B].
    destruct (B (default ∅ (sample_employees !! 0%nat)) "1"
                ltac:(by_compute) ltac:(by_compute)) as [_ C].
    destruct (C 0%nat (default ∅ (contents emptied_count DEPARTMENTS_FILE !! 0%nat)) 0
                ltac:(by_compute) ltac:(by_compute)
                ltac:(intros j d' Hj; lia) ltac:(by_compute)) as (_ & _ & ->).
    eexists. split.
    + apply list_lookup_insert_eq. by_compute.
    + apply lookup_insert_eq.
Defined.

(** ** Creating an employee in a department with an integer count *)

Lemma find_first {A} (q : A -> bool) (xs : list A) (i : nat) (x : A) :
  xs !! i = Some x -> q x = true ->
  (forall j y, (j < i)%nat -> xs !! j = Some y -> q y = false) ->
  List.find q xs = Some x.
Proof.
  revert i. induction xs as [|y ys IH]; intros i Hx Hq Hbefore; [discriminate|].
  destruct i as [|i]; simpl in *.
  - injection Hx as ->. rewrite Hq. reflexivity.
  - rewrite (Hbefore 0%nat y) by (reflexivity || lia).
    apply (IH i Hx Hq). intros j z Hj Hz. apply (Hbefore (S j) z); [lia | exact Hz].
Qed.

Lemma increment_employee_count_first (id : string) (ds : list record)
    (i : nat) (d : record) (n : Z) :
  Forall (has_key "id") ds ->
  ds !! i = Some d -> d !! "id" = Some (JStr id) ->
  (forall j d', (j < i)%nat -> ds !! j = Some d' -> d' !! "id" <> Some (JStr id)) ->
  dict_get d "employeeCount" (JInt 0) = JInt n ->
  increment_employee_count id ds = Ret (<[i := <["employeeCount" := JInt (n + 1)]> d]> ds).
Proof.
  intros H Hd Hid Hfirst Hn. unfold increment_employee_count, py_index.
  rewrite (py_index_from_decides _ _ _ _ (field_is_decides "id" id ds H)).
  rewrite (index_from_first _ _ 0%nat i d Hd); [|apply field_eqb_true, Hid|].
  - simpl. unfold list_getitem. rewrite Hd. simpl. rewrite Hn. simpl.
    unfold setitem_at. rewrite (alter_as_insert _ _ _ _ Hd). reflexivity.
  - intros j y Hj Hy. apply field_eqb_false. apply (Hfirst j y Hj Hy).
Qed.

Lemma create_employee_run (body : Employee.t) (uuid now : string) (st : store) :
  Forall (has_key "phone") (contents st EMPLOYEES_FILE) ->
  all_have ["id"; "name"; "departmentNumber"; "districtName"] (contents st DEPARTMENTS_FILE) ->
  create_employee body uuid now st =
    if existsb (field_eqb "phone" (Employee.phone body)) (contents st EMPLOYEES_FILE)
    then (Raise (HTTPException 400 "Bu telefon raqami allaqachon mavjud"), st)
    else match List.find (field_eqb "id" (Employee.departmentId body))
                         (contents st DEPARTMENTS_FILE) with
         | None => (Raise (HTTPException 404 "Bo'lim topilmadi"), st)
         | Some department =>
             let new_employee :=
               <["createdAt" := JStr now]>
                 (<["districtName" := default JNull (department !! "districtName")]>
                    (<["departmentNumber" := default JNull (department !! "departmentNumber")]>
                       (<["departmentName" := default JNull (department !! "name")]>
                          (<["id" := JStr uuid]> (Employee.model_dump body))))) in
             let st1 := (save_json_data EMPLOYEES_FILE
                           (contents st EMPLOYEES_FILE ++ [new_employee]) st).2 in
             match increment_employee_count (Employee.departmentId body)
                                            (contents st DEPARTMENTS_FILE) with
             | Ret departments =>
                 (Ret (mkResponse true (DRecord new_employee)
                         (Some "Ishchi muvaffaqiyatli qo'shildi")),
                  (save_json_data DEPARTMENTS_FILE departments st1).2)
             | Raise e => (Raise e, st1)
             end
         end.
Proof.
  intros Hemp Hdep.
  assert (Hid : Forall (has_key "id") (contents st DEPARTMENTS_FILE))
    by (eapply all_have_key; [|exact Hdep]; by_compute).
  unfold create_employee, bind. rewrite !load_json_data_contents. unfold lift.
  rewrite (py_any_decides _ _ _ (field_is_decides "phone" _ _ Hemp)).
  destruct (existsb _ _); [reflexivity|].
  rewrite (py_next_decides _ _ _ (field_is_decides "id" _ _ Hid)).
  destruct (List.find _ _) as [department|] eqn:Hfind; [|reflexivity].
  rewrite (py_not_found _ _ _ _ Hfind). cbn [default from_option id].
  destruct (getitem_found _ _ _ department "name" Hdep Hfind ltac:(by_compute))
    as (v1 & -> & ->).
  destruct (getitem_found _ _ _ department "departmentNumber" Hdep Hfind ltac:(by_compute))
    as (v2 & -> & ->).
  destruct (getitem_found _ _ _ department "districtName" Hdep Hfind ltac:(by_compute))
    as (v3 & -> & ->).
  cbn [rbind]. unfold save_json_data at 1. cbn iota beta.
  rewrite load_json_data_contents.
  match goal with
  | |- context [contents ?s DEPARTMENTS_FILE] =>
      lazymatch s with
      | st => fail
      | _ => change (contents s DEPARTMENTS_FILE) with (contents st DEPARTMENTS_FILE)
      end
  end.
  destruct (increment_employee_count _ _); reflexivity.
Qed.

(** X7: [POST /employees] refuses a phone that a stored employee has
    (400) and then a [departmentId] that no department has (404), both
    without any change.  Otherwise, when the first department with that
    id has an integer [employeeCount] (a missing one counts as 0), the
    employee is appended with the generated id and with
    [departmentName], [departmentNumber] and [districtName] copied from
    that department, whatever the client sent for them, and that
    department's count becomes one more; the other departments are
    untouched. *)
Theorem create_employee_spec (body : Employee.t) (uuid now : string) (st : store) :
  Forall (has_key "phone") (contents st EMPLOYEES_FILE) ->
  all_have ["id"; "name"; "departmentNumber"; "districtName"] (contents st DEPARTMENTS_FILE) ->
  let taken := exists e, e ∈ contents st EMPLOYEES_FILE /\
                         e !! "phone" = Some (JStr (Employee.phone body)) in
  (taken ->
   create_employee body uuid now st
     = (Raise (HTTPException 400 "Bu telefon raqami allaqachon mavjud"), st)) /\
  (~ taken ->
   ~ (exists d, d ∈ contents st DEPARTMENTS_FILE /\
                d !! "id" = Some (JStr (Employee.departmentId body))) ->
   create_employee body uuid now st = (Raise (HTTPException 404 "Bo'lim topilmadi"), st)) /\
  (~ taken ->
   forall i d n,
     contents st DEPARTMENTS_FILE !! i = Some d ->
     d !! "id" = Some (JStr (Employee.departmentId body)) ->
     (forall j d', (j < i)%nat -> contents st DEPARTMENTS_FILE !! j = Some d' ->
                   d' !! "id" <> Some (JStr (Employee.departmentId body))) ->
     dict_get d "employeeCount" (JInt 0) = JInt n ->
     let out := create_employee body uuid now st in
     exists stored,
       out.1 = Ret (mkResponse true (DRecord stored) (Some "Ishchi muvaffaqiyatli qo'shildi")) /\
       contents out.2 EMPLOYEES_FILE = contents st EMPLOYEES_FILE ++ [stored] /\
       contents out.2 DEPARTMENTS_FILE
         = <[i := <["employeeCount" := JInt (n + 1)]> d]> (contents st DEPARTMENTS_FILE) /\
       stored !! "id" = Some (JStr uuid) /\
       stored !! "phone" = Some (JStr (Employee.phone body)) /\
       stored !! "departmentId" = Some (JStr (Employee.departmentId body)) /\
       stored !! "departmentName" = d !! "name" /\
       stored !! "departmentNumber" = d !! "departmentNumber" /\
       stored !! "districtName" = d !! "districtName").
Proof.
  intros Hemp Hdep taken.
  assert (Hid : Forall (has_key "id") (contents st DEPARTMENTS_FILE))
    by (eapply all_have_key; [|exact Hdep]; by_compute).
  pose proof (create_employee_run body uuid now st Hemp Hdep) as Hrun.
  assert (Htaken : existsb (field_eqb "phone" (Employee.phone body))
                           (contents st EMPLOYEES_FILE) = true <-> taken)
    by apply existsb_field_eqb.
  split; [|split].
  - intros H. apply Htaken in H. rewrite H in Hrun. exact Hrun.
  - intros Hfree Hnone. rewrite <- Htaken in Hfree. apply not_true_is_false in Hfree.
    rewrite Hfree in Hrun. rewrite <- existsb_field_eqb in Hnone.
    apply not_true_is_false in Hnone. rewrite (find_None_existsb _ _ Hnone) in Hrun.
    exact Hrun.
  - intros Hfree i d n Hd Hdid Hfirst Hn out. subst out.
    rewrite <- Htaken in Hfree. apply not_true_is_false in Hfree.
    rewrite Hfree in Hrun.
    rewrite (find_first _ _ i d Hd) in Hrun;
      [|apply field_eqb_true, Hdid
       |intros j y Hj Hy; apply field_eqb_false; apply (Hfirst j y Hj Hy)].
    rewrite (increment_employee_count_first _ _ i d n Hid Hd Hdid Hfirst Hn) in Hrun.
    cbv zeta in Hrun. rewrite Hrun.
    pose proof Hdep as Hd'. unfold all_have in Hd'. rewrite Forall_forall in Hd'.
    pose proof (Hd' d ltac:(eapply list_elem_of_lookup_2; eauto)) as Hkeys.
    rewrite Forall_forall in Hkeys.
    destruct (Hkeys "name" ltac:(by_compute)) as [v1 E1].
    destruct (Hkeys "departmentNumber" ltac:(by_compute)) as [v2 E2].
    destruct (Hkeys "districtName" ltac:(by_compute)) as [v3 E3].
    rewrite E1, E2, E3. cbn [default from_option id].
    eexists. split; [reflexivity|]. split; [reflexivity|]. split; [reflexivity|].
    repeat split; vm_compute; reflexivity.
Qed.

Lemma create_employee_spec_witness :
  create_employee (employee_body "Yangi" "+998901234567" "Sotuvchi" "2") "e8" "t1" started
    = (Raise (HTTPException 400 "Bu telefon raqami allaqachon mavjud"), started) /\
  create_employee (employee_body "Yangi" "+998900000000" "Sotuvchi" "77") "e8" "t1" started
    = (Raise (HTTPException 404 "Bo'lim topilmadi"), started) /\
  (exists stored,
     contents (create_employee (employee_body "Yangi" "+998900000000" "Sotuvchi" "2")
                 "e8" "t1" started).2 EMPLOYEES_FILE = sample_employees ++ [stored] /\
     stored !! "departmentName" = Some (JStr "Moliya bo'limi")) /\
  contents (create_employee (employee_body "Yangi" "+998900000000" "Sotuvchi" "2")
              "e8" "t1" started).2 DEPARTMENTS_FILE
    = <[1%nat := <["employeeCount" := JInt 3]> (default ∅ (sample_departments !! 1%nat))]>
        sample_departments.
Proof.
  assert (H1 : Forall (has_key "phone") (contents started EMPLOYEES_FILE))
    by (apply has_key_check; vm_compute; reflexivity).
  assert (H2 : all_have ["id"; "name"; "departmentNumber"; "districtName"]
                        (contents started DEPARTMENTS_FILE))
    by (apply all_have_check; vm_compute; reflexivity).
  split; [|split].
  - apply (create_employee_spec _ "e8" "t1" started H1 H2).
    apply existsb_field_eqb. vm_compute. reflexivity.
  - apply (create_employee_spec _ "e8" "t1" started H1 H2).
    + apply no_field_check. vm_compute. reflexivity.
    + apply no_field_check. vm_compute. reflexivity.
  - destruct (create_employee_spec
                (employee_body "Yangi" "+998900000000" "Sotuvchi" "2") "e8" "t1"
                started H1 H2) as (_ & _ & Hok).
    assert (Hothers : forall j d', (j < 1)%nat ->
                        contents started DEPARTMENTS_FILE !! j = Some d' ->
                        d' !! "id" <> Some (JStr "2")).
    { intros j d' Hj Hl. destruct j as [|j]; [|lia].
      injection Hl as <-. by_compute. }
    destruct (Hok ltac:(apply no_field_check; vm_compute; reflexivity)
                  1%nat (default ∅ (sample_departments !! 1%nat)) 2
                  ltac:(by_compute) ltac:(by_compute) Hothers ltac:(by_compute))
      as (stored & _ & Hc & Hd & _ & _ & _ & Hname & _).
    split.
    + exists stored. split; [exact Hc|]. rewrite Hname. by_compute.
    + exact Hd.
Defined.

(** ** Updating with a patch *)



(** ** Seeding *)

Lemma seed_if_absent_run (f : file) (sample : list record) (st : store) :
  (seed_if_absent f sample st).1 = Ret tt /\
  (forall g, disk (seed_if_absent f sample st).2 g
             = if decide (g = f)
               then match disk st f with Absent => Holds sample | x => x end
               else disk st g) /\
  (disk st f <> Absent -> (seed_if_absent f sample st).2 = st).
Proof.
  unfold seed_if_absent, os_path_exists.
  destruct (disk st f) eqn:E; simpl; (split; [reflexivity|]); split;
    try (intros g; destruct (decide (g = f)) as [->|]; [rewrite ?E|]; reflexivity);
    try reflexivity; intros H; contradiction.
Qed.

Lemma initialize_sample_data_disk (today yesterday : string) (st : store) (f : file) :
  disk (initialize_sample_data today yesterday st).2 f
    = match disk st f with
      | Absent => Holds (sample_of today yesterday f)
      | x => x
      end.
Proof.
  unfold initialize_sample_data, bind.
  destruct (seed_if_absent_run DISTRICTS_FILE sample_districts st) as (R1 & D1 & _).
  destruct (seed_if_absent DISTRICTS_FILE sample_districts st) as [r1 st1].
  simpl in R1, D1. subst r1.
  destruct (seed_if_absent_run DEPARTMENTS_FILE sample_departments st1) as (R2 & D2 & _).
  destruct (seed_if_absent DEPARTMENTS_FILE sample_departments st1) as [r2 st2].
  simpl in R2, D2. subst r2.
  destruct (seed_if_absent_run EMPLOYEES_FILE sample_employees st2) as (R3 & D3 & _).
  destruct (seed_if_absent EMPLOYEES_FILE sample_employees st2) as [r3 st3].
  simpl in R3, D3. subst r3.
  destruct (seed_if_absent_run ATTENDANCE_FILE (sample_attendance today yesterday) st3)
    as (_ & D4 & _).
  rewrite D4, !D3, !D2, !D1.
  destruct f; simpl; reflexivity.
Qed.

(** X9: startup seeding writes the sample into each of the four files
    that is absent and into no file that exists, readable or not; after
    it every file exists, and a later startup, on whatever day, writes
    nothing. *)
Theorem initialize_sample_data_spec (today yesterday : string) (st : store) :
  let st' := (initialize_sample_data today yesterday st).2 in
  (forall f, disk st f <> Absent -> disk st' f = disk st f) /\
  (forall f, disk st f = Absent -> disk st' f = Holds (sample_of today yesterday f)) /\
  (forall f, os_path_exists st' f = true) /\
  (forall later earlier, (initialize_sample_data later earlier st').2 = st').
Proof.
  cbv zeta.
  assert (Hexists : forall f, disk (initialize_sample_data today yesterday st).2 f <> Absent).
  { intros f. rewrite initialize_sample_data_disk. destruct (disk st f); discriminate. }
  split; [|split; [|split]].
  - intros f Hf. rewrite initialize_sample_data_disk.
    destruct (disk st f); [contradiction | reflexivity | reflexivity].
  - intros f Hf. rewrite initialize_sample_data_disk, Hf. reflexivity.
  - intros f. unfold os_path_exists. specialize (Hexists f).
    destruct (disk _ f); [contradiction | reflexivity | reflexivity].
  - intros later earlier. set (st' := (initialize_sample_data today yesterday st).2) in *.
    unfold initialize_sample_data, bind.
    destruct (seed_if_absent_run DISTRICTS_FILE sample_districts st') as (R1 & _ & S1).
    rewrite (surjective_pairing (seed_if_absent DISTRICTS_FILE _ st')).
    rewrite R1, (S1 (Hexists _)).
    destruct (seed_if_absent_run DEPARTMENTS_FILE sample_departments st') as (R2 & _ & S2).
    rewrite (surjective_pairing (seed_if_absent DEPARTMENTS_FILE _ st')).
    rewrite R2, (S2 (Hexists _)).
    destruct (seed_if_absent_run EMPLOYEES_FILE sample_employees st') as (R3 & _ & S3).
    rewrite (surjective_pairing (seed_if_absent EMPLOYEES_FILE _ st')).
    rewrite R3, (S3 (Hexists _)).
    destruct (seed_if_absent_run ATTENDANCE_FILE (sample_attendance later earlier) st')
      as (_ & _ & S4).
    apply S4, Hexists.
Qed.

Lemma initialize_sample_data_spec_witness :
  disk (initialize_sample_data "2025-01-15" "2025-01-14" corrupt_disk).2 DEPARTMENTS_FILE
    = Unreadable ValueError /\
  disk (initialize_sample_data "2025-01-15" "2025-01-14" corrupt_disk).2 ATTENDANCE_FILE
    = Holds (sample_attendance "2025-01-15" "2025-01-14").
Proof.
  destruct (initialize_sample_data_spec "2025-01-15" "2025-01-14" corrupt_disk)
    as (Hkept & Hseeded & _).
  split.
  - apply (Hkept DEPARTMENTS_FILE). discriminate.
  - apply (Hseeded ATTENDANCE_FILE). reflexivity.
Defined.

(** ** The request filter *)

Lemma lower_char_is (c x : ascii) :
  (x = "b" \/ x = "o" \/ x = "t")%char ->
  lower_char c = x <-> c = x \/ c = ascii_of_nat (nat_of_ascii x - 32).
Proof.
  intros Hx.
  destruct c as [[] [] [] [] [] [] [] []];
    destruct Hx as [-> | [-> | ->]]; vm_compute;
    split; intros H; try discriminate H; auto;
    destruct H as [H | H]; discriminate H || reflexivity.
Qed.

Lemma prefix_bot (s : string) :
  String.prefix "bot" s = true <-> exists post, s = String "b" (String "o" (String "t" post)).
Proof.
  rewrite prefix_correct. split.
  - destruct s as [|a [|b [|c post]]]; simpl; try discriminate.
    intros [= -> -> -> _]. eauto.
  - intros [post ->]. destruct post; reflexivity.
Qed.

Lemma py_in_bot_lower (s : string) : py_in "bot" (str_lower s) = true <-> spells_bot s.
Proof.
  induction s as [|a s IH].
  - split; [discriminate|].
    intros (pre & b & o & t & post & H & _). destruct pre; discriminate H.
  - cbn [str_lower py_in]. rewrite orb_true_iff, IH, prefix_bot. split.
    + intros [[post H] | (pre & b & o & t & post & -> & Hb & Ho & Ht)].
      * destruct s as [|o [|t rest]]; try discriminate H.
        cbn [str_lower] in H. injection H as Ha Ho Ht _.
        apply (lower_char_is a "b") in Ha; [|auto].
        apply (lower_char_is o "o") in Ho; [|auto].
        apply (lower_char_is t "t") in Ht; [|auto].
        exists "", a, o, t, rest. repeat split; assumption.
      * exists (String a pre), b, o, t, post. repeat split; assumption.
    + intros (pre & b & o & t & post & H & Hb & Ho & Ht).
      destruct pre as [|a' pre]; simpl in H; injection H as -> ->.
      * left. cbn [str_lower].
        apply (lower_char_is b "b") in Hb; [|auto].
        apply (lower_char_is o "o") in Ho; [|auto].
        apply (lower_char_is t "t") in Ht; [|auto].
        rewrite Hb, Ho, Ht. eauto.
      * right. exists pre, b, o, t, post. repeat split; assumption.
Qed.

(** X10: the middleware answers 400 itself, without calling the endpoint
    and so without touching the store, exactly when the [user-agent]
    header is missing or empty or spells "bot" in any mix of upper and
    lower case; every other request gets the endpoint's own outcome, an
    exception included, and the endpoint's store. *)
Theorem dispatch_filters_bots (user_agent : option string) (call_next : M APIResponse)
    (st : store) :
  let blocked := user_agent = None \/ user_agent = Some "" \/
                 exists s, user_agent = Some s /\ spells_bot s in
  (blocked ->
   dispatch user_agent call_next st
     = (Ret (JSONResponse 400 "Invalid or suspicious request detected"), st)) /\
  (~ blocked ->
   (dispatch user_agent call_next st).2 = (call_next st).2 /\
   (dispatch user_agent call_next st).1
     = match (call_next st).1 with
       | Ret response => Ret (Passed response)
       | Raise e => Raise e
       end).
Proof.
  cbv zeta. unfold dispatch.
  assert (Hb : negb (truthy_str user_agent)
               || py_in "bot" (str_lower (default "" user_agent)) = true
               <-> user_agent = None \/ user_agent = Some "" \/
                   exists s, user_agent = Some s /\ spells_bot s).
  { rewrite orb_true_iff. destruct user_agent as [s|]; simpl.
    - rewrite py_in_bot_lower. split.
      + intros [H | H].
        * right. left. destruct s; [reflexivity | discriminate].
        * right. right. eauto.
      + intros [H | [H | (s' & H & Hs)]]; [discriminate | |].
        * injection H as ->. left. reflexivity.
        * injection H as ->. right. exact Hs.
    - split; auto. }
  split.
  - intros H. apply Hb in H. rewrite H. reflexivity.
  - intros H. rewrite <- Hb in H. apply not_true_is_false in H. rewrite H.
    unfold bind, reraise. destruct (call_next st) as [[a|e] st']; split; reflexivity.
Qed.

Lemma dispatch_filters_bots_witness :
  dispatch (Some "Googlebot/2.1") (handle (DELETE_employees "1")) started
    = (Ret (JSONResponse 400 "Invalid or suspicious request detected"), started) /\
  dispatch (Some "My ROBOT") get_districts started
    = (Ret (JSONResponse 400 "Invalid or suspicious request detected"), started) /\
  (dispatch (Some "Mozilla/5.0") (handle (DELETE_employees "99")) started).1
    = Raise (HTTPException 404 "Ishchi topilmadi").
Proof.
  split; [|split].
  - apply (dispatch_filters_bots (Some "Googlebot/2.1")). right. right.
    exists "Googlebot/2.1". split; [reflexivity|].
    exists "Google", "b"%char, "o"%char, "t"%char, "/2.1". auto.
  - apply (dispatch_filters_bots (Some "My ROBOT")). right. right.
    exists "My ROBOT". split; [reflexivity|].
    exists "My RO", "B"%char, "O"%char, "T"%char, "". auto.
  - destruct (dispatch_filters_bots (Some "Mozilla/5.0") (handle (DELETE_employees "99"))
                started) as [_ H].
    destruct H as [_ ->]; [|vm_compute; reflexivity].
    intros [H | [H | (s & H & Hs)]]; try discriminate.
    injection H as <-. apply py_in_bot_lower in Hs. vm_compute in Hs. discriminate.
Defined.

(** ** The figures of the statistics *)

Lemma department_chart_from_lookup (k : nat) (ds : list record) (slices : list department_slice) :
  department_chart_from k ds = Ret slices ->
  length slices = length ds /\
  forall i d, ds !! i = Some d ->
    exists slice,
      slices !! i = Some slice /\
      d !! "name" = Some (slice_name slice) /\
      slice_value slice = dict_get d "employeeCount" (JInt 0) /\
      colors !! ((k + i) mod 6)%nat = Some (slice_color slice) /\
      d !! "districtId" = Some (slice_districtId slice).
Proof.
  revert k slices. induction ds as [|d ds IH]; intros k slices; simpl.
  - intros [= <-]. split; [reflexivity|]. intros i d H. discriminate.
  - unfold getitem.
    destruct (d !! "name") as [name|] eqn:En; [|discriminate]. simpl.
    destruct (d !! "districtId") as [district|] eqn:Ed; [|discriminate]. simpl.
    destruct (department_chart_from (S k) ds) as [more|] eqn:Em; [|discriminate]. simpl.
    intros [= <-]. destruct (IH _ _ Em) as [Hlen Hmore]. split; [simpl; lia|].
    intros [|i] d' Hd'; simpl in Hd'.
    + injection Hd' as <-. eexists. split; [reflexivity|]. simpl.
      rewrite En, Ed, Nat.add_0_r. repeat split.
      assert (Hlt : (k mod 6 < length colors)%nat) by (apply Nat.mod_upper_bound; discriminate).
      destruct (lookup_lt_is_Some_2 colors _ Hlt) as [c Hc].
      simpl in Hc |- *. rewrite Hc. reflexivity.
    + destruct (Hmore i d' Hd') as (slice & Hs & H1 & H2 & H3 & H4).
      exists slice. simpl. replace (k + S i)%nat with (S k + i)%nat by lia. auto.
Qed.

Lemma three_statuses (rs : list record) :
  (length (List.filter (field_eqb "status" "present") rs)
   + length (List.filter (field_eqb "status" "late") rs)
   + length (List.filter (field_eqb "status" "absent") rs) <= length rs)%nat.
Proof.
  induction rs as [|r rs IH]; simpl; [lia|].
  destruct (field_eqb "status" "present" r) eqn:E1,
           (field_eqb "status" "late" r) eqn:E2,
           (field_eqb "status" "absent" r) eqn:E3; simpl; try lia;
    exfalso; rewrite ?field_eqb_true in *; congruence.
Qed.

(** X11: [GET /statistics] reports the lengths of the employees,
    departments and districts collections; the active employees are no
    more than the employees; today's present, late and absent records
    together are no more than today's records; and the department chart
    has one slice per department, in storage order, with the
    department's name, its [employeeCount] (0 when missing), its
    districtId and the colour at its position modulo the six colours. *)
Theorem statistics_figures (today : string) (st : store) :
  Forall (has_key "status") (contents st EMPLOYEES_FILE) ->
  all_have ["date"; "status"] (contents st ATTENDANCE_FILE) ->
  all_have ["name"; "districtId"] (contents st DEPARTMENTS_FILE) ->
  exists s,
    (get_statistics today st).1 = Ret (mkResponse true (DStatistics s) None) /\
    totalEmployees (overview s) = Z.of_nat (length (contents st EMPLOYEES_FILE)) /\
    totalDepartments (overview s) = Z.of_nat (length (contents st DEPARTMENTS_FILE)) /\
    totalDistricts (overview s) = Z.of_nat (length (contents st DISTRICTS_FILE)) /\
    0 <= activeEmployees (overview s) <= totalEmployees (overview s) /\
    total (attendance s) = totalEmployees (overview s) /\
    0 <= present (attendance s) /\ 0 <= late (attendance s) /\ 0 <= absent (attendance s) /\
    present (attendance s) + late (attendance s) + absent (attendance s)
      <= Z.of_nat (length (List.filter (field_eqb "date" today)
                             (contents st ATTENDANCE_FILE))) /\
    length (departmentData s) = length (contents st DEPARTMENTS_FILE) /\
    (forall i d, contents st DEPARTMENTS_FILE !! i = Some d ->
       exists slice,
         departmentData s !! i = Some slice /\
         d !! "name" = Some (slice_name slice) /\
         slice_value slice = dict_get d "employeeCount" (JInt 0) /\
         colors !! (i mod 6)%nat = Some (slice_color slice) /\
         d !! "districtId" = Some (slice_districtId slice)).
Proof.
  intros Hemp Hatt Hdep.
  pose proof (all_have_key "date" ["date"; "status"] _ ltac:(by_compute) Hatt) as Hdate.
  pose proof (all_have_key "status" ["date"; "status"] _ ltac:(by_compute) Hatt) as Hstatus.
  set (todays := List.filter (field_eqb "date" today) (contents st ATTENDANCE_FILE)).
  assert (Htodays : Forall (has_key "status") todays) by (apply Forall_List_filter, Hstatus).
  destruct (department_chart_from_returns 0 _ Hdep) as (slices & Hchart & _).
  destruct (department_chart_from_lookup 0 _ _ Hchart) as [Hlen Hslices].
  unfold get_statistics, bind.
  rewrite !load_json_data_contents. unfold lift.
  rewrite (count_where_run "status" "active" _ Hemp).
  rewrite (py_filter_decides _ _ _ (field_is_decides "date" today _ Hdate)).
  fold todays.
  rewrite !(count_where_run "status" _ todays Htodays).
  rewrite Hchart. unfold pure.
  eexists. split; [reflexivity|]. simpl.
  repeat (split; [reflexivity|]).
  split.
  { split; [lia|]. apply inj_le, filter_length_le. }
  split; [reflexivity|].
  split; [lia|]. split; [lia|]. split; [lia|].
  split.
  { pose proof (three_statuses todays). lia. }
  split; [exact Hlen|].
  exact Hslices.
Qed.

Lemma statistics_figures_witness :
  exists s,
    (get_statistics "2025-01-15" started).1 = Ret (mkResponse true (DStatistics s) None) /\
    totalEmployees (overview s) = 7 /\
    length (departmentData s) = 3%nat /\
    (exists slice, departmentData s !! 2%nat = Some slice /\
                   slice_color slice = "#10b981" /\ slice_value slice = JInt 2).
Proof.
  assert (H1 : Forall (has_key "status") (contents started EMPLOYEES_FILE))
    by (apply has_key_check; vm_compute; reflexivity).
  assert (H2 : all_have ["date"; "status"] (contents started ATTENDANCE_FILE))
    by (apply all_have_check; vm_compute; reflexivity).
  assert (H3 : all_have ["name"; "districtId"] (contents started DEPARTMENTS_FILE))
    by (apply all_have_check; vm_compute; reflexivity).
  destruct (statistics_figures "2025-01-15" started H1 H2 H3)
    as (s & E & Htotal & _ & _ & _ & _ & _ & _ & _ & _ & Hlen & Hslices).
  exists s. split; [exact E|]. split; [rewrite Htotal; by_compute|].
  split; [rewrite Hlen; by_compute|].
  destruct (Hslices 2%nat (default ∅ (sample_departments !! 2%nat)) ltac:(by_compute))
    as (slice & Hs & _ & Hv & Hc & _).
  exists slice. split; [exact Hs|]. split.
  - assert (Hc' : Some "#10b981" = Some (slice_color slice)) by exact Hc.
    congruence.
  - rewrite Hv. by_compute.
Defined.

(** ** Times as clients write them *)

Lemma every_time_parsed_back :
  forallb (fun h => forallb (fun m => parsed_back h m) (seqZ 0 60)) (seqZ 0 24) = true.
Proof. vm_compute. reflexivity. Qed.

Lemma strptime_HM_written (ph pm : bool) (h m : Z) :
  0 <= h <= 23 -> 0 <= m <= 59 ->
  strptime_HM (written ph pm h m) = Ret (mkDatetime h m).
Proof.
  intros Hh Hm. pose proof every_time_parsed_back as H.
  rewrite forallb_forall in H.
  specialize (H h ltac:(apply list_elem_of_In, elem_of_seqZ; lia)).
  rewrite forallb_forall in H.
  specialize (H m ltac:(apply list_elem_of_In, elem_of_seqZ; lia)).
  unfold parsed_back in H. rewrite forallb_forall in H.
  specialize (H ph ltac:(destruct ph; simpl; auto)).
  rewrite forallb_forall in H.
  specialize (H pm ltac:(destruct pm; simpl; auto)).
  apply bool_decide_eq_true in H. exact H.
Qed.

(** X12: a time of day written as hours, colon, minutes, each with or
    without its leading zero ("09:05", "9:05", "9:5"), is parsed to that
    time.  So for two times so written the work hours are "0:00" when the
    second is not later than the first, and otherwise their difference in
    minutes, less 60 when it is more than 360, shown as hours, colon and
    two digits of minutes. *)
Theorem calculate_work_hours_on_times (p1 q1 p2 q2 : bool) (h1 m1 h2 m2 : Z) :
  0 <= h1 <= 23 -> 0 <= m1 <= 59 -> 0 <= h2 <= 23 -> 0 <= m2 <= 59 ->
  let worked := (h2 * 60 + m2) - (h1 * 60 + m1) in
  strptime_HM (written p1 q1 h1 m1) = Ret (mkDatetime h1 m1) /\
  calculate_work_hours (Some (written p1 q1 h1 m1)) (Some (written p2 q2 h2 m2))
    = Ret (if 0 <? worked
           then str_of_int (lunch_deduction worked / 60) +:+ ":" +:+
                format_02d (lunch_deduction worked mod 60)
           else "0:00").
Proof.
  intros H1 H2 H3 H4 worked.
  pose proof (strptime_HM_written p1 q1 h1 m1 H1 H2) as E1.
  pose proof (strptime_HM_written p2 q2 h2 m2 H3 H4) as E2.
  split; [exact E1|].
  rewrite (calculate_work_hours_parsed _ _ _ _ E1 E2). reflexivity.
Qed.

Lemma calculate_work_hours_on_times_witness :
  calculate_work_hours (Some "9:5") (Some "15:06") = Ret "5:01".
Proof.
  apply (calculate_work_hours_on_times false false true true 9 5 15 6); lia.
Defined.

(** ** What an upsert leaves alone *)




(** ** One record per employee and day, in every reachable state *)

Lemma filter_alter_length {A} (q : A -> bool) (f : A -> A) (xs : list A) (i : nat) :
  (forall x, q (f x) = q x) ->
  length (List.filter q (alter f i xs)) = length (List.filter q xs).
Proof.
  intros Hq. revert i. induction xs as [|x xs IH]; intros [|i]; simpl; try reflexivity.
  - rewrite Hq. destruct (q x); reflexivity.
  - specialize (IH i). destruct (q x); simpl; [f_equal|]; exact IH.
Qed.

Lemma one_per_day_update_at (a : AttendanceCreate.t) (hours : string) (i : nat)
    (rs : list record) :
  one_per_day rs -> one_per_day (update_at i (attendance_patch a hours) rs).
Proof.
  intros H e d. unfold records_of, update_at.
  rewrite filter_alter_length; [apply H|].
  intros r. unfold both_eqb.
  rewrite (field_eqb_same "employeeId" e r) by (apply patched_keeps; by_compute).
  rewrite (field_eqb_same "date" d r) by (apply patched_keeps; by_compute).
  reflexivity.
Qed.

Lemma one_per_day_snoc (a : AttendanceCreate.t) (uuid hours : string) (n dep : json)
    (rs : list record) :
  one_per_day rs ->
  List.find (both_eqb "employeeId" (AttendanceCreate.employeeId a)
                      "date" (AttendanceCreate.date a)) rs = None ->
  one_per_day (rs ++ [new_attendance_record a uuid n dep hours]).
Proof.
  intros H Hnone e d. unfold records_of. rewrite List.filter_app, length_app. simpl.
  destruct (both_eqb "employeeId" e "date" d _) eqn:E; simpl.
  - apply new_record_matches in E as [-> ->].
    rewrite (find_None_filter _ _ Hnone). simpl. lia.
  - specialize (H e d). unfold records_of in H. lia.
Qed.

Lemma mark_attendance_keeps_days (a : AttendanceCreate.t) (uuid : string) (st : store) :
  well_formed st ->
  one_per_day (contents st ATTENDANCE_FILE) ->
  one_per_day (contents (mark_attendance a uuid st).2 ATTENDANCE_FILE).
Proof.
  intros Hwf Hone.
  pose proof (Hwf EMPLOYEES_FILE) as Hemp. pose proof (Hwf ATTENDANCE_FILE) as Hatt.
  unfold mark_attendance, bind. rewrite !load_json_data_contents. unfold lift.
  rewrite (py_next_field _ _ Hemp "id" _ ltac:(by_compute)).
  destruct (py_not (List.find _ (contents st EMPLOYEES_FILE))) eqn:Hnot; [exact Hone|].
  destruct (py_not_false _ Hnot) as [employee Hfind]. rewrite Hfind.
  cbn [default from_option id].
  rewrite (py_next_decides _ _ _
             (same_employee_and_date_decides _ _ _
                (all_have_subset _ ["employeeId"; "date"] _ Hatt ltac:(subset_tac)))).
  destruct (calculate_work_hours_returns (AttendanceCreate.checkIn a)
              (AttendanceCreate.checkOut a)) as [hours ->].
  destruct (List.find _ (contents st ATTENDANCE_FILE)) as [existing|] eqn:Hexisting.
  - assert (Hq : py_not (Some existing) = false).
    { apply find_some in Hexisting as [_ Hq]. apply andb_prop in Hq as [He _].
      apply field_eqb_true in He. apply (py_not_nonempty _ _ _ He). }
    rewrite Hq. cbn [negb default from_option id].
    destruct (py_index _ _) as [[i|]|]; cbn [rbind]; simpl; try exact Hone.
    apply one_per_day_update_at, Hone.
  - cbn [py_not negb].
    destruct (getitem employee "name") as [n|]; cbn [rbind]; [|exact Hone].
    destruct (getitem employee "departmentName") as [dep|]; cbn [rbind]; [|exact Hone].
    simpl. apply (one_per_day_snoc a uuid hours n dep _ Hone Hexisting).
Qed.

Lemma handle_keeps_days (r : request) (st : store) :
  well_formed st ->
  one_per_day (contents st ATTENDANCE_FILE) ->
  one_per_day (contents (handle r st).2 ATTENDANCE_FILE).
Proof.
  intros Hwf Hone.
  assert (Hframe : ATTENDANCE_FILE ∉ writes_of r ->
                   one_per_day (contents (handle r st).2 ATTENDANCE_FILE)).
  { intros Hout. destruct (touches_handle r st) as [Hd _].
    unfold contents. rewrite (Hd _ Hout). exact Hone. }
  destruct r; try (apply Hframe; by_compute).
  apply mark_attendance_keeps_days; assumption.
Qed.

Lemma first_start_one_per_day (today yesterday : string) :
  today <> yesterday ->
  one_per_day (contents (first_start today yesterday) ATTENDANCE_FILE).
Proof.
  intros Hne. apply one_per_day_check.
  change (NoDup [("1", today); ("2", today); ("3", today); ("4", today); ("5", today);
                 ("1", yesterday); ("2", yesterday)]).
  repeat (apply NoDup_cons; split;
          [let Hin := fresh "Hin" in
           intros Hin;
           repeat (apply elem_of_cons in Hin as [Hin|Hin]; [congruence|]);
           inversion Hin|]).
  apply NoDup_nil. exact I.
Qed.

(** X14: when the two dates of the seed differ, every state reached from
    a first start has at most one attendance record per
    (employeeId, date) pair: the seed has, [POST /attendance] appends
    only for a pair without a record and its in-place update changes
    neither field, and no other request writes the attendance file. *)
Theorem reachable_one_per_day (today yesterday : string) (st : store) :
  today <> yesterday ->
  reachable today yesterday st ->
  one_per_day (contents st ATTENDANCE_FILE).
Proof.
  intros Hne [rs ->]. unfold serve.
  pose proof (first_start_well_formed today yesterday) as Hwf.
  pose proof (first_start_one_per_day today yesterday Hne) as Hone.
  revert Hwf Hone. generalize (first_start today yesterday).
  induction rs as [|r rs IH]; intros st Hwf Hone; simpl; [exact Hone|].
  apply IH; [apply keeps_handle, Hwf | apply handle_keeps_days; assumption].
Qed.

Lemma reachable_one_per_day_witness :
  one_per_day
    (contents (serve [POST_attendance (morning "3" "2025-01-16") "a8";
                      DELETE_employees "3";
                      POST_attendance (evening "3" "2025-01-16") "a9"] started)
              ATTENDANCE_FILE).
Proof.
  apply (reachable_one_per_day "2025-01-15" "2025-01-14").
  - discriminate.
  - eexists. reflexivity.
Defined.

(** ** Head counts are kept by the employee handlers *)

Lemma elem_of_insert_cases {A} (xs : list A) (i : nat) (x y : A) :
  y ∈ <[i := x]> xs -> y = x \/ exists j, j <> i /\ xs !! j = Some y.
Proof.
  intros H. apply list_elem_of_lookup in H as [j Hj].
  destruct (decide (i = j)) as [<-|Hne].
  - destruct (decide (i < length xs)%nat) as [Hlt|Hge].
    + rewrite list_lookup_insert_eq in Hj by exact Hlt. left. congruence.
    + rewrite list_insert_ge in Hj by lia.
      apply lookup_lt_Some in Hj. lia.
  - rewrite list_lookup_insert_ne in Hj by assumption. right. exists j. auto.
Qed.

Lemma employees_of_snoc (dep : string) (es : list record) (e : record) :
  employees_of dep (es ++ [e])
    = employees_of dep es + (if field_eqb "departmentId" dep e then 1 else 0).
Proof.
  unfold employees_of. rewrite List.filter_app, length_app. simpl.
  destruct (field_eqb "departmentId" dep e); simpl; lia.
Qed.

(** Removing the records that satisfy [p], when exactly one does. *)
Lemma filter_removed_one {A} (p q : A -> bool) (xs : list A) (k : nat) (e : A) :
  xs !! k = Some e -> p e = true ->
  (forall j x, xs !! j = Some x -> j <> k -> p x = false) ->
  (length (List.filter q (List.filter (fun x => negb (p x)) xs))
   + (if q e then 1 else 0))%nat
    = length (List.filter q xs).
Proof.
  revert k. induction xs as [|x xs IH]; intros k Hk Hp Hothers; [discriminate|].
  destruct k as [|k]; simpl in Hk.
  - injection Hk as ->. simpl. rewrite Hp. simpl.
    assert (Hrest : List.filter (fun x => negb (p x)) xs = xs).
    { apply filter_none. apply existsb_false_lookup.
      intros j y Hy. apply (Hothers (S j) y Hy). discriminate. }
    rewrite Hrest. destruct (q e); simpl; lia.
  - simpl. rewrite (Hothers 0%nat x eq_refl) by discriminate. simpl.
    specialize (IH k Hk Hp
                  (fun j y Hy Hj => Hothers (S j) y Hy ltac:(intros [= ->]; contradiction))).
    destruct (q x); simpl; lia.
Qed.

Lemma create_employee_keeps_counts (body : Employee.t) (uuid now : string) (st : store) :
  staff_ok st -> counts_agree st ->
  counts_agree (create_employee body uuid now st).2 /\
  (create_employee body uuid now st).1 <> Raise TypeError.
Proof.
  intros (Hemp & _ & _ & Hdep & Hdist) Hcounts.
  pose proof (all_have_key "phone" ["id"; "phone"] _ ltac:(by_compute) Hemp) as Hphone.
  pose proof (all_have_key "id" ["id"; "name"; "departmentNumber"; "districtName"] _
                ltac:(by_compute) Hdep) as Hid.
  rewrite (create_employee_run body uuid now st Hphone Hdep).
  destruct (existsb _ _); [split; [exact Hcounts | discriminate]|].
  destruct (List.find _ _) as [d|] eqn:Hfind; [|split; [exact Hcounts | discriminate]].
  destruct (find_Some_first _ _ _ Hfind) as (i & Hi & Hq & Hbefore).
  apply field_eqb_true in Hq.
  set (dep := Employee.departmentId body) in *.
  pose proof (Hcounts d dep ltac:(eapply list_elem_of_lookup_2; eauto) Hq) as Hn.
  rewrite (increment_employee_count_first dep _ i d
             (employees_of dep (contents st EMPLOYEES_FILE)) Hid Hi Hq);
    [| intros j y Hj Hy; rewrite <- field_eqb_true;
       rewrite (Hbefore j y Hj Hy); discriminate
     | unfold dict_get; rewrite Hn; reflexivity].
  cbv zeta. split; [|discriminate].
  set (new := <["createdAt" := _]> _).
  assert (Hnew : new !! "departmentId" = Some (JStr dep)) by reflexivity.
  intros d' dep' Hd' Hdep'.
  change (contents _ DEPARTMENTS_FILE)
    with (<[i := <["employeeCount" :=
                    JInt (employees_of dep (contents st EMPLOYEES_FILE) + 1)]> d]>
            (contents st DEPARTMENTS_FILE)) in Hd'.
  change (contents _ EMPLOYEES_FILE) with (contents st EMPLOYEES_FILE ++ [new]).
  rewrite employees_of_snoc.
  apply elem_of_insert_cases in Hd' as [-> | (j & Hj & Hd')].
  - rewrite lookup_insert_ne in Hdep' by discriminate.
    assert (dep' = dep) by congruence. subst dep'.
    rewrite lookup_insert_eq.
    replace (field_eqb "departmentId" dep new) with true
      by (symmetry; apply field_eqb_true, Hnew).
    reflexivity.
  - assert (Hne : dep' <> dep).
    { intros ->. apply Hj. exact (Hdist _ _ _ _ _ Hd' Hi Hdep' Hq). }
    rewrite (Hcounts d' dep' ltac:(eapply list_elem_of_lookup_2; eauto) Hdep').
    replace (field_eqb "departmentId" dep' new) with false.
    + rewrite Z.add_0_r. reflexivity.
    + symmetry. apply field_eqb_false. rewrite Hnew. congruence.
Qed.

Lemma employees_of_removed (dep employee_id : string) (es : list record)
    (k : nat) (e : record) :
  distinct_ids es -> es !! k = Some e -> e !! "id" = Some (JStr employee_id) ->
  employees_of dep (List.filter (fun x => negb (field_eqb "id" employee_id x)) es)
    + (if field_eqb "departmentId" dep e then 1 else 0)
    = employees_of dep es.
Proof.
  intros Hdist Hk He. unfold employees_of.
  rewrite <- (filter_removed_one (field_eqb "id" employee_id)
                (field_eqb "departmentId" dep) es k e Hk).
  - destruct (field_eqb "departmentId" dep e); lia.
  - apply field_eqb_true, He.
  - intros j x Hx Hj. apply field_eqb_false. intros Hid.
    apply Hj. exact (Hdist _ _ _ _ _ Hx Hk Hid He).
Qed.

Lemma delete_employee_keeps_counts (employee_id : string) (st : store) :
  staff_ok st -> counts_agree st ->
  counts_agree (delete_employee employee_id st).2 /\
  (delete_employee employee_id st).1 <> Raise TypeError.
Proof.
  intros (Hemp & Hdistinct & Hdeps & Hdep & Hdist) Hcounts.
  pose proof (all_have_key "id" ["id"; "phone"] _ ltac:(by_compute) Hemp) as Heid.
  pose proof (all_have_key "id" ["id"; "name"; "departmentNumber"; "districtName"] _
                ltac:(by_compute) Hdep) as Hid.
  rewrite (delete_employee_run employee_id st Heid).
  destruct (List.find _ _) as [e|] eqn:Hfind; [|split; [exact Hcounts | discriminate]].
  destruct (find_Some_first _ _ _ Hfind) as (k & Hk & Hq & _).
  apply field_eqb_true in Hq.
  assert (Hin : e ∈ contents st EMPLOYEES_FILE) by (eapply list_elem_of_lookup_2; eauto).
  destruct (proj1 (Forall_forall _ _) Hdeps e Hin) as [dep He].
  pose proof (fun dep' => employees_of_removed dep' employee_id _ k e Hdistinct Hk Hq)
    as Hremoved.
  cbv zeta.
  destruct (existsb (field_eqb "id" dep) (contents st DEPARTMENTS_FILE)) eqn:Hex.
  - apply List.existsb_exists in Hex as (d0 & Hd0 & Hd0id).
    destruct (List.find (field_eqb "id" dep) (contents st DEPARTMENTS_FILE))
      as [d|] eqn:Hfd.
    2:{ pose proof (List.find_none _ _ Hfd d0 Hd0) as Hno. congruence. }
    destruct (find_Some_first _ _ _ Hfd) as (i & Hi & Hdq & Hbefore).
    apply field_eqb_true in Hdq.
    pose proof (Hcounts d dep ltac:(eapply list_elem_of_lookup_2; eauto) Hdq) as Hn.
    rewrite (decrement_employee_count_first e dep _ i d
               (employees_of dep (contents st EMPLOYEES_FILE)) Hid He Hi Hdq);
      [| intros j y Hj Hy; rewrite <- field_eqb_true;
         rewrite (Hbefore j y Hj Hy); discriminate
       | unfold dict_get; rewrite Hn; reflexivity].
    split; [|discriminate].
    intros d' dep' Hd' Hdep'.
    change (contents _ DEPARTMENTS_FILE)
      with (<[i := <["employeeCount" :=
                      JInt (Z.max 0 (employees_of dep (contents st EMPLOYEES_FILE) - 1))]> d]>
              (contents st DEPARTMENTS_FILE)) in Hd'.
    change (contents _ EMPLOYEES_FILE)
      with (List.filter (fun x => negb (field_eqb "id" employee_id x))
              (contents st EMPLOYEES_FILE)).
    specialize (Hremoved dep').
    apply elem_of_insert_cases in Hd' as [-> | (j & Hj & Hd')].
    + rewrite lookup_insert_ne in Hdep' by discriminate.
      assert (dep' = dep) by congruence. subst dep'.
      rewrite lookup_insert_eq.
      rewrite (proj2 (field_eqb_true "departmentId" dep e) He) in Hremoved.
      assert (0 <= employees_of dep
                     (List.filter (fun x => negb (field_eqb "id" employee_id x))
                        (contents st EMPLOYEES_FILE)))
        by (unfold employees_of; lia).
      do 2 f_equal. lia.
    + assert (Hne : dep' <> dep).
      { intros ->. apply Hj. exact (Hdist _ _ _ _ _ Hd' Hi Hdep' Hdq). }
      rewrite (Hcounts d' dep' ltac:(eapply list_elem_of_lookup_2; eauto) Hdep').
      rewrite (field_eqb_false "departmentId" dep' e) in Hremoved
        by (rewrite He; congruence).
      do 2 f_equal. lia.
  - rewrite (decrement_employee_count_none e dep _ Hid He Hex).
    split; [|discriminate].
    intros d' dep' Hd' Hdep'.
    change (contents _ DEPARTMENTS_FILE) with (contents st DEPARTMENTS_FILE) in Hd'.
    change (contents _ EMPLOYEES_FILE)
      with (List.filter (fun x => negb (field_eqb "id" employee_id x))
              (contents st EMPLOYEES_FILE)).
    specialize (Hremoved dep').
    assert (Hne : dep' <> dep).
    { intros ->. apply not_true_iff_false in Hex. apply Hex.
      apply existsb_field_eqb. exists d'. auto. }
    rewrite (Hcounts d' dep' Hd' Hdep').
    rewrite (field_eqb_false "departmentId" dep' e) in Hremoved
      by (rewrite He; congruence).
    do 2 f_equal. lia.
Qed.

Lemma department_ids_check (es : list record) :
  forallb (fun e => match e !! "departmentId" with Some (JStr _) => true | _ => false end) es
    = true ->
  Forall (fun e => exists dep, e !! "departmentId" = Some (JStr dep)) es.
Proof.
  rewrite forallb_forall, Forall_forall. intros H e He.
  apply list_elem_of_In, H in He.
  destruct (e !! "departmentId") as [[]|]; try discriminate. eauto.
Qed.

Lemma counts_agree_check (st : store) :
  forallb (fun d => match d !! "id" with
                    | Some (JStr dep) =>
                        bool_decide (d !! "employeeCount"
                                     = Some (JInt (employees_of dep (contents st EMPLOYEES_FILE))))
                    | _ => true
                    end) (contents st DEPARTMENTS_FILE) = true ->
  counts_agree st.
Proof.
  rewrite forallb_forall. intros H d dep Hd Hid.
  apply list_elem_of_In, H in Hd. rewrite Hid in Hd.
  apply bool_decide_eq_true in Hd. exact Hd.
Qed.

Lemma staff_ok_check (st : store) :
  forallb (fun r => forallb (fun k => match r !! k with Some _ => true | None => false end)
                      ["id"; "phone"]) (contents st EMPLOYEES_FILE) = true ->
  bool_decide (NoDup (omap id_key (contents st EMPLOYEES_FILE))) = true ->
  forallb (fun e => match e !! "departmentId" with Some (JStr _) => true | _ => false end)
    (contents st EMPLOYEES_FILE) = true ->
  forallb (fun r => forallb (fun k => match r !! k with Some _ => true | None => false end)
                      ["id"; "name"; "departmentNumber"; "districtName"])
    (contents st DEPARTMENTS_FILE) = true ->
  bool_decide (NoDup (omap id_key (contents st DEPARTMENTS_FILE))) = true ->
  staff_ok st.
Proof.
  intros H1 H2 H3 H4 H5. repeat split.
  - apply all_have_check, H1.
  - apply distinct_ids_check. apply bool_decide_eq_true in H2. exact H2.
  - apply department_ids_check, H3.
  - apply all_have_check, H4.
  - apply distinct_ids_check. apply bool_decide_eq_true in H5. exact H5.
Qed.

(** X15: the stored head counts follow the employees.  In a store whose
    employees and departments have the keys the two handlers read, with
    a string [departmentId] on every employee, where employee ids and
    department ids are distinct and every department's [employeeCount]
    is the number of employees whose [departmentId] is that department's
    id, [POST /employees] and [DELETE /employees/{id}] lead to a store
    where the counts again are those numbers, whether the request
    succeeds or is refused, and neither raises a [TypeError]. *)
Theorem employee_requests_keep_counts (r : request) (st : store) :
  counts r = true -> staff_ok st -> counts_agree st ->
  counts_agree (handle r st).2 /\ (handle r st).1 <> Raise TypeError.
Proof.
  intros Hr Hok Hcounts. destruct r; try discriminate Hr; simpl.
  - apply create_employee_keeps_counts; assumption.
  - apply delete_employee_keeps_counts; assumption.
Qed.

Lemma employee_requests_keep_counts_witness :
  counts_agree (handle (DELETE_employees "1") started).2 /\
  (handle (DELETE_employees "1") started).1 <> Raise TypeError.
Proof.
  apply (employee_requests_keep_counts (DELETE_employees "1") started).
  - reflexivity.
  - apply staff_ok_check; vm_compute; reflexivity.
  - apply counts_agree_check. vm_compute. reflexivity.
Defined.
